(** * Schema normalisation of the Citi Bike trip-data pipeline

    A shallow embedding of [process_citibike_data_lambda.py]: the filename
    metadata extractor, the column normaliser, the schema registry updater
    and the transform engine, followed by the properties established about
    them.

    Conventions.
    - A Python [str] is a Rocq [string]; its characters stand for the code
      points 0..255.
    - A Python call either returns or raises: [result A].
    - A [dict] used as a map is a [gmap string _]; the registry, which the
      code mutates in place, is threaded explicitly and is still observable
      after a call that raised.
    - A pandas DataFrame is the ordered list of its labelled columns; labels
      may repeat, as they may in pandas. *)

From Stdlib Require Import ZArith NArith String Ascii List Bool Lia.
From stdpp Require Import base option list gmap strings pretty.

Local Open Scope string_scope.
Local Open Scope list_scope.

(* ===================================================================== *)
(** * Python values: exceptions and results *)
(* ===================================================================== *)

(** The exceptions met in the module; [ClientError] is what the S3 client
    raises. *)
Inductive exn : Type :=
  | NameError (name : string)
  | KeyError (key : string)
  | AttributeError (attr : string)
  | ValueError (msg : string)
  | TypeError (msg : string)
  | ClientError (msg : string).

Inductive result (A : Type) : Type :=
  | Return (a : A)
  | Raise (e : exn).
Arguments Return {A} a.
Arguments Raise {A} e.

Definition rbind {A B : Type} (m : result A) (k : A -> result B) : result B :=
  match m with
  | Return a => k a
  | Raise e => Raise e
  end.

(** [try: m  except Exception: h] *)
Definition try_except {A : Type} (m : result A) (h : exn -> result A) : result A :=
  match m with
  | Return a => Return a
  | Raise e => h e
  end.

#[export] Instance result_ret : MRet result := fun _ a => Return a.
#[export] Instance result_bind : MBind result := fun _ _ k m => rbind m k.

(* ===================================================================== *)
(** * Python strings *)
(* ===================================================================== *)

Definition code (c : ascii) : N := N_of_ascii c.

Definition in_range (lo hi : N) (c : ascii) : bool :=
  ((lo <=? code c) && (code c <=? hi))%N.

(** [str.isspace] on one character: TAB..CR, FS..US, SPACE, NEL, NBSP. *)
Definition isspace (c : ascii) : bool :=
  in_range 9 13 c || in_range 28 32 c || (code c =? 133)%N || (code c =? 160)%N.

(** the class [\d] of [re] on a [str] pattern *)
Definition isdigit (c : ascii) : bool := in_range 48 57 c.

(** [str.lower] on one character: A..Z and the upper-case Latin-1 letters. *)
Definition lower_char (c : ascii) : ascii :=
  if in_range 65 90 c || in_range 192 214 c || in_range 216 222 c
  then ascii_of_N (code c + 32)
  else c.

Fixpoint lower (s : string) : string :=
  match s with
  | EmptyString => EmptyString
  | String c s' => String (lower_char c) (lower s')
  end.

Fixpoint lstrip (s : string) : string :=
  match s with
  | EmptyString => EmptyString
  | String c s' => if isspace c then lstrip s' else s
  end.

Fixpoint rstrip (s : string) : string :=
  match s with
  | EmptyString => EmptyString
  | String c s' =>
      match rstrip s' with
      | EmptyString => if isspace c then EmptyString else String c EmptyString
      | r => String c r
      end
  end.

(** [s.strip()] *)
Definition strip (s : string) : string := rstrip (lstrip s).

(** [s.startswith(p)] *)
Fixpoint startswith (p s : string) : bool :=
  match p, s with
  | EmptyString, _ => true
  | String a p', String b s' => if Ascii.eqb a b then startswith p' s' else false
  | String _ _, EmptyString => false
  end.

(** [p in s] *)
Fixpoint contains (p s : string) : bool :=
  startswith p s ||
  match s with
  | EmptyString => false
  | String _ s' => contains p s'
  end.

(** [s[n:]] *)
Fixpoint drop_chars (n : nat) (s : string) : string :=
  match n, s with
  | O, _ => s
  | S n', String _ s' => drop_chars n' s'
  | S _, EmptyString => EmptyString
  end.

(** The scan of [s.replace(old, new)] for a non-empty [old]: occurrences are
    taken leftmost first and do not overlap; [skip] counts the characters of
    the occurrence just replaced that are still to be passed over. *)
Fixpoint replace_from (skip : nat) (old new s : string) : string :=
  match s with
  | EmptyString => EmptyString
  | String c s' =>
      match skip with
      | S k => replace_from k old new s'
      | O =>
          if startswith old s
          then new +:+ replace_from (String.length old - 1) old new s'
          else String c (replace_from 0 old new s')
      end
  end.

Fixpoint interleave (new s : string) : string :=
  match s with
  | EmptyString => new
  | String c s' => new +:+ String c (interleave new s')
  end.

(** [s.replace(old, new)] *)
Definition replace (old new s : string) : string :=
  match old with
  | EmptyString => interleave new s
  | String _ _ => replace_from 0 old new s
  end.

(** [os.path.basename(p)] of posixpath: what follows the last slash. *)
Fixpoint basename (p : string) : string :=
  match p with
  | EmptyString => EmptyString
  | String c p' =>
      if contains "/" p' then basename p'
      else if Ascii.eqb c "/" then p' else p
  end.

(** [s.split(sep)[0]] for a one-character separator *)
Fixpoint split_head (sep : ascii) (s : string) : string :=
  match s with
  | EmptyString => EmptyString
  | String c s' => if Ascii.eqb c sep then EmptyString else String c (split_head sep s')
  end.

(** [str(None)] and [str(s)] as an f-string prints an optional string *)
Definition fmt_opt (o : option string) : string :=
  match o with
  | Some s => s
  | None => "None"
  end.

(** truth value of a value that is [None] or a [str] *)
Definition truthy (o : option string) : bool :=
  match o with
  | Some EmptyString => false
  | Some _ => true
  | None => false
  end.

(** A string of whitespace only *)
Fixpoint blank (s : string) : bool :=
  match s with
  | EmptyString => true
  | String c s' => isspace c && blank s'
  end.

(** Two strings of one length whose characters agree up to letter case *)
Fixpoint same_letters (s t : string) : bool :=
  match s, t with
  | EmptyString, EmptyString => true
  | String a s', String b t' => Ascii.eqb (lower_char a) (lower_char b) && same_letters s' t'
  | _, _ => false
  end.

(** Two raw names that differ only by letter case and by leading or trailing
    whitespace: each is a core between two blank paddings, and the cores agree
    up to case. *)
Definition differ_by_case_and_padding (r1 r2 : string) : Prop :=
  exists p1 c1 q1 p2 c2 q2,
    r1 = p1 +:+ c1 +:+ q1 /\ r2 = p2 +:+ c2 +:+ q2 /\
    blank p1 = true /\ blank q1 = true /\ blank p2 = true /\ blank q2 = true /\
    same_letters c1 c2 = true.

(* ===================================================================== *)
(** * The regular expressions of the metadata extractor *)
(* ===================================================================== *)

(** [(20\d{2})] matched at the start of [s] *)
Definition year_here (s : string) : option string :=
  match s with
  | String "2" (String "0" (String a (String b _))) =>
      if isdigit a && isdigit b
      then Some (String "2" (String "0" (String a (String b EmptyString))))
      else None
  | _ => None
  end.

(** [(\d{2})] matched at the start of [s] *)
Definition two_digits_here (s : string) : option string :=
  match s with
  | String a (String b _) =>
      if isdigit a && isdigit b then Some (String a (String b EmptyString)) else None
  | _ => None
  end.

(** [re.search(r'^(20\d{2})-citibike-tripdata', s)]: group 1 *)
Definition annual_match (s : string) : option string :=
  match year_here s with
  | Some y => if startswith "-citibike-tripdata" (drop_chars 4 s) then Some y else None
  | None => None
  end.

(** [(20\d{2})(\d{2})] matched at the start of [s]: groups 1 and 2 *)
Definition year_month_here (s : string) : option (string * string) :=
  match year_here s, two_digits_here (drop_chars 4 s) with
  | Some y, Some m => Some (y, m)
  | _, _ => None
  end.

(** [re.search(r'^(20\d{2})(\d{2})-citibike-tripdata', s)]: groups 1 and 2 *)
Definition monthly_match (s : string) : option (string * string) :=
  match year_month_here s with
  | Some ym => if startswith "-citibike-tripdata" (drop_chars 6 s) then Some ym else None
  | None => None
  end.

(** [re.search(r'(20\d{2})', s)]: group 1 of the leftmost match *)
Fixpoint year_match (s : string) : option string :=
  match year_here s with
  | Some y => Some y
  | None =>
      match s with
      | EmptyString => None
      | String _ s' => year_match s'
      end
  end.

(** [re.search(r'(20\d{2})(\d{2})', s)]: groups 1 and 2 of the leftmost match *)
Fixpoint month_match (s : string) : option (string * string) :=
  match year_month_here s with
  | Some ym => Some ym
  | None =>
      match s with
      | EmptyString => None
      | String _ s' => month_match s'
      end
  end.

(* ===================================================================== *)
(** * pandas data *)
(* ===================================================================== *)

(** One value of a column.  A float other than NaN and a timestamp are
    carried by the text [str] prints for them. *)
Inductive cell : Type :=
  | VStr (s : string)
  | VInt (z : Z)
  | VFloat (text : string)
  | VBool (b : bool)
  | VNaN
  | VNone
  | VTimestamp (text : string)
  | VNaT.

Inductive dtype : Type := object_ | int64 | float64 | bool_ | datetime64.

(** [str(dtype)] *)
Definition dtype_name (d : dtype) : string :=
  match d with
  | object_ => "object"
  | int64 => "int64"
  | float64 => "float64"
  | bool_ => "bool"
  | datetime64 => "datetime64[ns]"
  end.

Definition dtype_eqb (a b : dtype) : bool := String.eqb (dtype_name a) (dtype_name b).

Record series : Type := Series { s_dtype : dtype; s_values : list cell }.

(** The columns of a DataFrame, left to right, each with its label. *)
Abbreviation frame := (list (string * series)).

(* ===================================================================== *)
(** * The module [process_citibike_data_lambda] *)
(* ===================================================================== *)

Definition PROCESSED_DATA_PREFIX : string := "processed_data/".

(** The names bound at module level: the five imports, the four constants
    and the functions.  There is no [import os]. *)
Definition module_globals : list string :=
  [ "boto3"; "pd"; "io"; "json"; "datetime";
    "SOURCE_BUCKET"; "DESTINATION_BUCKET"; "SCHEMA_KEY"; "PROCESSED_DATA_PREFIX";
    "lambda_handler"; "load_existing_schema"; "extract_files_from_event";
    "list_unprocessed_files"; "read_file_to_dataframe";
    "update_schema_with_new_columns"; "normalize_column_name"; "transform_data";
    "save_dataframe_to_s3"; "save_schema_to_s3"; "extract_metadata_from_filename";
    "generate_destination_key" ].

(** Evaluating a name that no enclosing function binds: it is looked up in
    the module's globals (none of the names used is a builtin). *)
Definition load_global (globals : list string) (name : string) : result unit :=
  if bool_decide (name ∈ globals) then Return tt else Raise (NameError name).

Record file_metadata : Type := Metadata {
  md_year : option string;
  md_month : option string;
  md_region : string;
  md_type : string
}.

(** The dict always has its four keys; [year] and [month] start as [None].
    After [import re] and the default dict, the first statement evaluates
    [os.path.basename]. *)
Definition extract_metadata_from_filename
    (globals : list string) (filename : string) : result file_metadata :=
  _ ← load_global globals "os";
  let base_filename := basename filename in
  let region := if contains "JC-" base_filename then "jc" else "nyc" in
  let base_part :=
    if contains "JC-" base_filename then replace "JC-" "" base_filename
    else base_filename in
  match annual_match base_part with
  | Some y => Return (Metadata (Some y) None region "annual")
  | None =>
      match monthly_match base_part with
      | Some (y, m) => Return (Metadata (Some y) (Some m) region "monthly")
      | None =>
          match year_match base_part with
          | Some y =>
              match month_match base_part with
              | Some (_, m) => Return (Metadata (Some y) (Some m) region "monthly")
              | None => Return (Metadata (Some y) None region "annual")
              end
          | None => Return (Metadata None None region "unknown")
          end
      end
  end.

(** The three [get] calls find their keys, so a missing year prints as
    [None]. *)
Definition generate_destination_key
    (globals : list string) (file_key : string) (md : file_metadata) : result string :=
  let year := md_year md in
  let month := md_month md in
  let region := md_region md in
  _ ← load_global globals "os";
  let filename := basename file_key in
  let base_name := split_head "." filename in
  if truthy month
  then Return (PROCESSED_DATA_PREFIX +:+ region +:+ "/" +:+ fmt_opt year +:+ "/"
               +:+ fmt_opt month +:+ "/" +:+ base_name +:+ ".parquet")
  else Return (PROCESSED_DATA_PREFIX +:+ region +:+ "/" +:+ fmt_opt year +:+ "/"
               +:+ base_name +:+ ".parquet").

(** The body of the [try] of [read_file_to_dataframe].  [get_object] is the
    outcome of the S3 request; [rest] is what follows the evaluation of
    [os.path.splitext(key.lower())], given the response. *)
Definition read_file_body
    (globals : list string) (get_object : result string)
    (rest : string -> result (option frame)) : result (option frame) :=
  response ← get_object;
  _ ← load_global globals "os";
  rest response.

(** [except Exception as e: print(...); return None] *)
Definition read_file_to_dataframe
    (globals : list string) (get_object : result string)
    (rest : string -> result (option frame)) : result (option frame) :=
  try_except (read_file_body globals get_object rest) (fun _ => Return None).

(** A dict display: a later entry for a key replaces an earlier one. *)
Definition dict_of (entries : list (string * string)) : gmap string string :=
  fold_left (fun m kv => <[kv.1 := kv.2]> m) entries ∅.

Definition nyc_mapping : gmap string string :=
  dict_of
    [ ("tripduration", "trip_duration");
      ("starttime", "start_time");
      ("stoptime", "stop_time");
      ("start_station_name", "start_station_name");
      ("end_station_name", "end_station_name");
      ("start_station_id", "start_station_id");
      ("end_station_id", "end_station_id");
      ("start_lat", "start_latitude");
      ("start_lng", "start_longitude");
      ("end_lat", "end_latitude");
      ("end_lng", "end_longitude");
      ("bikeid", "bike_id");
      ("usertype", "user_type");
      ("birth_year", "birth_year");
      ("gender", "gender");
      ("member_casual", "member_type");
      ("rideable_type", "rideable_type");
      ("started_at", "start_time");
      ("ended_at", "stop_time");
      ("start_station_latitude", "start_latitude");
      ("start_station_longitude", "start_longitude");
      ("end_station_latitude", "end_latitude");
      ("end_station_longitude", "end_longitude");
      ("start_lat", "start_latitude");
      ("start_lng", "start_longitude");
      ("end_lat", "end_latitude");
      ("end_lng", "end_longitude");
      ("station_id", "start_station_id");
      ("name", "start_station_name") ].

Definition jc_mapping : gmap string string :=
  dict_of
    [ ("tripduration", "trip_duration");
      ("starttime", "start_time");
      ("stoptime", "stop_time");
      ("start_station_name", "start_station_name");
      ("end_station_name", "end_station_name");
      ("start_station_id", "start_station_id");
      ("end_station_id", "end_station_id");
      ("start_lat", "start_latitude");
      ("start_lng", "start_longitude");
      ("end_lat", "end_latitude");
      ("end_lng", "end_longitude");
      ("bikeid", "bike_id");
      ("usertype", "user_type");
      ("birth_year", "birth_year");
      ("gender", "gender");
      ("member_casual", "member_type");
      ("rideable_type", "rideable_type");
      ("started_at", "start_time");
      ("ended_at", "stop_time");
      ("start_station_latitude", "start_latitude");
      ("start_station_longitude", "start_longitude");
      ("end_station_latitude", "end_latitude");
      ("end_station_longitude", "end_longitude");
      ("start_lat", "start_latitude");
      ("start_lng", "start_longitude");
      ("end_lat", "end_latitude");
      ("end_lng", "end_longitude");
      ("station_id", "start_station_id");
      ("name", "start_station_name") ].

Definition normalize_column_name (column_name region : string) : string :=
  let normalized := replace " " "_" column_name in
  let mapping := if String.eqb region "nyc" then nyc_mapping else jc_mapping in
  match mapping !! normalized with
  | Some canonical => canonical
  | None => normalized
  end.

(* ===================================================================== *)
(** * The schema registry *)
(* ===================================================================== *)

Record column_info : Type := ColumnInfo {
  data_type : string;
  first_seen_year : string;
  first_seen_month : option string;
  first_seen_region : string;
  normalized_name : string
}.

Record source_info : Type := SourceInfo {
  src_year : string;
  src_month : option string;
  src_region : string;
  src_columns : list string
}.

(** The registry [schema_dict].  It is loaded from JSON, so each top-level
    key may be missing: [None]. *)
Record schema : Type := Schema {
  columns : option (gmap string column_info);
  column_mappings : option (gmap string string);
  sources : option (gmap string source_info);
  last_updated : option string
}.

Definition set_columns (v : gmap string column_info) (sd : schema) : schema :=
  Schema (Some v) (column_mappings sd) (sources sd) (last_updated sd).
Definition set_column_mappings (v : gmap string string) (sd : schema) : schema :=
  Schema (columns sd) (Some v) (sources sd) (last_updated sd).
Definition set_sources (v : gmap string source_info) (sd : schema) : schema :=
  Schema (columns sd) (column_mappings sd) (Some v) (last_updated sd).
Definition set_last_updated (v : string) (sd : schema) : schema :=
  Schema (columns sd) (column_mappings sd) (sources sd) (Some v).

(** The registry of [load_existing_schema] when none is stored. *)
Definition empty_schema (now : string) : schema :=
  Schema (Some ∅) (Some ∅) (Some ∅) (Some now).

(** What [datetime.now()] gives during one call: [str(now.year)] and
    [now.isoformat()]. *)
Record clock : Type := Clock { now_year : string; now_isoformat : string }.

(** A computation on the registry: the registry it leaves behind, also when
    it raises, and its outcome. *)
Definition stateful (A : Type) : Type := schema -> schema * result A.

Definition sbind {A B : Type} (m : stateful A) (k : A -> stateful B) : stateful B :=
  fun sd =>
    match m sd with
    | (sd', Return a) => k a sd'
    | (sd', Raise e) => (sd', Raise e)
    end.

Definition sreturn {A : Type} (a : A) : stateful A := fun sd => (sd, Return a).
Definition sraise {A : Type} (e : exn) : stateful A := fun sd => (sd, Raise e).
Definition slift {A : Type} (r : result A) : stateful A := fun sd => (sd, r).
Definition modify (f : schema -> schema) : stateful unit := fun sd => (f sd, Return tt).

(** [for x in xs: body(x)] *)
Fixpoint for_each {A : Type} (body : A -> stateful unit) (xs : list A) : stateful unit :=
  match xs with
  | [] => sreturn tt
  | x :: xs' => sbind (body x) (fun _ => for_each body xs')
  end.

(* ===================================================================== *)
(** * DataFrame operations *)
(* ===================================================================== *)

(** [df.columns] *)
Definition labels (df : frame) : list string := map fst df.

Definition labelled (label : string) (c : string * series) : bool :=
  String.eqb (fst c) label.

(** [label in df.columns] *)
Definition has_column (df : frame) (label : string) : bool :=
  existsb (labelled label) df.

(** [df[label]] is a Series when one column carries the label and a
    DataFrame when several do. *)
Inductive selection : Type :=
  | OneSeries (s : series)
  | SubFrame (cols : list series).

Definition getitem (df : frame) (label : string) : result selection :=
  match map snd (List.filter (labelled label) df) with
  | [] => Raise (KeyError label)
  | [s] => Return (OneSeries s)
  | cols => Return (SubFrame cols)
  end.

(** [.dtype]: a DataFrame has no such attribute. *)
Definition selection_dtype (sel : selection) : result dtype :=
  match sel with
  | OneSeries s => Return (s_dtype s)
  | SubFrame _ => Raise (AttributeError "dtype")
  end.

(** [.str]: a DataFrame has no such accessor. *)
Definition selection_str (sel : selection) : result series :=
  match sel with
  | OneSeries s => Return s
  | SubFrame _ => Raise (AttributeError "str")
  end.

(** [len(df)], for a frame with at least one column *)
Definition nrows (df : frame) : nat :=
  match df with
  | [] => 0
  | (_, s) :: _ => length (s_values s)
  end.

(** How many columns carry the label *)
Definition label_count (label : string) (df : frame) : nat :=
  length (List.filter (labelled label) df).

Definition replace_column (label : string) (new : series) (c : string * series)
    : string * series :=
  if labelled label c then (label, new) else c.

(** [df[label] = new]: every column that carries the label is replaced; a new
    label is appended on the right. *)
Definition setitem (df : frame) (label : string) (new : series) : frame :=
  if has_column df label
  then map (replace_column label new) df
  else df ++ [(label, new)].

(** [df[label] = 'text'] *)
Definition setitem_scalar (df : frame) (label text : string) : frame :=
  setitem df label (Series object_ (repeat (VStr text) (nrows df))).

(** [df.rename(columns=mapping)] *)
Definition rename (mapping : gmap string string) (df : frame) : frame :=
  map (fun c => (default (fst c) (mapping !! fst c), snd c)) df.

(** [str(v)], as [astype(str)] applies it to each value *)
Definition str_of_cell (v : cell) : string :=
  match v with
  | VStr s => s
  | VInt z => pretty z
  | VFloat text => text
  | VBool true => "True"
  | VBool false => "False"
  | VNaN => "nan"
  | VNone => "None"
  | VTimestamp text => text
  | VNaT => "NaT"
  end.

(** [v + suffix] for a string [suffix] *)
Definition cell_add_str (suffix : string) (v : cell) : result cell :=
  match v with
  | VStr s => Return (VStr (s +:+ suffix))
  | _ => Raise (TypeError "unsupported operand type(s) for +")
  end.

Fixpoint map_result {A B : Type} (f : A -> result B) (l : list A) : result (list B) :=
  match l with
  | [] => Return []
  | x :: l' => y ← f x; ys ← map_result f l'; Return (y :: ys)
  end.

(** [df[label] += suffix] *)
Definition add_suffix (df : frame) (label suffix : string) : result frame :=
  if has_column df label
  then map_result
         (fun c =>
            if labelled label c
            then vs ← map_result (cell_add_str suffix) (s_values (snd c));
                 Return (label, Series object_ vs)
            else Return c)
         df
  else Raise (KeyError label).

(** What the code takes from pandas without fixing it here: the per-value
    datetime parser behind [pd.to_datetime] (the text of the timestamp, or
    [None]: the value cannot be converted), the conditions under which [pd.to_datetime] fails for a whole
    Series, and [pd.to_numeric]. *)
Class Pandas : Type := {
  parse_datetime : cell -> option string;
  to_datetime_failure : series -> option exn;
  pd_to_numeric : series -> result series
}.


(* ===================================================================== *)
(** * [update_schema_with_new_columns] *)
(* ===================================================================== *)

(** [if 'sources' not in schema_dict: schema_dict['sources'] = {}] *)
Definition ensure_sources : stateful unit :=
  modify (fun sd =>
    match sources sd with
    | Some _ => sd
    | None => set_sources ∅ sd
    end).

(** [schema_dict['sources']] *)
Definition get_sources : stateful (gmap string source_info) :=
  fun sd =>
    match sources sd with
    | Some srcs => (sd, Return srcs)
    | None => (sd, Raise (KeyError "sources"))
    end.

(** [schema_dict['columns']] *)
Definition get_columns : stateful (gmap string column_info) :=
  fun sd =>
    match columns sd with
    | Some cols => (sd, Return cols)
    | None => (sd, Raise (KeyError "columns"))
    end.

(** [if source_key not in schema_dict['sources']: ... = {..., 'columns': []}] *)
Definition ensure_source_entry
    (source_key year : string) (month : option string) (region : string) : stateful unit :=
  sbind get_sources (fun srcs =>
    match srcs !! source_key with
    | Some _ => sreturn tt
    | None => modify (set_sources (<[source_key := SourceInfo year month region []]> srcs))
    end).

Definition append_column (column_name : string) (entry : source_info) : source_info :=
  SourceInfo (src_year entry) (src_month entry) (src_region entry)
             (src_columns entry ++ [column_name]).

(** [if column_name not in ...[source_key]['columns']: ....append(column_name)] *)
Definition record_source_column (source_key column_name : string) : stateful unit :=
  sbind get_sources (fun srcs =>
    match srcs !! source_key with
    | None => sraise (KeyError source_key)
    | Some entry =>
        if bool_decide (column_name ∈ src_columns entry)
        then sreturn tt
        else modify (set_sources (<[source_key := append_column column_name entry]> srcs))
    end).

(** [schema_dict['column_mappings'][column_name] = normalized_name], after
    creating the dict when the key is missing *)
Definition store_mapping (column_name normalized_name : string) : stateful unit :=
  modify (fun sd =>
    set_column_mappings
      (<[column_name := normalized_name]> (default ∅ (column_mappings sd))) sd).

(** [if column_name not in schema_dict['columns']: ...] *)
Definition register_column
    (column_name data_type year : string) (month : option string) (region : string)
    : stateful unit :=
  sbind get_columns (fun cols =>
    match cols !! column_name with
    | Some _ => sreturn tt
    | None =>
        let normalized_name := normalize_column_name column_name region in
        sbind
          (modify (set_columns
             (<[column_name := ColumnInfo data_type year month region normalized_name]> cols)))
          (fun _ => store_mapping column_name normalized_name)
    end).

(** The body of [for column in df.columns] *)
Definition observe_column
    (df : frame) (source_key year : string) (month : option string) (region : string)
    (column : string) : stateful unit :=
  let column_name := lower (strip column) in
  sbind (slift (sel ← getitem df column; selection_dtype sel)) (fun dt =>
  let data_type := dtype_name dt in
  sbind (record_source_column source_key column_name) (fun _ =>
  register_column column_name data_type year month region)).

Definition source_key_of (region year : string) (month : option string) : string :=
  if truthy month
  then region +:+ "_" +:+ year +:+ "_" +:+ fmt_opt month
  else region +:+ "_" +:+ year.

Definition update_schema_with_new_columns
    (df : frame) (file_metadata : file_metadata) (now : clock) : stateful unit :=
  let year0 := md_year file_metadata in
  let month := md_month file_metadata in
  let region := md_region file_metadata in
  let year := if truthy year0 then fmt_opt year0 else now_year now in
  let source_key := source_key_of region year month in
  sbind ensure_sources (fun _ =>
  sbind (ensure_source_entry source_key year month region) (fun _ =>
  sbind (for_each (observe_column df source_key year month region) (labels df)) (fun _ =>
  modify (set_last_updated (now_isoformat now))))).

(** [schema_dict['columns'].get(k)], and the like for the other two maps *)
Definition column_entry (sd : schema) (k : string) : option column_info :=
  match columns sd with
  | Some cols => cols !! k
  | None => None
  end.

Definition mapping_entry (sd : schema) (k : string) : option string :=
  match column_mappings sd with
  | Some maps => maps !! k
  | None => None
  end.

Definition source_entry (sd : schema) (k : string) : option source_info :=
  match sources sd with
  | Some srcs => srcs !! k
  | None => None
  end.

(** A source entry that kept its fields and whose column list was only
    appended to *)
Definition source_grows (e e' : source_info) : Prop :=
  src_year e' = src_year e /\ src_month e' = src_month e /\
  src_region e' = src_region e /\ src_columns e `prefix_of` src_columns e'.

(** [sd'] has every key of [sd], and every source entry of [sd] grown *)
Definition extends (sd sd' : schema) : Prop :=
  (forall k, is_Some (column_entry sd k) -> is_Some (column_entry sd' k)) /\
  (forall k, is_Some (mapping_entry sd k) -> is_Some (mapping_entry sd' k)) /\
  (forall k e, source_entry sd k = Some e ->
     exists e', source_entry sd' k = Some e' /\ source_grows e e').

(** [sd'] has every column of [sd] with the record and the mapping it had *)
Definition frozen (sd sd' : schema) : Prop :=
  forall k info, column_entry sd k = Some info ->
    column_entry sd' k = Some info /\ mapping_entry sd' k = mapping_entry sd k.

(** Every registry a computation leaves behind is related to the one it
    started from. *)
Definition preserves (R : schema -> schema -> Prop) {A : Type} (m : stateful A) : Prop :=
  forall sd, R sd (fst (m sd)).

(** One file of a batch; the registry after [calls], whatever each call's
    outcome ([lambda_handler] keeps the same dict when a call raises). *)
Definition update_call : Type := frame * file_metadata * clock.

Definition run_update (c : update_call) (sd : schema) : schema :=
  fst (update_schema_with_new_columns (fst (fst c)) (snd (fst c)) (snd c) sd).

Definition run_updates (calls : list update_call) (sd : schema) : schema :=
  fold_left (fun acc c => run_update c acc) calls sd.

(* ===================================================================== *)
(** * [transform_data] *)
(* ===================================================================== *)

Definition canonical_for (sd : schema) (region col : string) : string :=
  let col_lower := lower (strip col) in
  match default ∅ (column_mappings sd) !! col_lower with
  | Some canonical => canonical
  | None => normalize_column_name col_lower region
  end.

(** The dict [column_mapping] built by the first loop *)
Definition build_column_mapping (sd : schema) (region : string) (df : frame)
    : gmap string string :=
  fold_left (fun m col => <[col := canonical_for sd region col]> m) (labels df) ∅.

(** [.astype(str).str.replace('JC-', '').str.replace('JC', '')] on one value *)
Definition strip_jc (v : cell) : cell :=
  VStr (replace "JC" "" (replace "JC-" "" (str_of_cell v))).

Definition strip_jc_series (s : series) : series :=
  Series object_ (map strip_jc (s_values s)).

Section WithPandas.
Context `{Pandas}.

(** [pd.to_datetime(s, errors='coerce')] on a Series: a value that cannot be
    converted becomes NaT. *)
Definition coerce_datetime (v : cell) : cell :=
  match parse_datetime v with
  | Some text => VTimestamp text
  | None => VNaT
  end.

Definition pd_to_datetime_coerce (s : series) : result series :=
  match to_datetime_failure s with
  | Some e => Raise e
  | None => Return (Series datetime64 (map coerce_datetime (s_values s)))
  end.

(** [pd.to_datetime(df[col], errors='coerce')]: a DataFrame with a repeated
    label is refused. *)
Definition to_datetime_selection (sel : selection) : result series :=
  match sel with
  | OneSeries s => pd_to_datetime_coerce s
  | SubFrame _ => Raise (ValueError "cannot assemble with duplicate keys")
  end.

(** The station-id block for one of the two labels *)
Definition fix_station_id (label : string) (df : frame) : result frame :=
  if has_column df label
  then
    sel ← getitem df label;
    dt ← selection_dtype sel;
    if dtype_eqb dt object_
    then
      s ← selection_str sel;
      let df1 := setitem df label (strip_jc_series s) in
      try_except
        (sel1 ← getitem df1 label;
         match sel1 with
         | OneSeries s1 => s2 ← pd_to_numeric s1; Return (setitem df1 label s2)
         | SubFrame _ => Raise (TypeError "arg must be a list, tuple, 1-d array, or Series")
         end)
        (fun _ => Return df1)
    else Return df
  else Return df.

(** One value under [df.loc[mask, label] = 'JC - ' + df.loc[mask, label].astype(str)] *)
Definition prefix_value (v : cell) : cell :=
  if startswith "JC - " (str_of_cell v) then v else VStr ("JC - " +:+ str_of_cell v).

Definition prefix_mask (s : series) : list bool :=
  map (fun v => negb (startswith "JC - " (str_of_cell v))) (s_values s).

(** The column after the masked assignment; it becomes an object column as
    soon as one value is assigned. *)
Definition prefix_series (s : series) : series :=
  Series (if existsb id (prefix_mask s) then object_ else s_dtype s)
         (map prefix_value (s_values s)).

(** The station-name block for one of the two labels *)
Definition prefix_station_name (label : string) (df : frame) : result frame :=
  if has_column df label
  then
    sel ← getitem df label;
    s ← selection_str sel;
    Return (setitem df label (prefix_series s))
  else Return df.

Definition time_keywords : list string := ["time"; "date"; "started_at"; "ended_at"].

Definition has_time_keyword (col : string) : bool :=
  existsb (fun time_keyword => contains time_keyword (lower col)) time_keywords.

(** The body of the type-conversion loop for one label; the bare [except]
    swallows every failure. *)
Definition convert_column (df : frame) (col : string) : frame :=
  if has_time_keyword col
  then
    match sel ← getitem df col;
          s ← to_datetime_selection sel;
          Return (setitem df col s)
    with
    | Return df' => df'
    | Raise _ => df
    end
  else df.

Definition convert_datetime_columns (df : frame) : frame :=
  fold_left convert_column (labels df) df.

(** Block 1 of the Jersey City transformations *)
Definition fix_station_ids (df : frame) : result frame :=
  df ← fix_station_id "start_station_id" df;
  fix_station_id "end_station_id" df.

(** Block 2 of the Jersey City transformations *)
Definition prefix_station_names (df : frame) : result frame :=
  df ← prefix_station_name "start_station_name" df;
  prefix_station_name "end_station_name" df.

(** The region block *)
Definition region_transform (region : string) (df : frame) : result frame :=
  if String.eqb region "jc"
  then
    df ← fix_station_ids df;
    df ← prefix_station_names df;
    Return (setitem_scalar df "region" "jersey_city")
  else Return (setitem_scalar df "region" "new_york").

(** What the type-conversion loop leaves in the place of one column of [df]:
    the converted column when its label has a time keyword, is carried by no
    other column and the conversion returns; the column itself otherwise. *)
Definition convert_entry (df : frame) (c : string * series) : string * series :=
  if has_time_keyword (fst c) && Nat.eqb (label_count (fst c) df) 1
  then
    match pd_to_datetime_coerce (snd c) with
    | Return s => (fst c, s)
    | Raise _ => c
    end
  else c.

(** The value of the [data_source] column *)
Definition data_source_of (file_metadata : file_metadata) : string :=
  if truthy (md_month file_metadata)
  then (md_region file_metadata +:+ "_" +:+ fmt_opt (md_year file_metadata))
       +:+ ("_" +:+ fmt_opt (md_month file_metadata))
  else md_region file_metadata +:+ "_" +:+ fmt_opt (md_year file_metadata).

(** The frame after the rename step *)
Definition renamed (df : frame) (schema_dict : schema) (region : string) : frame :=
  rename (build_column_mapping schema_dict region df) df.

Definition transform_data (df : frame) (schema_dict : schema) (file_metadata : file_metadata)
    : result frame :=
  let region := md_region file_metadata in
  let column_mapping := build_column_mapping schema_dict region df in
  let df := rename column_mapping df in
  df ← region_transform region df;
  let df := convert_datetime_columns df in
  let df := setitem_scalar df "data_source"
              (region +:+ "_" +:+ fmt_opt (md_year file_metadata)) in
  if truthy (md_month file_metadata)
  then add_suffix df "data_source" ("_" +:+ fmt_opt (md_month file_metadata))
  else Return df.

End WithPandas.

(* ===================================================================== *)
(** * A pandas instance to run the model on text columns *)
(* ===================================================================== *)

Definition all_digits (s : string) : bool :=
  forallb isdigit (list_ascii_of_string s).

(** The layout [YYYY-MM-DD hh:mm:ss] of the trip files *)
Definition is_iso_timestamp (s : string) : bool :=
  match list_ascii_of_string s with
  | [y1; y2; y3; y4; d1; m1; m2; d2; a1; a2; sp; h1; h2; c1; n1; n2; c2; s1; s2] =>
      forallb isdigit [y1; y2; y3; y4; m1; m2; a1; a2; h1; h2; n1; n2; s1; s2]
      && forallb (Ascii.eqb "-") [d1; d2]
      && Ascii.eqb sp " "
      && forallb (Ascii.eqb ":") [c1; c2]
  | _ => false
  end.

Definition digit_value (c : ascii) : Z := Z.of_N (code c) - 48.

Definition decimal_value (s : string) : Z :=
  fold_left (fun acc c => 10 * acc + digit_value c)%Z (list_ascii_of_string s) 0%Z.

(** An integer literal of at least one digit *)
Definition int_literal (v : cell) : option Z :=
  match v with
  | VStr (String c s' as s) =>
      if all_digits s then Some (decimal_value s) else None
  | _ => None
  end.

Definition text_to_numeric (s : series) : result series :=
  match mapM int_literal (s_values s) with
  | Some zs => Return (Series int64 (map VInt zs))
  | None => Raise (ValueError "Unable to parse string")
  end.

(** Text in the layout of the trip files is a timestamp; any other value is
    taken as not convertible.  Unsigned integer literals are numeric; a column
    with any other value is refused by [to_numeric].  It is run below on
    columns of such literals, of timestamp text and of text with letters
    only. *)
Definition text_pandas : Pandas := {|
  parse_datetime v :=
    match v with
    | VStr s => if is_iso_timestamp s then Some s else None
    | VTimestamp text => Some text
    | _ => None
    end;
  to_datetime_failure _ := None;
  pd_to_numeric := text_to_numeric
|}.


(* ===================================================================== *)
(** * File keys: selection, reading and writing *)
(* ===================================================================== *)

(** [s.endswith(p)] *)
Fixpoint endswith (p s : string) : bool :=
  String.eqb p s ||
  match s with
  | EmptyString => false
  | String _ s' => endswith p s'
  end.

(** [s.endswith((p1, p2, ...))] *)
Definition endswith_any (suffixes : list string) (s : string) : bool :=
  existsb (fun p => endswith p s) suffixes.

(** [s.rsplit('.', 1)[0]]: what precedes the last dot, or [s] without one *)
Fixpoint rsplit_dot_head (s : string) : string :=
  match s with
  | EmptyString => EmptyString
  | String c s' =>
      if contains "." s' then String c (rsplit_dot_head s')
      else if Ascii.eqb c "." then EmptyString else s
  end.

(** [s[s.rfind('.'):]] when [s] has a dot, the empty string otherwise *)
Fixpoint from_last_dot (s : string) : string :=
  match s with
  | EmptyString => EmptyString
  | String c s' =>
      if contains "." s' then from_last_dot s'
      else if Ascii.eqb c "." then s else EmptyString
  end.

Fixpoint lstrip_dots (s : string) : string :=
  match s with
  | EmptyString => EmptyString
  | String c s' => if Ascii.eqb c "." then lstrip_dots s' else s
  end.

(** [os.path.splitext(p)[-1]]: the extension starts at the last dot of the
    last path component, the leading dots of the component set aside. *)
Definition splitext_ext (p : string) : string :=
  from_last_dot (lstrip_dots (basename p)).

(** One record of an S3 event notification *)
Record s3_record : Type := S3Record {
  event_source : string;
  bucket_name : string;
  object_key : string
}.

Definition csv_suffixes : list string := [".csv"; ".csv.gz"].

(** [key.lower().endswith(('.csv', '.csv.gz'))] *)
Definition is_csv_key (key : string) : bool := endswith_any csv_suffixes (lower key).

Definition extract_files_from_event (records : list s3_record) : list string :=
  List.filter (fun key => startswith "result_files/" key && is_csv_key key)
              (map object_key records).

(** [list_unprocessed_files] over the pages the paginator yields; a page has
    its [Contents], the keys of its objects, or none. *)
Definition list_unprocessed_files (pages : list (option (list string))) : list string :=
  flat_map
    (fun page =>
       match page with
       | Some keys => List.filter is_csv_key keys
       | None => []
       end)
    pages.

(** [df.columns = df.columns.str.strip()] *)
Definition strip_labels (df : frame) : frame :=
  map (fun c => (strip (fst c), snd c)) df.

(** What follows the evaluation of [os.path.splitext] in the [try] of
    [read_file_to_dataframe].  The function has an [import pandas as pd] of
    its own in the Excel branch, so [pd] is a local name of the whole function
    and is unbound where the CSV branch evaluates [pd.read_csv]: an
    [UnboundLocalError], which is a [NameError].  [read_excel] is the outcome
    of [pd.read_excel] on the body of the response. *)
Definition read_file_rest
    (key : string) (read_excel : string -> result frame) (response : string)
    : result (option frame) :=
  let file_ext := splitext_ext (lower key) in
  if String.eqb file_ext ".csv" || endswith ".csv.zip" (lower key)
  then Raise (NameError "pd")
  else if String.eqb file_ext ".xlsx" || String.eqb file_ext ".xls"
  then df ← read_excel response; Return (Some (strip_labels df))
  else Return None.

(** A write request sent to S3 *)
Inductive s3_request : Type :=
  | UploadFileobj (body key : string)
  | PutSchema (schema_dict : schema).

(** The key under which [save_dataframe_to_s3] uploads *)
Definition parquet_key (key : string) : string :=
  if endswith ".parquet" key then key else rsplit_dot_head key +:+ ".parquet".

(** [save_dataframe_to_s3]: the requests it sends and its outcome.
    [to_parquet] is the outcome of [df.to_parquet], [upload_fileobj] that of
    the upload. *)
Definition save_dataframe_to_s3
    (to_parquet : result string) (upload_fileobj : string -> string -> result unit)
    (key : string) : list s3_request * result string :=
  match to_parquet with
  | Raise e => ([], Raise e)
  | Return parquet_buffer =>
      let key := parquet_key key in
      ([UploadFileobj parquet_buffer key],
       _ ← upload_fileobj parquet_buffer key; Return key)
  end.


(* ===================================================================== *)
(** * Registry states met in the properties of the updater *)
(* ===================================================================== *)

(** The year the updater files a dataset under *)
Definition update_year (md : file_metadata) (now : clock) : string :=
  if truthy (md_year md) then fmt_opt (md_year md) else now_year now.

(** The source key the updater files a dataset under *)
Definition update_source_key (md : file_metadata) (now : clock) : string :=
  source_key_of (md_region md) (update_year md now) (md_month md).

(** The registry once the updater has made sure of its source entry, before
    it looks at the columns *)
Definition with_source_entry (md : file_metadata) (now : clock) (sd : schema) : schema :=
  fst (sbind ensure_sources
         (fun _ => ensure_source_entry (update_source_key md now) (update_year md now)
                     (md_month md) (md_region md)) sd).

(** Every column on record has a mapping. *)
Definition mapped (sd : schema) : Prop :=
  forall k, is_Some (column_entry sd k) -> is_Some (mapping_entry sd k).

(** Every mapping is the normaliser's, and every column record carries it. *)
Definition normal_mappings (sd : schema) : Prop :=
  (forall k v, mapping_entry sd k = Some v -> v = normalize_column_name k "nyc") /\
  (forall k info, column_entry sd k = Some info ->
     normalized_name info = normalize_column_name k "nyc").

(** No source lists a column twice. *)
Definition sources_unique (sd : schema) : Prop :=
  forall k e, source_entry sd k = Some e -> NoDup (src_columns e).

(** The registry has its [columns] key and the entry of the source. *)
Definition ready (key : string) (sd : schema) : Prop :=
  is_Some (columns sd) /\ is_Some (source_entry sd key).


(** The column is on record and listed by the source. *)
Definition recorded (key col : string) (sd : schema) : Prop :=
  is_Some (column_entry sd (lower (strip col))) /\
  exists e, source_entry sd key = Some e /\ lower (strip col) ∈ src_columns e.

Definition well_formed (sd : schema) : Prop :=
  mapped sd /\ normal_mappings sd /\ sources_unique sd.


(* ===================================================================== *)
(** * Labels met in the properties of the transform *)
(* ===================================================================== *)

(** The four labels the Jersey City blocks look at *)
Definition station_labels : list string :=
  ["start_station_id"; "end_station_id"; "start_station_name"; "end_station_name"].

(** The labels after [df[label] = ...] *)
Definition add_label (label : string) (ls : list string) : list string :=
  if bool_decide (label ∈ ls) then ls else ls ++ [label].

(** The value of the [region] column *)
Definition region_value (region : string) : string :=
  if String.eqb region "jc" then "jersey_city" else "new_york".


(* ===================================================================== *)
(** * [lambda_handler] of [process_citibike_data_lambda] *)
(* ===================================================================== *)

(** [load_existing_schema]: the stored registry, or the empty one when the
    request or the decoding fails.  [stored] is the outcome of both. *)
Definition load_existing_schema (stored : result schema) (now : string) : schema :=
  match stored with
  | Return schema_dict => schema_dict
  | Raise _ => empty_schema now
  end.

(** The event: its [Records] and its [files_to_process], when it has them. *)
Record event : Type := Event {
  ev_records : option (list s3_record);
  ev_files_to_process : option (list string)
}.

(** What leaves the handler uncaught: an exception of the module, or the
    [IndexError] of [event['Records'][0]]. *)
Inductive uncaught : Type :=
  | Propagated (e : exn)
  | IndexError.

Inductive outcome (A : Type) : Type :=
  | Finished (a : A)
  | Aborted (u : uncaught).
Arguments Finished {A} a.
Arguments Aborted {A} u.

Record processed_file : Type := ProcessedFile {
  pf_file : string;
  pf_destination : string;
  pf_rows : nat;
  pf_columns : nat
}.

Record response : Type := Response {
  status_code : nat;
  message : string;
  processed_files : list processed_file
}.

(** What S3, pandas and the clock answer during one run of the handler.  The
    answers for a file depend on its place [i] in the list of files. *)
Record environment : Type := Environment {
  env_stored_schema : result schema;
  env_load_time : string;
  env_pages : result (list (option (list string)));
  env_get_object : nat -> string -> result string;
  env_read_excel : nat -> string -> result frame;
  env_now : nat -> clock;
  env_to_parquet : nat -> frame -> result string;
  env_upload_fileobj : nat -> string -> string -> result unit;
  env_put_schema : schema -> result unit
}.

(** The three ways the handler finds its files *)
Definition select_files (env : environment) (ev : event) : outcome (list string) :=
  let otherwise :=
    match ev_files_to_process ev with
    | Some files => Finished files
    | None =>
        match env_pages env with
        | Return pages => Finished (list_unprocessed_files pages)
        | Raise e => Aborted (Propagated e)
        end
    end in
  match ev_records ev with
  | Some [] => Aborted IndexError
  | Some (r :: records) =>
      if String.eqb (event_source r) "aws:s3"
      then Finished (extract_files_from_event (r :: records))
      else otherwise
  | None => otherwise
  end.

(** The registry, the list [processed_files] and the requests sent so far *)
Record handler_state : Type := HandlerState {
  hs_schema : schema;
  hs_processed : list processed_file;
  hs_requests : list s3_request
}.

(** [df.empty] *)
Definition frame_empty (df : frame) : bool := Nat.eqb (nrows df) 0.

Section Handler.
Context `{Pandas}.

(** The [try] of the loop body; its [except] swallows every exception, and
    what was done before the exception stays done. *)
Definition try_process_file
    (globals : list string) (env : environment) (i : nat) (file_key : string)
    (file_metadata : file_metadata) (st : handler_state) : handler_state :=
  match read_file_to_dataframe globals (env_get_object env i file_key)
          (read_file_rest file_key (env_read_excel env i)) with
  | Return (Some df) =>
      if frame_empty df then st
      else
        let updated := update_schema_with_new_columns df file_metadata (env_now env i)
                         (hs_schema st) in
        let st1 := HandlerState (fst updated) (hs_processed st) (hs_requests st) in
        match snd updated with
        | Raise _ => st1
        | Return _ =>
            match transform_data df (fst updated) file_metadata with
            | Raise _ => st1
            | Return df' =>
                match generate_destination_key globals file_key file_metadata with
                | Raise _ => st1
                | Return destination_key =>
                    let saved := save_dataframe_to_s3 (env_to_parquet env i df')
                                   (env_upload_fileobj env i) destination_key in
                    let requests := hs_requests st ++ fst saved in
                    match snd saved with
                    | Raise _ => HandlerState (fst updated) (hs_processed st) requests
                    | Return _ =>
                        HandlerState (fst updated)
                          (hs_processed st
                           ++ [ProcessedFile file_key destination_key (nrows df') (length df')])
                          requests
                    end
                end
            end
        end
  | Return None => st
  | Raise _ => st
  end.

(** [for file_key in files_to_process]: the metadata are extracted outside
    the [try], so an exception of the extractor ends the loop and the
    handler. *)
Fixpoint process_files
    (globals : list string) (env : environment) (i : nat) (files : list string)
    (st : handler_state) : handler_state * result unit :=
  match files with
  | [] => (st, Return tt)
  | file_key :: files' =>
      match extract_metadata_from_filename globals file_key with
      | Raise e => (st, Raise e)
      | Return file_metadata =>
          process_files globals env (S i) files'
            (try_process_file globals env i file_key file_metadata st)
      end
  end.

(** The handler: the requests it sent to S3 and how it ended. *)
Definition lambda_handler
    (globals : list string) (env : environment) (ev : event)
    : list s3_request * outcome response :=
  let schema_dict := load_existing_schema (env_stored_schema env) (env_load_time env) in
  match select_files env ev with
  | Aborted u => ([], Aborted u)
  | Finished files_to_process =>
      match process_files globals env 0 files_to_process
              (HandlerState schema_dict [] []) with
      | (st, Raise e) => (hs_requests st, Aborted (Propagated e))
      | (st, Return _) =>
          (hs_requests st ++ [PutSchema (hs_schema st)],
           match env_put_schema env (hs_schema st) with
           | Raise e => Aborted (Propagated e)
           | Return _ =>
               Finished
                 (Response 200
                    ("Processed " +:+ pretty (length (hs_processed st)) +:+ " files")
                    (hs_processed st))
           end)
      end
  end.

End Handler.


Definition is_upload (r : s3_request) : Prop :=
  match r with
  | UploadFileobj _ _ => True
  | PutSchema _ => False
  end.

(** A reported file whose upload is among the requests *)
Definition uploaded (requests : list s3_request) (p : processed_file) : Prop :=
  endswith ".parquet" (pf_destination p) = true /\
  exists body, UploadFileobj body (pf_destination p) ∈ requests.


(* ===================================================================== *)
(** * The module [citibike_etl_orchestrator_lambda]: [generate_urls] *)
(* ===================================================================== *)

Definition RESULT_FILES_PREFIX : string := "result_files/".
Definition BASE_URL : string := "https://s3.amazonaws.com/tripdata/".

(** The names bound at module level in the orchestrator: its imports, its
    constants and its functions.  There is no import of [datetime]. *)
Definition orchestrator_globals : list string :=
  [ "generate_urls"; "boto3"; "json"; "urllib"; "zipfile"; "BytesIO"; "time"; "os";
    "SOURCE_BUCKET"; "DESTINATION_BUCKET"; "SCHEMA_KEY"; "PROCESSED_DATA_PREFIX";
    "RESULT_FILES_PREFIX"; "ARCHIVE_PREFIX"; "BASE_URL";
    "lambda_handler"; "download_citibike_file"; "unzip_citibike_file";
    "process_citibike_files"; "process_existing_files"; "cleanup_files";
    "trigger_glue_crawler" ].

(** [f"{n:02d}"] *)
Definition fmt_02d (n : Z) : string :=
  if Nat.ltb (String.length (pretty n)) 2 then "0" +:+ pretty n else pretty n.

(** The two URLs of one month and region *)
Definition monthly_urls (year month : Z) (region : string) : list string :=
  let filename := region +:+ pretty year +:+ fmt_02d month +:+ "-citibike-tripdata" in
  [BASE_URL +:+ filename +:+ ".csv.zip"; BASE_URL +:+ filename +:+ ".zip"].

(** The URL of one year and region, for the region of New York only *)
Definition yearly_urls (year : Z) (region : string) : list string :=
  if String.eqb region ""
  then [BASE_URL +:+ (pretty year +:+ "-citibike-tripdata.zip")]
  else [].

(** [generate_urls]; an argument that is [None] is the empty list here, the
    code treating both alike.  [current_year] is [datetime.now().year]. *)
Definition generate_urls
    (globals : list string) (current_year : Z)
    (years months : list Z) (regions : list string) : result (list string) :=
  years ← match years with
          | [] => _ ← load_global globals "datetime";
                  Return [current_year; (current_year - 1)%Z]
          | _ :: _ => Return years
          end;
  let regions := match regions with
                 | [] => [""; "JC-"]
                 | _ :: _ => regions
                 end in
  Return
    (flat_map
       (fun year =>
          match months with
          | _ :: _ =>
              flat_map (fun month => flat_map (monthly_urls year month) regions) months
          | [] => flat_map (yearly_urls year) regions
          end)
       years).


#[export] Instance exn_eq_dec : EqDecision exn.
Proof. solve_decision. Defined.

#[export] Instance result_eq_dec {A : Type} `{EqDecision A} : EqDecision (result A).
Proof. solve_decision. Defined.

#[export] Instance file_metadata_eq_dec : EqDecision file_metadata.
Proof. solve_decision. Defined.

(** The metadata a generated file name stands for *)
Definition monthly_metadata (year month : Z) (region : string) : file_metadata :=
  Metadata (Some (pretty year)) (Some (fmt_02d month))
           (if String.eqb region "" then "nyc" else "jc") "monthly".

Definition yearly_metadata (year : Z) : file_metadata :=
  Metadata (Some (pretty year)) None "nyc" "annual".

(** The extractor, with [os] bound, reads from every URL of a year and month
    the metadata they were generated from. *)
Definition urls_recognised (year month : Z) : bool :=
  forallb
    (fun region =>
       forallb
         (fun url =>
            bool_decide (extract_metadata_from_filename ("os" :: module_globals) url
                         = Return (monthly_metadata year month region)))
         (monthly_urls year month region))
    [""; "JC-"]
  && forallb
       (fun url =>
          bool_decide (extract_metadata_from_filename ("os" :: module_globals) url
                       = Return (yearly_metadata year)))
       (yearly_urls year "").

(* ===================================================================== *)
(** * The module [citibike_etl_orchestrator_lambda]: the steps of a run *)
(* ===================================================================== *)

(** The processing module as the orchestrator imports it *)
Abbreviation processing_environment := environment.
Abbreviation processing_event := Event.
Abbreviation processing_handler := lambda_handler.

Module Orchestrator.

(** A request the orchestrator sends to S3 or to Glue, or one the handler of
    [process_citibike_data_lambda] sends when it is called from here.  A
    request is on the list whether or not it was accepted. *)
Inductive request : Type :=
  | UploadFile (local_path key : string)
  | UploadMember (filename key : string)
  | CopyObject (source_key key : string)
  | DeleteObject (key : string)
  | StartCrawler (name : string)
  | Process (r : s3_request).

(** The dict [download_citibike_file] returns, with its keys [zip_key] and
    [message] or [error] and [message]; an error stands for its text. *)
Inductive download_result : Type :=
  | Downloaded (zip_key msg : string)
  | DownloadFailed (error : exn) (msg : string).

Inductive unzip_result : Type :=
  | Unzipped (csv_keys : list string) (msg : string)
  | UnzipFailed (error : exn) (msg : string).

Inductive process_result : Type :=
  | Processed (files : list processed_file) (msg : string)
  | ProcessFailed (error : uncaught) (msg : string).

Inductive cleanup_result : Type :=
  | CleanedUp (msg archive_location : string)
  | CleanupFailed (error : exn) (msg : string).

Inductive crawler_result : Type :=
  | Triggered (msg : string)
  | NotReady (msg : string)
  | TriggerFailed (error : exn) (msg : string).

(** One entry of [results] *)
Inductive url_result : Type :=
  | UrlDone (url : string) (download : download_result) (unzip : unzip_result)
            (process : process_result) (cleanup : cleanup_result)
  | UrlNotUnzipped (url : string) (download : download_result) (unzip : unzip_result)
  | UrlNotDownloaded (url : string) (download : download_result).

Definition result_url (r : url_result) : string :=
  match r with
  | UrlDone url _ _ _ _ => url
  | UrlNotUnzipped url _ _ => url
  | UrlNotDownloaded url _ => url
  end.

(** The body of a response of the handler *)
Inductive response_body : Type :=
  | NoUrls (msg : string)
  | NoExistingFiles (msg : string)
  | ExistingProcessed (msg : string) (files : list processed_file)
                      (crawler : option crawler_result)
  | ExistingFailed (msg : string) (error : uncaught)
  | UrlsProcessed (msg : string) (results : list url_result)
                  (crawler : option crawler_result).

Record response : Type := Response {
  status_code : nat;
  body : response_body
}.

(** The event as [event.get] reads it: a key that is missing has its default,
    the empty list, [True] for [trigger_crawler], [False] for
    [process_existing]. *)
Record event : Type := Event {
  ev_urls : list string;
  ev_filenames : list string;
  ev_years : list Z;
  ev_months : list Z;
  ev_regions : list string;
  ev_trigger_crawler : bool;
  ev_crawler_name : string;
  ev_process_existing : bool
}.

(** What the network, the file system, S3, Glue and the clock answer during
    one run.  The answers for a URL depend on its place [i] in the list of
    URLs, those for a member of an archive also on its place [j] in the
    archive.  [env_namelist] is the outcome of fetching the archive, opening
    it and listing it; [env_upload_member] that of opening a member and
    uploading it; [env_process] is what the processing module meets when it is
    called for the URL at place [i]. *)
Record environment : Type := Environment {
  env_current_year : Z;
  env_urlretrieve : nat -> string -> string -> result unit;
  env_upload_file : nat -> string -> string -> result unit;
  env_remove : nat -> string -> result unit;
  env_namelist : nat -> string -> result (list string);
  env_upload_member : nat -> nat -> string -> string -> result unit;
  env_process : nat -> processing_environment;
  env_copy_object : nat -> string -> string -> result unit;
  env_delete_object : nat -> string -> result unit;
  env_pages : result (list (option (list string)));
  env_get_crawler : string -> result string;
  env_start_crawler : string -> result unit
}.

(** [download_citibike_file]; [url.split('/')[-1]] is what follows the last
    slash. *)
Definition download_citibike_file
    (urlretrieve upload_file : string -> string -> result unit)
    (remove : string -> result unit) (url : string) : list request * download_result :=
  let filename := basename url in
  let local_path := "/tmp/" +:+ filename in
  let failed e := DownloadFailed e ("Failed to download or upload " +:+ filename) in
  match urlretrieve url local_path with
  | Raise e => ([], failed e)
  | Return _ =>
      let s3_key := filename in
      ([UploadFile local_path s3_key],
       match upload_file local_path s3_key with
       | Raise e => failed e
       | Return _ =>
           match remove local_path with
           | Raise e => failed e
           | Return _ =>
               Downloaded s3_key ("Successfully downloaded and uploaded " +:+ filename)
           end
       end)
  end.

Definition data_suffixes : list string := [".csv"; ".xlsx"; ".xls"].

(** [filename.lower().endswith(('.csv', '.xlsx', '.xls'))] *)
Definition is_data_member (filename : string) : bool :=
  endswith_any data_suffixes (lower filename).

(** The key a member of an archive is stored under; [os] is imported here. *)
Definition destination_key (zip_key filename : string) : string :=
  let zip_basename := replace ".zip" "" (basename zip_key) in
  RESULT_FILES_PREFIX +:+ zip_basename +:+ "/" +:+ filename.

(** [for filename in z.namelist()], from the member at place [j] on, with the
    keys collected so far *)
Fixpoint extract_members
    (upload_member : nat -> string -> string -> result unit) (zip_key : string)
    (j : nat) (names : list string) (csv_keys : list string)
    : list request * result (list string) :=
  match names with
  | [] => ([], Return csv_keys)
  | filename :: names' =>
      if is_data_member filename
      then
        let destination_key := destination_key zip_key filename in
        match upload_member j filename destination_key with
        | Raise e => ([UploadMember filename destination_key], Raise e)
        | Return _ =>
            let rest := extract_members upload_member zip_key (S j) names'
                          (csv_keys ++ [destination_key]) in
            (UploadMember filename destination_key :: fst rest, snd rest)
        end
      else extract_members upload_member zip_key (S j) names' csv_keys
  end.

(** [unzip_citibike_file] *)
Definition unzip_citibike_file
    (namelist : string -> result (list string))
    (upload_member : nat -> string -> string -> result unit) (zip_key : string)
    : list request * unzip_result :=
  match namelist zip_key with
  | Raise e => ([], UnzipFailed e ("Failed to unzip " +:+ zip_key))
  | Return names =>
      let extracted := extract_members upload_member zip_key 0 names [] in
      (fst extracted,
       match snd extracted with
       | Raise e => UnzipFailed e ("Failed to unzip " +:+ zip_key)
       | Return csv_keys =>
           Unzipped csv_keys
             ("Successfully extracted " +:+ pretty (length csv_keys)
              +:+ " files from " +:+ zip_key)
       end)
  end.

(** [cleanup_files] *)
Definition cleanup_files
    (copy_object : string -> string -> result unit)
    (delete_object : string -> result unit) (zip_key : string)
    : list request * cleanup_result :=
  let archive_key := "archive/" +:+ zip_key in
  let failed e := CleanupFailed e ("Failed to clean up " +:+ zip_key) in
  match copy_object zip_key archive_key with
  | Raise e => ([CopyObject zip_key archive_key], failed e)
  | Return _ =>
      ([CopyObject zip_key archive_key; DeleteObject zip_key],
       match delete_object zip_key with
       | Raise e => failed e
       | Return _ =>
           CleanedUp ("Successfully moved " +:+ zip_key +:+ " to archive location")
                     archive_key
       end)
  end.

(** [trigger_glue_crawler]; [get_crawler] gives the state of the crawler. *)
Definition trigger_glue_crawler
    (get_crawler : string -> result string) (start_crawler : string -> result unit)
    (crawler_name : string) : list request * crawler_result :=
  let failed e := TriggerFailed e ("Failed to trigger crawler " +:+ crawler_name) in
  match get_crawler crawler_name with
  | Raise e => ([], failed e)
  | Return state =>
      if String.eqb state "READY"
      then
        ([StartCrawler crawler_name],
         match start_crawler crawler_name with
         | Raise e => failed e
         | Return _ => Triggered ("Successfully triggered crawler " +:+ crawler_name)
         end)
      else
        ([], NotReady ("Crawler " +:+ crawler_name
                       +:+ " is not in READY state. Current state: " +:+ state))
  end.

(** [if trigger_crawler: crawler_status = trigger_glue_crawler(...)] *)
Definition crawl (env : environment) (ev : event) : list request * option crawler_result :=
  if ev_trigger_crawler ev
  then
    let triggered := trigger_glue_crawler (env_get_crawler env) (env_start_crawler env)
                       (ev_crawler_name ev) in
    (fst triggered, Some (snd triggered))
  else ([], None).

(** The truth value of a list *)
Definition nonempty {A : Type} (l : list A) : bool :=
  match l with
  | [] => false
  | _ :: _ => true
  end.

(** The URLs the handler works on: those of the event, else the generated
    ones, else those of the file names. *)
Definition resolve_urls (env : environment) (ev : event) : result (list string) :=
  let urls := ev_urls ev in
  urls ← (if negb (nonempty urls) && (nonempty (ev_years ev) || nonempty (ev_months ev))
          then generate_urls orchestrator_globals (env_current_year env)
                 (ev_years ev) (ev_months ev) (ev_regions ev)
          else Return urls);
  let urls :=
    if negb (nonempty urls) && nonempty (ev_filenames ev)
    then map (fun filename => BASE_URL +:+ filename) (ev_filenames ev)
    else urls in
  Return urls.

Section Handler.
Context `{Pandas}.

(** [process_citibike_files]: the handler of the processing module, with the
    globals [process_globals] of that module, is called on
    [{'files_to_process': csv_keys}]; whatever it raises is caught.  The
    import of the module is taken to succeed. *)
Definition process_citibike_files
    (process_globals : list string) (process_env : processing_environment)
    (csv_keys : list string) : list request * process_result :=
  let run := processing_handler process_globals process_env
                 (processing_event None (Some csv_keys)) in
  (map Process (fst run),
   match snd run with
   | Finished result => Processed (processed_files result) (message result)
   | Aborted e => ProcessFailed e "Failed to process CSV files"
   end).

(** [process_existing_files]; its scan of the bucket is that of
    [list_unprocessed_files]. *)
Definition process_existing_files
    (process_globals : list string) (env : environment) (ev : event)
    : list request * response :=
  let failed e := Response 500 (ExistingFailed "Failed to process existing files" e) in
  match env_pages env with
  | Raise e => ([], failed (Propagated e))
  | Return pages =>
      let files_to_process := list_unprocessed_files pages in
      match files_to_process with
      | [] => ([], Response 200 (NoExistingFiles "No existing CSV files found to process"))
      | _ :: _ =>
          let run := processing_handler process_globals (env_process env 0)
                       (processing_event None (Some files_to_process)) in
          match snd run with
          | Aborted e => (map Process (fst run), failed e)
          | Finished result =>
              let crawled := crawl env ev in
              (map Process (fst run) ++ fst crawled,
               Response 200
                 (ExistingProcessed
                    ("Processed " +:+ pretty (length files_to_process) +:+ " existing files")
                    (processed_files result) (snd crawled)))
          end
      end
  end.

(** The body of [for url in urls], for the URL at place [i].  Each step
    catches its own exceptions, so the [except] of the loop is not met. *)
Definition process_url
    (process_globals : list string) (env : environment) (i : nat) (url : string)
    : list request * url_result :=
  let downloaded := download_citibike_file (env_urlretrieve env i) (env_upload_file env i)
                      (env_remove env i) url in
  match snd downloaded with
  | Downloaded zip_key _ =>
      let unzipped := unzip_citibike_file (env_namelist env i) (env_upload_member env i)
                        zip_key in
      match snd unzipped with
      | Unzipped csv_keys _ =>
          let processed := process_citibike_files process_globals (env_process env i)
                             csv_keys in
          let cleaned := cleanup_files (env_copy_object env i) (env_delete_object env i)
                           zip_key in
          (fst downloaded ++ fst unzipped ++ fst processed ++ fst cleaned,
           UrlDone url (snd downloaded) (snd unzipped) (snd processed) (snd cleaned))
      | UnzipFailed _ _ =>
          (fst downloaded ++ fst unzipped,
           UrlNotUnzipped url (snd downloaded) (snd unzipped))
      end
  | DownloadFailed _ _ => (fst downloaded, UrlNotDownloaded url (snd downloaded))
  end.

Fixpoint process_urls
    (process_globals : list string) (env : environment) (i : nat) (urls : list string)
    : list request * list url_result :=
  match urls with
  | [] => ([], [])
  | url :: urls' =>
      let step := process_url process_globals env i url in
      let rest := process_urls process_globals env (S i) urls' in
      (fst step ++ fst rest, snd step :: snd rest)
  end.

(** The handler: the requests it sent and how it ended.  The clients are
    taken to be created without error. *)
Definition lambda_handler
    (process_globals : list string) (env : environment) (ev : event)
    : list request * outcome response :=
  match resolve_urls env ev with
  | Raise e => ([], Aborted (Propagated e))
  | Return [] =>
      if ev_process_existing ev
      then
        let existing := process_existing_files process_globals env ev in
        (fst existing, Finished (snd existing))
      else
        ([], Finished
               (Response 400
                  (NoUrls "No Citibike data URLs provided and process_existing is false")))
  | Return urls =>
      let processed := process_urls process_globals env 0 urls in
      let crawled := crawl env ev in
      (fst processed ++ fst crawled,
       Finished
         (Response 200
            (UrlsProcessed
               ("Processed " +:+ pretty (length urls) +:+ " Citibike data URLs")
               (snd processed) (snd crawled))))
  end.

End Handler.

(** The files a result of the handler reports as processed *)
Definition result_files (r : url_result) : list processed_file :=
  match r with
  | UrlDone _ _ _ (Processed files _) _ => files
  | _ => []
  end.

Definition reported_files (r : response) : list processed_file :=
  match body r with
  | ExistingProcessed _ files _ => files
  | UrlsProcessed _ results _ => flat_map result_files results
  | _ => []
  end.

(** The archive of a result whose download succeeded *)
Definition result_zip_key (r : url_result) : option string :=
  match r with
  | UrlDone _ (Downloaded zip_key _) _ _ _ => Some zip_key
  | UrlNotUnzipped _ (Downloaded zip_key _) _ => Some zip_key
  | _ => None
  end.

End Orchestrator.

(* ===================================================================== *)
(** * The module [download_citibike_files_lambda] *)
(* ===================================================================== *)

Module Download.

Definition REMOTE_URL : string :=
  "https://s3.amazonaws.com/tripdata/2021-citibike-tripdata.zip".
Definition LOCAL_FILE_NAME : string := "2021-citibike-tripdata.zip".
Definition BUCKET_NAME : string := "citibike-trips-data-1".
Definition LOCAL_FILE_PATH : string := "/tmp/" +:+ LOCAL_FILE_NAME.

(** The names bound at module level: there is no import of [logging]. *)
Definition module_globals : list string :=
  [ "urllib"; "boto3"; "ClientError"; "REMOTE_URL"; "LOCAL_FILE_NAME"; "BUCKET_NAME";
    "LOCAL_FILE_PATH"; "lambda_handler" ].

(** The handler.  The download is outside the [try]; the [except] catches
    [ClientError] only, and its first statement evaluates [logging]. *)
Definition lambda_handler
    (globals : list string) (urlretrieve : string -> string -> result unit)
    (upload_file : string -> string -> string -> result unit) : result bool :=
  _ ← urlretrieve REMOTE_URL LOCAL_FILE_PATH;
  let file_name := LOCAL_FILE_PATH in
  let object_name := LOCAL_FILE_NAME in
  let bucket := BUCKET_NAME in
  match upload_file file_name bucket object_name with
  | Return _ => Return true
  | Raise (ClientError e) => _ ← load_global globals "logging"; Return false
  | Raise e => Raise e
  end.

End Download.

(* ===================================================================== *)
(** * Properties of the string functions *)
(* ===================================================================== *)

Lemma bind_Return {A B : Type} (a : A) (k : A -> result B) : (Return a ≫= k) = k a.
Proof. reflexivity. Qed.

Lemma bind_Raise {A B : Type} (e : exn) (k : A -> result B) : (Raise e ≫= k) = Raise e.
Proof. reflexivity. Qed.

Lemma isspace_lower_char (c : ascii) : isspace (lower_char c) = isspace c.
Proof. destruct c as [[] [] [] [] [] [] [] []]; reflexivity. Qed.

Lemma lower_lstrip (s : string) : lower (lstrip s) = lstrip (lower s).
Proof.
  induction s as [|c s IH]; simpl; [reflexivity|].
  rewrite isspace_lower_char. destruct (isspace c); [exact IH | reflexivity].
Qed.

Lemma lower_rstrip (s : string) : lower (rstrip s) = rstrip (lower s).
Proof.
  induction s as [|c s IH]; simpl; [reflexivity|].
  rewrite <- IH, isspace_lower_char.
  destruct (rstrip s); simpl; [destruct (isspace c)|]; reflexivity.
Qed.

Lemma lower_strip (s : string) : lower (strip s) = strip (lower s).
Proof. unfold strip. now rewrite lower_rstrip, lower_lstrip. Qed.

Lemma lstrip_blank (q : string) : blank q = true -> lstrip q = EmptyString.
Proof.
  induction q as [|c q IH]; simpl; [reflexivity|].
  intros [Hc Hq]%andb_true_iff. rewrite Hc. auto.
Qed.

Lemma rstrip_blank (q : string) : blank q = true -> rstrip q = EmptyString.
Proof.
  induction q as [|c q IH]; simpl; [reflexivity|].
  intros [Hc Hq]%andb_true_iff. rewrite (IH Hq), Hc. reflexivity.
Qed.

Lemma app_empty (s : string) : EmptyString +:+ s = s.
Proof. reflexivity. Qed.

Lemma app_String (c : ascii) (s t : string) : String c s +:+ t = String c (s +:+ t).
Proof. reflexivity. Qed.

Lemma lstrip_app_blank (p s : string) : blank p = true -> lstrip (p +:+ s) = lstrip s.
Proof.
  induction p as [|c p IH]; [reflexivity|].
  rewrite app_String. simpl.
  intros [Hc Hp]%andb_true_iff. rewrite Hc. auto.
Qed.

Lemma rstrip_app_blank (s q : string) : blank q = true -> rstrip (s +:+ q) = rstrip s.
Proof.
  intros Hq. induction s as [|c s IH].
  - rewrite app_empty. now apply rstrip_blank.
  - rewrite app_String. simpl. now rewrite IH.
Qed.

Lemma strip_app_blank (s q : string) : blank q = true -> strip (s +:+ q) = strip s.
Proof.
  intros Hq. unfold strip. induction s as [|c s IH].
  - rewrite app_empty. now rewrite (lstrip_blank q Hq).
  - rewrite app_String. simpl lstrip.
    destruct (isspace c); [exact IH|].
    rewrite <- app_String. now apply rstrip_app_blank.
Qed.

Lemma strip_padding (p s q : string) :
  blank p = true -> blank q = true -> strip (p +:+ s +:+ q) = strip s.
Proof.
  intros Hp Hq. unfold strip at 1. rewrite lstrip_app_blank by exact Hp.
  now apply strip_app_blank.
Qed.

Lemma same_letters_lower (s t : string) : same_letters s t = true -> lower s = lower t.
Proof.
  revert t. induction s as [|a s IH]; intros [|b t]; simpl; try discriminate; [reflexivity|].
  intros [Hab Hst]%andb_true_iff. apply Ascii.eqb_eq in Hab.
  now rewrite Hab, (IH t Hst).
Qed.

Lemma startswith_app (p s : string) : startswith p (p +:+ s) = true.
Proof.
  induction p as [|c p IH]; [reflexivity|].
  rewrite app_String. simpl. now rewrite Ascii.eqb_refl.
Qed.

(** [replace] on a non-empty [old], case by case: an occurrence at the head is
    replaced and the scan resumes after it; otherwise the head character is
    kept. *)
Lemma replace_from_skip (p old new s : string) :
  replace_from (String.length p) old new (p +:+ s) = replace_from 0 old new s.
Proof.
  induction p as [|c p IH]; [now rewrite app_empty|].
  rewrite app_String. simpl. exact IH.
Qed.

Lemma replace_occurrence (c : ascii) (old' new s : string) :
  replace (String c old') new (String c old' +:+ s)
  = new +:+ replace (String c old') new s.
Proof.
  unfold replace. rewrite app_String. cbn [replace_from].
  pose proof (startswith_app (String c old') s) as Hs. rewrite app_String in Hs.
  rewrite Hs. cbn [String.length]. rewrite Nat.sub_succ, Nat.sub_0_r.
  now rewrite replace_from_skip.
Qed.

Lemma replace_elsewhere (c : ascii) (old' new : string) (a : ascii) (s : string) :
  startswith (String c old') (String a s) = false ->
  replace (String c old') new (String a s)
  = String a (replace (String c old') new s).
Proof. intros Hs. unfold replace. cbn [replace_from]. now rewrite Hs. Qed.

(* ===================================================================== *)
(** * The filename metadata extractor *)
(* ===================================================================== *)

Lemma os_is_unbound : load_global module_globals "os" = Raise (NameError "os").
Proof. reflexivity. Qed.

(** Were [os] imported, the extractor would return the records of its
    docstring, and the record of the spec for an unparseable name. *)
Lemma extract_metadata_with_os_imported :
  let g := "os" :: module_globals in
  extract_metadata_from_filename g "2021-citibike-tripdata.zip"
    = Return (Metadata (Some "2021") None "nyc" "annual") /\
  extract_metadata_from_filename g "202101-citibike-tripdata.csv.zip"
    = Return (Metadata (Some "2021") (Some "01") "nyc" "monthly") /\
  extract_metadata_from_filename g "JC-202101-citibike-tripdata.csv.zip"
    = Return (Metadata (Some "2021") (Some "01") "jc" "monthly") /\
  extract_metadata_from_filename g "randomfile.csv"
    = Return (Metadata None None "nyc" "unknown").
Proof. vm_compute. auto. Qed.

(** With [os] bound the extractor returns a record for every identifier. *)
Lemma extract_metadata_total_with_os (g : list string) (filename : string) :
  load_global g "os" = Return tt ->
  exists md, extract_metadata_from_filename g filename = Return md.
Proof.
  intros Hos. unfold extract_metadata_from_filename. rewrite Hos. simpl.
  destruct (annual_match _); [eauto|].
  destruct (monthly_match _) as [[y m]|]; [eauto|].
  destruct (year_match _); [|eauto].
  destruct (month_match _) as [[y m]|]; eauto.
Qed.

(** C1 (the code departs from it): on each of the four identifiers of the
    docstring and the spec, the extractor as the module stands raises
    [NameError] for the name [os] and returns no metadata record. *)
Theorem extract_metadata_examples_raise :
  extract_metadata_from_filename module_globals "2021-citibike-tripdata.zip"
    = Raise (NameError "os") /\
  extract_metadata_from_filename module_globals "202101-citibike-tripdata.csv.zip"
    = Raise (NameError "os") /\
  extract_metadata_from_filename module_globals "JC-202101-citibike-tripdata.csv.zip"
    = Raise (NameError "os") /\
  extract_metadata_from_filename module_globals "randomfile.csv"
    = Raise (NameError "os").
Proof. repeat split; reflexivity. Qed.

(** C2, counterexample: [read_file_to_dataframe] does not fail in the way of
    the extractor.  Its [NameError] is raised inside its own [try], the
    handler catches it, and the call returns [None]. *)
Lemma read_file_returns_none_not_name_error :
  read_file_to_dataframe module_globals (Return "tripduration,starttime")
    (fun _ => Return (Some []))
  = Return None /\
  read_file_to_dataframe module_globals (Return "tripduration,starttime")
    (fun _ => Return (Some []))
  <> Raise (NameError "os").
Proof. split; [reflexivity | discriminate]. Qed.

Example read_file_request_fails :
  read_file_to_dataframe module_globals (Raise (ClientError "NoSuchKey"))
    (fun _ => Return (Some []))
  = Return None.
Proof. reflexivity. Qed.

(** C2, as amended: the module never binds [os].  For every input the
    extractor and [generate_destination_key] raise [NameError] for [os];
    [read_file_to_dataframe] reaches the same unbound name once the S3 request
    has returned, but catches the exception and returns [None], as it does
    when the request itself fails. *)
Theorem os_unbound_at_every_use :
  (forall filename,
     extract_metadata_from_filename module_globals filename = Raise (NameError "os")) /\
  (forall file_key md,
     generate_destination_key module_globals file_key md = Raise (NameError "os")) /\
  (forall response rest,
     read_file_body module_globals (Return response) rest = Raise (NameError "os")) /\
  (forall get_object rest,
     read_file_to_dataframe module_globals get_object rest = Return None).
Proof.
  repeat split; intros; try reflexivity.
  unfold read_file_to_dataframe, read_file_body.
  destruct get_object; reflexivity.
Qed.

(* ===================================================================== *)
(** * The column normaliser *)
(* ===================================================================== *)

Lemma lower_strip_insensitive (r1 r2 : string) :
  differ_by_case_and_padding r1 r2 -> lower (strip r1) = lower (strip r2).
Proof.
  intros (p1 & c1 & q1 & p2 & c2 & q2 & -> & -> & Hp1 & Hq1 & Hp2 & Hq2 & Hc).
  rewrite !strip_padding by assumption.
  rewrite !lower_strip. now rewrite (same_letters_lower _ _ Hc).
Qed.

(** C4, counterexample: the normaliser itself neither lowercases, nor trims,
    nor collapses a run of spaces, so names that differ only in these ways
    get different canonical names from it. *)
Lemma normalize_case_whitespace_sensitive :
  normalize_column_name "Tripduration" "nyc" = "Tripduration" /\
  normalize_column_name "tripduration" "nyc" = "trip_duration" /\
  normalize_column_name " tripduration" "nyc" = "_tripduration" /\
  normalize_column_name "start  station id" "nyc" = "start__station_id" /\
  normalize_column_name "start station id" "nyc" = "start_station_id" /\
  normalize_column_name "Tripduration" "nyc" <> normalize_column_name "tripduration" "nyc".
Proof. vm_compute. repeat split; discriminate. Qed.

(** C4, as amended: [normalize_column_name] only replaces each space by an
    underscore before the alias lookup; lowercasing and trimming are done by
    its two callers.  What the callers compute, the registry key
    [lower (strip raw)], the canonical name given to it by the normaliser and
    the rename target of [transform_data], is the same for two raw names that
    differ only by letter case and by leading or trailing whitespace. *)
Theorem normalize_insensitive_through_callers (r1 r2 : string) :
  differ_by_case_and_padding r1 r2 ->
  forall (region : string) (sd : schema),
    normalize_column_name (lower (strip r1)) region
      = normalize_column_name (lower (strip r2)) region /\
    canonical_for sd region r1 = canonical_for sd region r2.
Proof.
  intros Hd region sd. unfold canonical_for.
  now rewrite (lower_strip_insensitive r1 r2 Hd).
Qed.

Lemma normalize_insensitive_through_callers_witness :
  normalize_column_name (lower (strip "  Start Station ID ")) "nyc"
    = normalize_column_name (lower (strip "start station id")) "nyc" /\
  canonical_for (empty_schema "2024-01-01T00:00:00") "nyc" "  Start Station ID "
    = canonical_for (empty_schema "2024-01-01T00:00:00") "nyc" "start station id".
Proof.
  apply (normalize_insensitive_through_callers "  Start Station ID " "start station id").
  exists "  ", "Start Station ID", " ", "", "start station id", "".
  repeat split; reflexivity.
Defined.

Lemma normalize_region_independent (column_name region : string) :
  normalize_column_name column_name region = normalize_column_name column_name "nyc".
Proof.
  unfold normalize_column_name. destruct (String.eqb region "nyc"); reflexivity.
Qed.

(** C10: in both regions the alias table sends [station_id] and
    [start_station_id] to [start_station_id], and [name] and
    [start_station_name] to [start_station_name]; a dataset with the columns
    [station_id] and [start_station_id] gets one canonical label twice. *)
Theorem normalize_not_injective :
  forall region : string,
    normalize_column_name "station_id" region = "start_station_id" /\
    normalize_column_name "start_station_id" region = "start_station_id" /\
    normalize_column_name "name" region = "start_station_name" /\
    normalize_column_name "start_station_name" region = "start_station_name" /\
    "station_id" <> "start_station_id" /\
    "name" <> "start_station_name" /\
    forall (a b : series) (now : string),
      let df := [("station_id", a); ("start_station_id", b)] in
      rename (build_column_mapping (empty_schema now) region df) df
        = [("start_station_id", a); ("start_station_id", b)].
Proof.
  intros region.
  rewrite !(normalize_region_independent _ region).
  repeat split; try reflexivity; try discriminate.
  intros a b now. unfold build_column_mapping, canonical_for. simpl.
  rewrite !(normalize_region_independent _ region). vm_compute. reflexivity.
Qed.

(* ===================================================================== *)
(** * The schema registry updater *)
(* ===================================================================== *)

Section Preservation.
Variable R : schema -> schema -> Prop.
Hypothesis R_refl : forall sd, R sd sd.
Hypothesis R_trans : forall a b c, R a b -> R b c -> R a c.

Lemma preserves_sreturn {A : Type} (a : A) : preserves R (sreturn a).
Proof. intros sd. apply R_refl. Qed.

Lemma preserves_sraise {A : Type} (e : exn) : preserves R (@sraise A e).
Proof. intros sd. apply R_refl. Qed.

Lemma preserves_slift {A : Type} (r : result A) : preserves R (slift r).
Proof. intros sd. apply R_refl. Qed.

Lemma preserves_sbind {A B : Type} (m : stateful A) (k : A -> stateful B) :
  preserves R m -> (forall a, preserves R (k a)) -> preserves R (sbind m k).
Proof.
  intros Hm Hk sd. unfold sbind. specialize (Hm sd).
  destruct (m sd) as [sd1 [a|e]]; simpl in *.
  - eapply R_trans; [exact Hm | apply Hk].
  - exact Hm.
Qed.

Lemma preserves_for_each {A : Type} (body : A -> stateful unit) (xs : list A) :
  (forall x, preserves R (body x)) -> preserves R (for_each body xs).
Proof.
  intros Hb. induction xs as [|x xs IH]; simpl.
  - apply preserves_sreturn.
  - apply preserves_sbind; [apply Hb | intros _; exact IH].
Qed.

Hypothesis R_ensure_sources : preserves R ensure_sources.
Hypothesis R_ensure_source_entry :
  forall k y m r, preserves R (ensure_source_entry k y m r).
Hypothesis R_record_source_column : forall k c, preserves R (record_source_column k c).
Hypothesis R_register_column : forall c d y m r, preserves R (register_column c d y m r).
Hypothesis R_set_last_updated : forall t, preserves R (modify (set_last_updated t)).

Lemma preserves_observe_column df k y m r col :
  preserves R (observe_column df k y m r col).
Proof.
  unfold observe_column.
  apply preserves_sbind; [apply preserves_slift | intros dt].
  apply preserves_sbind; [apply R_record_source_column | intros _].
  apply R_register_column.
Qed.

Lemma preserves_update df md now :
  preserves R (update_schema_with_new_columns df md now).
Proof.
  unfold update_schema_with_new_columns.
  apply preserves_sbind; [apply R_ensure_sources | intros _].
  apply preserves_sbind; [apply R_ensure_source_entry | intros _].
  apply preserves_sbind; [| intros _; apply R_set_last_updated].
  apply preserves_for_each. intros col. apply preserves_observe_column.
Qed.

Lemma preserves_run_updates calls sd : R sd (run_updates calls sd).
Proof.
  unfold run_updates. revert sd.
  induction calls as [|c calls IH]; intros sd; simpl; [apply R_refl|].
  eapply R_trans; [| apply IH].
  unfold run_update. apply preserves_update.
Qed.
End Preservation.

Lemma source_grows_refl (e : source_info) : source_grows e e.
Proof. repeat split; reflexivity. Qed.

Lemma source_grows_trans (a b c : source_info) :
  source_grows a b -> source_grows b c -> source_grows a c.
Proof.
  intros (Hy & Hm & Hr & Hc) (Hy' & Hm' & Hr' & Hc').
  repeat split; try congruence. etrans; eassumption.
Qed.

Lemma extends_refl (sd : schema) : extends sd sd.
Proof.
  repeat split; auto. intros k e He. exists e. split; [exact He | apply source_grows_refl].
Qed.

Lemma extends_trans (a b c : schema) : extends a b -> extends b c -> extends a c.
Proof.
  intros (Hc1 & Hm1 & Hs1) (Hc2 & Hm2 & Hs2). repeat split; auto.
  intros k e He. destruct (Hs1 k e He) as (e1 & He1 & Hg1).
  destruct (Hs2 k e1 He1) as (e2 & He2 & Hg2).
  exists e2. split; [exact He2 | eapply source_grows_trans; eassumption].
Qed.

Lemma frozen_refl (sd : schema) : frozen sd sd.
Proof. intros k info Hk. auto. Qed.

Lemma frozen_trans (a b c : schema) : frozen a b -> frozen b c -> frozen a c.
Proof.
  intros Hab Hbc k info Hk. destruct (Hab k info Hk) as [Hb Hmb].
  destruct (Hbc k info Hb) as [Hc Hmc]. split; [exact Hc | congruence].
Qed.

Lemma extends_ensure_sources : preserves extends ensure_sources.
Proof.
  intros sd. unfold ensure_sources, modify. simpl.
  destruct (sources sd) eqn:Hs; [apply extends_refl|].
  repeat split; auto. unfold source_entry. rewrite Hs. discriminate.
Qed.

Lemma extends_ensure_source_entry k y m r : preserves extends (ensure_source_entry k y m r).
Proof.
  intros sd. unfold ensure_source_entry, sbind, get_sources.
  destruct (sources sd) as [srcs|] eqn:Hs; simpl; [|apply extends_refl].
  destruct (srcs !! k) eqn:Hk; simpl; [apply extends_refl|].
  repeat split; auto. intros k' e He. unfold source_entry in *. rewrite Hs in He. simpl.
  exists e. split; [|apply source_grows_refl].
  rewrite lookup_insert_ne; [exact He | congruence].
Qed.

Lemma extends_record_source_column k c : preserves extends (record_source_column k c).
Proof.
  intros sd. unfold record_source_column, sbind, get_sources.
  destruct (sources sd) as [srcs|] eqn:Hs; simpl; [|apply extends_refl].
  destruct (srcs !! k) as [entry|] eqn:Hk; simpl; [|apply extends_refl].
  case_bool_decide; simpl; [apply extends_refl|].
  repeat split; auto. intros k' e He. unfold source_entry in *. rewrite Hs in He. simpl.
  destruct (decide (k = k')) as [<-|Hne].
  - rewrite lookup_insert_eq. eexists. split; [reflexivity|].
    assert (e = entry) as -> by congruence.
    repeat split. simpl. by apply prefix_app_r.
  - rewrite lookup_insert_ne by exact Hne. exists e. split; [exact He | apply source_grows_refl].
Qed.

Lemma extends_register_column c d y m r : preserves extends (register_column c d y m r).
Proof.
  intros sd. unfold register_column, sbind, get_columns.
  destruct (columns sd) as [cols|] eqn:Hc; simpl; [|apply extends_refl].
  destruct (cols !! c) eqn:Hk; simpl; [apply extends_refl|].
  repeat split.
  - intros k. unfold column_entry. rewrite Hc. simpl.
    destruct (decide (c = k)) as [<-|Hne].
    + rewrite lookup_insert_eq. eauto.
    + by rewrite lookup_insert_ne.
  - intros k. unfold mapping_entry. simpl.
    destruct (decide (c = k)) as [<-|Hne].
    + rewrite lookup_insert_eq. eauto.
    + rewrite lookup_insert_ne by exact Hne.
      destruct (column_mappings sd); simpl; [auto|]. rewrite lookup_empty. auto.
  - intros k e He. exists e. split; [exact He | apply source_grows_refl].
Qed.

Lemma extends_set_last_updated t : preserves extends (modify (set_last_updated t)).
Proof. intros sd. simpl. repeat split; auto. intros k e He. exists e. split; [exact He | apply source_grows_refl]. Qed.

Lemma frozen_ensure_sources : preserves frozen ensure_sources.
Proof.
  intros sd. unfold ensure_sources, modify. simpl.
  destruct (sources sd); intros k info Hk; auto.
Qed.

Lemma frozen_ensure_source_entry k y m r : preserves frozen (ensure_source_entry k y m r).
Proof.
  intros sd. unfold ensure_source_entry, sbind, get_sources.
  destruct (sources sd) as [srcs|]; simpl; [|apply frozen_refl].
  destruct (srcs !! k); simpl; [apply frozen_refl|].
  intros k' info Hk'. auto.
Qed.

Lemma frozen_record_source_column k c : preserves frozen (record_source_column k c).
Proof.
  intros sd. unfold record_source_column, sbind, get_sources.
  destruct (sources sd) as [srcs|]; simpl; [|apply frozen_refl].
  destruct (srcs !! k); simpl; [|apply frozen_refl].
  case_bool_decide; simpl; [apply frozen_refl|].
  intros k' info Hk'. auto.
Qed.

Lemma frozen_register_column c d y m r : preserves frozen (register_column c d y m r).
Proof.
  intros sd. unfold register_column, sbind, get_columns.
  destruct (columns sd) as [cols|] eqn:Hc; simpl; [|apply frozen_refl].
  destruct (cols !! c) eqn:Hk; simpl; [apply frozen_refl|].
  intros k info Hinfo. unfold column_entry in Hinfo. rewrite Hc in Hinfo.
  assert (c <> k) as Hne by congruence.
  unfold column_entry, mapping_entry. simpl.
  rewrite !lookup_insert_ne by exact Hne. split; [exact Hinfo|].
  destruct (column_mappings sd); simpl; [reflexivity | apply lookup_empty].
Qed.

Lemma frozen_set_last_updated t : preserves frozen (modify (set_last_updated t)).
Proof. intros sd k info Hk. auto. Qed.

(** A registry in which [tripduration] was first seen as an integer column of
    the New York file of January 2015, and a Jersey City file of 2021 in which
    it is a text column. *)
Lemma first_file_registry :
  run_updates
    [([("tripduration", Series int64 [VInt 634])],
      Metadata (Some "2015") (Some "01") "nyc" "monthly",
      Clock "2024" "2024-05-01T10:00:00")]
    (empty_schema "2024-05-01T09:00:00")
  = Schema
      (Some {[ "tripduration" := ColumnInfo "int64" "2015" (Some "01") "nyc" "trip_duration" ]})
      (Some {[ "tripduration" := "trip_duration" ]})
      (Some {[ "nyc_2015_01" := SourceInfo "2015" (Some "01") "nyc" ["tripduration"] ]})
      (Some "2024-05-01T10:00:00").
Proof. vm_compute. reflexivity. Qed.

(** C6: the registry is append-only.  After any sequence of calls of the
    updater, whether they return or raise, every key of [columns], of
    [column_mappings] and of [sources] is still a key, and every source entry
    has its year, month and region and a column list that extends the one it
    had. *)
Theorem registry_append_only (calls : list update_call) (sd : schema) :
  (forall k, is_Some (column_entry sd k) ->
     is_Some (column_entry (run_updates calls sd) k)) /\
  (forall k, is_Some (mapping_entry sd k) ->
     is_Some (mapping_entry (run_updates calls sd) k)) /\
  (forall k e, source_entry sd k = Some e ->
     exists e', source_entry (run_updates calls sd) k = Some e' /\
       src_year e' = src_year e /\ src_month e' = src_month e /\
       src_region e' = src_region e /\ src_columns e `prefix_of` src_columns e').
Proof.
  apply (preserves_run_updates extends extends_refl extends_trans
           extends_ensure_sources extends_ensure_source_entry
           extends_record_source_column extends_register_column
           extends_set_last_updated).
Qed.

Lemma registry_append_only_witness :
  exists e',
    source_entry
      (run_updates
         [([("tripduration", Series int64 [VInt 634]); ("Bike ID", Series int64 [VInt 7])],
           Metadata (Some "2015") (Some "01") "nyc" "monthly",
           Clock "2024" "2024-05-01T11:00:00")]
         (Schema
            (Some {[ "tripduration" := ColumnInfo "int64" "2015" (Some "01") "nyc" "trip_duration" ]})
            (Some {[ "tripduration" := "trip_duration" ]})
            (Some {[ "nyc_2015_01" := SourceInfo "2015" (Some "01") "nyc" ["tripduration"] ]})
            (Some "2024-05-01T10:00:00")))
      "nyc_2015_01" = Some e' /\
    src_year e' = "2015" /\ src_month e' = Some "01" /\ src_region e' = "nyc" /\
    ["tripduration"] `prefix_of` src_columns e'.
Proof.
  eapply (proj2 (proj2 (registry_append_only _ _)) "nyc_2015_01"
            (SourceInfo "2015" (Some "01") "nyc" ["tripduration"])).
  vm_compute. reflexivity.
Defined.

(** C7: first seen wins.  A raw name that is a key of [columns] keeps, through
    any later calls of the updater, the record it has there (data type, first
    seen year, month and region, normalised name) and its entry of
    [column_mappings], whatever the later files hold for it. *)
Theorem first_seen_wins
    (calls : list update_call) (sd : schema) (k : string) (info : column_info) :
  column_entry sd k = Some info ->
  column_entry (run_updates calls sd) k = Some info /\
  mapping_entry (run_updates calls sd) k = mapping_entry sd k.
Proof.
  apply (preserves_run_updates frozen frozen_refl frozen_trans
           frozen_ensure_sources frozen_ensure_source_entry
           frozen_record_source_column frozen_register_column
           frozen_set_last_updated).
Qed.

Lemma first_seen_wins_witness :
  let seen :=
    Schema
      (Some {[ "tripduration" := ColumnInfo "int64" "2015" (Some "01") "nyc" "trip_duration" ]})
      (Some {[ "tripduration" := "trip_duration" ]})
      (Some {[ "nyc_2015_01" := SourceInfo "2015" (Some "01") "nyc" ["tripduration"] ]})
      (Some "2024-05-01T10:00:00") in
  let later :=
    [([(" TripDuration", Series object_ [VStr "634"; VStr "n/a"])],
      Metadata (Some "2021") (Some "03") "jc" "monthly",
      Clock "2024" "2024-05-01T11:00:00")] in
  column_entry (run_updates later seen) "tripduration"
    = Some (ColumnInfo "int64" "2015" (Some "01") "nyc" "trip_duration") /\
  mapping_entry (run_updates later seen) "tripduration" = mapping_entry seen "tripduration".
Proof.
  intros seen later.
  apply (first_seen_wins later seen "tripduration"
           (ColumnInfo "int64" "2015" (Some "01") "nyc" "trip_duration")).
  vm_compute. reflexivity.
Defined.

(** The later file is recorded as a source, and the call returns. *)
Lemma later_file_is_recorded :
  update_schema_with_new_columns
    [(" TripDuration", Series object_ [VStr "634"; VStr "n/a"])]
    (Metadata (Some "2021") (Some "03") "jc" "monthly")
    (Clock "2024" "2024-05-01T11:00:00")
    (Schema
       (Some {[ "tripduration" := ColumnInfo "int64" "2015" (Some "01") "nyc" "trip_duration" ]})
       (Some {[ "tripduration" := "trip_duration" ]})
       (Some {[ "nyc_2015_01" := SourceInfo "2015" (Some "01") "nyc" ["tripduration"] ]})
       (Some "2024-05-01T10:00:00"))
  = (Schema
       (Some {[ "tripduration" := ColumnInfo "int64" "2015" (Some "01") "nyc" "trip_duration" ]})
       (Some {[ "tripduration" := "trip_duration" ]})
       (Some (<[ "jc_2021_03" := SourceInfo "2021" (Some "03") "jc" ["tripduration"] ]>
                {[ "nyc_2015_01" := SourceInfo "2015" (Some "01") "nyc" ["tripduration"] ]}))
       (Some "2024-05-01T11:00:00"),
     Return tt).
Proof. vm_compute. reflexivity. Qed.

(* ===================================================================== *)
(** * DataFrame lemmas *)
(* ===================================================================== *)

Lemma labelled_true (label : string) (c : string * series) :
  labelled label c = true <-> fst c = label.
Proof. unfold labelled. apply String.eqb_eq. Qed.

Lemma labelled_false (label : string) (c : string * series) :
  labelled label c = false <-> fst c <> label.
Proof. unfold labelled. apply String.eqb_neq. Qed.

Lemma has_column_filter (df : frame) (label : string) :
  has_column df label = false <-> List.filter (labelled label) df = [].
Proof.
  unfold has_column. induction df as [|c df IH]; simpl; [tauto|].
  destruct (labelled label c); simpl; [split; discriminate | exact IH].
Qed.

Lemma replace_column_fst (label : string) (new : series) (c : string * series) :
  fst (replace_column label new c) = fst c.
Proof.
  unfold replace_column. destruct (labelled label c) eqn:E; [|reflexivity].
  apply labelled_true in E. now rewrite E.
Qed.

Lemma labelled_replace_column (l l' : string) (new : series) (c : string * series) :
  labelled l' (replace_column l new c) = labelled l' c.
Proof. unfold labelled. now rewrite replace_column_fst. Qed.

Lemma filter_replace_same (l : string) (new : series) (df : frame) :
  List.filter (labelled l) (map (replace_column l new) df)
  = map (fun _ => (l, new)) (List.filter (labelled l) df).
Proof.
  induction df as [|c df IH]; simpl; [reflexivity|].
  rewrite labelled_replace_column.
  destruct (labelled l c) eqn:E; simpl; [|exact IH].
  unfold replace_column at 1. rewrite E. now rewrite IH.
Qed.

Lemma filter_replace_other (l l' : string) (new : series) (df : frame) :
  l <> l' ->
  List.filter (labelled l') (map (replace_column l new) df) = List.filter (labelled l') df.
Proof.
  intros Hne. induction df as [|c df IH]; simpl; [reflexivity|].
  rewrite labelled_replace_column.
  destruct (labelled l' c) eqn:E; simpl; [|exact IH].
  rewrite IH. f_equal. unfold replace_column.
  destruct (labelled l c) eqn:E'; [|reflexivity].
  apply labelled_true in E, E'. congruence.
Qed.

Lemma replace_absent (l : string) (new : series) (df : frame) :
  List.filter (labelled l) df = [] -> map (replace_column l new) df = df.
Proof.
  induction df as [|c df IH]; simpl; [reflexivity|].
  unfold replace_column at 1.
  destruct (labelled l c); [discriminate|]. intros Hf. now rewrite IH.
Qed.

Lemma replace_same (l : string) (new : series) (df : frame) :
  Forall (fun c => c = (l, new)) (List.filter (labelled l) df) ->
  map (replace_column l new) df = df.
Proof.
  induction df as [|c df IH]; simpl; [reflexivity|].
  unfold replace_column at 1.
  destruct (labelled l c); intros Hf.
  - inversion Hf; subst. now rewrite IH.
  - now rewrite IH.
Qed.

Lemma filter_app_nil_l (l : string) (a b : frame) :
  List.filter (labelled l) a = [] ->
  List.filter (labelled l) (a ++ b) = List.filter (labelled l) b.
Proof. intros Ha. now rewrite List.filter_app, Ha. Qed.

(** A label carried by the column at [i] and by no other column *)
Lemma unique_label_split (df : frame) (i : nat) (l : string) (s : series) :
  df !! i = Some (l, s) -> label_count l df = 1 ->
  exists pre suf,
    df = pre ++ (l, s) :: suf /\ length pre = i /\
    List.filter (labelled l) pre = [] /\ List.filter (labelled l) suf = [].
Proof.
  intros Hi Hc. exists (take i df), (drop (S i) df).
  assert (Hsplit : take i df ++ (l, s) :: drop (S i) df = df)
    by now apply take_drop_middle.
  assert (Hlen : length (take i df) = i).
  { apply length_take_le. apply lookup_lt_Some in Hi. lia. }
  unfold label_count in Hc. rewrite <- Hsplit, List.filter_app in Hc. simpl in Hc.
  assert (Hl : labelled l (l, s) = true) by (now apply labelled_true).
  rewrite Hl, length_app in Hc. simpl in Hc.
  destruct (List.filter (labelled l) (take i df)) as [|x xs]; [|simpl in Hc; lia].
  destruct (List.filter (labelled l) (drop (S i) df)) as [|y ys]; [|simpl in Hc; lia].
  auto.
Qed.

Lemma filter_unique (pre suf : frame) (l : string) (s : series) :
  List.filter (labelled l) pre = [] -> List.filter (labelled l) suf = [] ->
  List.filter (labelled l) (pre ++ (l, s) :: suf) = [(l, s)].
Proof.
  intros Ha Hb. rewrite List.filter_app, Ha. simpl.
  now rewrite (proj2 (labelled_true l (l, s)) eq_refl), Hb.
Qed.

Lemma getitem_unique (df : frame) (i : nat) (l : string) (s : series) :
  df !! i = Some (l, s) -> label_count l df = 1 -> getitem df l = Return (OneSeries s).
Proof.
  intros Hi Hc.
  destruct (unique_label_split df i l s Hi Hc) as (pre & suf & -> & _ & Ha & Hb).
  unfold getitem. now rewrite (filter_unique pre suf l s Ha Hb).
Qed.

Lemma has_column_lookup (df : frame) (i : nat) (l : string) (s : series) :
  df !! i = Some (l, s) -> has_column df l = true.
Proof.
  intros Hi. unfold has_column. apply existsb_exists. exists (l, s). split.
  - apply list_elem_of_In, list_elem_of_lookup. eauto.
  - now apply labelled_true.
Qed.

Lemma setitem_unique (df : frame) (i : nat) (l : string) (s new : series) :
  df !! i = Some (l, s) -> label_count l df = 1 ->
  setitem df l new = <[i := (l, new)]> df.
Proof.
  intros Hi Hc. unfold setitem. rewrite (has_column_lookup df i l s Hi).
  destruct (unique_label_split df i l s Hi Hc) as (pre & suf & -> & Hlen & Ha & Hb).
  rewrite insert_app_r_alt by lia.
  rewrite Hlen, Nat.sub_diag. simpl.
  rewrite map_app. simpl.
  rewrite (replace_absent l new _ Ha), (replace_absent l new _ Hb).
  unfold replace_column. now rewrite (proj2 (labelled_true l (l, s)) eq_refl).
Qed.

Lemma setitem_lookup_other (df : frame) (i : nat) (l l' : string) (s new : series) :
  df !! i = Some (l', s) -> l' <> l -> setitem df l new !! i = Some (l', s).
Proof.
  intros Hi Hne. unfold setitem. destruct (has_column df l).
  - rewrite list_lookup_fmap, Hi. simpl. unfold replace_column.
    now rewrite (proj2 (labelled_false l (l', s)) Hne).
  - rewrite lookup_app_l; [exact Hi|]. now apply lookup_lt_Some in Hi.
Qed.

Lemma label_count_labels (l : string) (df : frame) :
  label_count l df = length (List.filter (fun x => String.eqb x l) (labels df)).
Proof.
  unfold label_count, labels. induction df as [|c df IH]; simpl; [reflexivity|].
  unfold labelled at 1. destruct (String.eqb (fst c) l); simpl; now rewrite IH.
Qed.

Lemma getitem_many (df : frame) (l : string) :
  2 <= label_count l df -> exists cols, getitem df l = Return (SubFrame cols).
Proof.
  unfold label_count, getitem.
  destruct (List.filter (labelled l) df) as [|x [|y ys]]; simpl; intros Hc; try lia.
  eauto.
Qed.

Lemma label_count_cons (l : string) (c : string * series) (df : frame) :
  label_count l df <= label_count l (c :: df).
Proof. unfold label_count. simpl. destruct (labelled l c); simpl; lia. Qed.

Lemma label_count_lookup (df : frame) (i : nat) (l : string) (s : series) :
  df !! i = Some (l, s) -> 1 <= label_count l df.
Proof.
  revert i. induction df as [|c df IH]; intros [|i] Hi; simpl in Hi; try discriminate.
  - injection Hi as ->. unfold label_count. simpl.
    rewrite (proj2 (labelled_true l (l, s)) eq_refl). simpl. lia.
  - pose proof (IH i Hi). pose proof (label_count_cons l c df). lia.
Qed.

Lemma label_count_two (df : frame) (i j : nat) (l : string) (s s' : series) :
  df !! i = Some (l, s) -> df !! j = Some (l, s') -> i <> j -> 2 <= label_count l df.
Proof.
  revert i j. induction df as [|c df IH]; intros [|i] [|j] Hi Hj Hne;
    simpl in Hi, Hj; try discriminate; try congruence.
  - injection Hi as ->. pose proof (label_count_lookup df j l s' Hj) as Hc.
    unfold label_count in *. simpl.
    rewrite (proj2 (labelled_true l (l, s)) eq_refl). simpl. lia.
  - injection Hj as ->. pose proof (label_count_lookup df i l s Hi) as Hc.
    unfold label_count in *. simpl.
    rewrite (proj2 (labelled_true l (l, s')) eq_refl). simpl. lia.
  - assert (i <> j) as Hne' by congruence.
    pose proof (IH i j Hi Hj Hne'). pose proof (label_count_cons l c df). lia.
Qed.

Lemma fold_insert_lookup (f : string -> string) (ls : list string)
    (m : gmap string string) (k : string) :
  fold_left (fun m col => <[col := f col]> m) ls m !! k
  = if decide (k ∈ ls) then Some (f k) else m !! k.
Proof.
  revert m. induction ls as [|a ls IH]; intros m; simpl.
  - reflexivity.
  - rewrite IH. destruct (decide (k ∈ ls)) as [Hin|Hnin].
    + rewrite decide_True; [reflexivity | by right].
    + destruct (decide (a = k)) as [->|Hne].
      * rewrite lookup_insert_eq. rewrite decide_True; [reflexivity | by left].
      * rewrite lookup_insert_ne by exact Hne.
        rewrite decide_False; [reflexivity|].
        intros [->|Hin]%elem_of_cons; [congruence | contradiction].
Qed.

Lemma renamed_pointwise (df : frame) (sd : schema) (region : string) :
  renamed df sd region = map (fun c => (canonical_for sd region (fst c), snd c)) df.
Proof.
  unfold renamed, rename, build_column_mapping.
  apply map_ext_in. intros c Hc. rewrite fold_insert_lookup.
  rewrite decide_True; [reflexivity|].
  unfold labels. apply list_elem_of_In, in_map, Hc.
Qed.

Lemma renamed_lookup (df : frame) (sd : schema) (region : string)
    (i : nat) (a : string) (s : series) :
  df !! i = Some (a, s) ->
  renamed df sd region !! i = Some (canonical_for sd region a, s).
Proof. intros Hi. rewrite renamed_pointwise, list_lookup_fmap, Hi. reflexivity. Qed.

Lemma map_result_pure {A B : Type} (f : A -> result B) (g : A -> B) (l : list A) :
  (forall x, In x l -> f x = Return (g x)) -> map_result f l = Return (map g l).
Proof.
  induction l as [|x l IH]; intros Hf; simpl; [reflexivity|].
  rewrite (Hf x) by (now left). simpl.
  rewrite IH by (intros y Hy; apply Hf; now right). reflexivity.
Qed.

Lemma replace_replace (l : string) (a b : series) (c : string * series) :
  replace_column l b (replace_column l a c) = replace_column l b c.
Proof.
  unfold replace_column. destruct (labelled l c) eqn:E; [|now rewrite E].
  now rewrite (proj2 (labelled_true l (l, a)) eq_refl).
Qed.

Lemma has_column_replace (l l' : string) (new : series) (df : frame) :
  has_column (map (replace_column l new) df) l' = has_column df l'.
Proof.
  unfold has_column. induction df as [|c df IH]; simpl; [reflexivity|].
  now rewrite labelled_replace_column, IH.
Qed.

Lemma has_column_app (a b : frame) (l : string) :
  has_column (a ++ b) l = has_column a l || has_column b l.
Proof. unfold has_column. apply existsb_app. Qed.

Lemma has_column_setitem (df : frame) (l : string) (new : series) :
  has_column (setitem df l new) l = true.
Proof.
  unfold setitem. destruct (has_column df l) eqn:E.
  - now rewrite has_column_replace.
  - rewrite has_column_app, E. simpl.
    now rewrite (proj2 (labelled_true l (l, new)) eq_refl).
Qed.

Lemma add_suffix_constant (df : frame) (l t suffix : string) (n : nat) :
  has_column df l = true ->
  (forall c, In c df -> labelled l c = true -> c = (l, Series object_ (repeat (VStr t) n))) ->
  add_suffix df l suffix
  = Return (map (replace_column l (Series object_ (repeat (VStr (t +:+ suffix)) n))) df).
Proof.
  intros Hhas Hall. unfold add_suffix. rewrite Hhas.
  apply map_result_pure. intros c Hc. unfold replace_column.
  destruct (labelled l c) eqn:E; [|reflexivity].
  rewrite (Hall c Hc E). simpl.
  rewrite (map_result_pure _ (fun _ => VStr (t +:+ suffix))).
  - simpl. do 3 f_equal. clear. induction n; simpl; congruence.
  - intros v Hv. apply repeat_spec in Hv. now subst v.
Qed.

Lemma add_suffix_setitem_scalar (df : frame) (l t suffix : string) :
  add_suffix (setitem_scalar df l t) l suffix = Return (setitem_scalar df l (t +:+ suffix)).
Proof.
  unfold setitem_scalar.
  rewrite (add_suffix_constant _ l t suffix (nrows df)).
  - f_equal. unfold setitem. destruct (has_column df l) eqn:E.
    + rewrite map_map. apply map_ext. intros c. apply replace_replace.
    + rewrite map_app. simpl. unfold replace_column at 2.
      rewrite (proj2 (labelled_true l (l, _)) eq_refl).
      f_equal. apply replace_absent. now apply has_column_filter.
  - apply has_column_setitem.
  - intros c Hc Hl. unfold setitem in Hc. destruct (has_column df l) eqn:E.
    + apply in_map_iff in Hc as (c0 & <- & _).
      rewrite labelled_replace_column in Hl.
      unfold replace_column. now rewrite Hl.
    + apply in_app_or in Hc as [Hc|[<-|[]]]; [|reflexivity].
      apply has_column_filter in E.
      assert (In c (List.filter (labelled l) df)) as Hin by (apply filter_In; auto).
      rewrite E in Hin. destruct Hin.
Qed.

(* ===================================================================== *)
(** * The transform engine *)
(* ===================================================================== *)

Section TransformProperties.
Context `{Pandas}.

Lemma convert_entry_fst (df : frame) (c : string * series) :
  fst (convert_entry df c) = fst c.
Proof.
  unfold convert_entry. destruct (_ && _); [|reflexivity].
  destruct (pd_to_datetime_coerce _); reflexivity.
Qed.

Lemma convert_entry_labels (df df' : frame) (c : string * series) :
  labels df = labels df' -> convert_entry df c = convert_entry df' c.
Proof.
  intros Hl. unfold convert_entry. now rewrite !label_count_labels, Hl.
Qed.

(** One round of the loop changes the column it is at, and no other. *)
Lemma convert_column_here (pre suf : frame) (c : string * series) :
  convert_column (pre ++ c :: suf) (fst c)
  = pre ++ convert_entry (pre ++ c :: suf) c :: suf.
Proof.
  destruct c as [l s]. simpl fst.
  assert (Hi : (pre ++ (l, s) :: suf) !! length pre = Some (l, s)).
  { rewrite lookup_app_r by lia. now rewrite Nat.sub_diag. }
  unfold convert_column, convert_entry. simpl fst. simpl snd.
  destruct (has_time_keyword l); simpl; [|reflexivity].
  destruct (Nat.eqb (label_count l (pre ++ (l, s) :: suf)) 1) eqn:E.
  - apply Nat.eqb_eq in E.
    rewrite (getitem_unique _ _ l s Hi E). simpl.
    destruct (pd_to_datetime_coerce s) as [s'|e]; simpl; [|reflexivity].
    rewrite (setitem_unique _ _ l s s' Hi E).
    rewrite insert_app_r_alt by lia. now rewrite Nat.sub_diag.
  - apply Nat.eqb_neq in E.
    pose proof (label_count_lookup _ _ l s Hi) as Hge.
    destruct (getitem_many (pre ++ (l, s) :: suf) l) as [cols ->]; [lia|].
    reflexivity.
Qed.

Lemma convert_loop (suf pre : frame) :
  fold_left convert_column (labels suf) (pre ++ suf)
  = pre ++ map (convert_entry (pre ++ suf)) suf.
Proof.
  revert pre. induction suf as [|c suf IH]; intros pre; simpl; [reflexivity|].
  rewrite convert_column_here.
  set (e := convert_entry (pre ++ c :: suf) c).
  change (pre ++ e :: suf) with (pre ++ [e] ++ suf).
  rewrite (app_assoc pre [e] suf), IH, <- app_assoc. simpl. do 2 f_equal.
  apply map_ext. intros x. apply convert_entry_labels.
  rewrite <- (app_assoc pre [e] suf). unfold labels. rewrite !map_app. simpl.
  subst e. now rewrite convert_entry_fst.
Qed.

Lemma convert_datetime_columns_pointwise (df : frame) :
  convert_datetime_columns df = map (convert_entry df) df.
Proof. exact (convert_loop df []). Qed.

Lemma transform_data_eq (df : frame) (sd : schema) (md : file_metadata) :
  transform_data df sd md
  = d ← region_transform (md_region md) (renamed df sd (md_region md));
    Return (setitem_scalar (convert_datetime_columns d) "data_source" (data_source_of md)).
Proof.
  unfold transform_data, renamed, data_source_of.
  destruct (region_transform _ _) as [d|e]; simpl; [|reflexivity].
  destruct (truthy (md_month md)); [apply add_suffix_setitem_scalar | reflexivity].
Qed.

Lemma region_transform_outside_jc (region : string) (df : frame) :
  region <> "jc" ->
  region_transform region df = Return (setitem_scalar df "region" "new_york").
Proof.
  intros Hr. unfold region_transform.
  now rewrite (proj2 (String.eqb_neq region "jc") Hr).
Qed.

Lemma setitem_scalar_lookup_other (df : frame) (i : nat) (l l' t : string) (s : series) :
  df !! i = Some (l', s) -> l' <> l -> setitem_scalar df l t !! i = Some (l', s).
Proof. apply setitem_lookup_other. Qed.

Lemma convert_lookup (df : frame) (i : nat) (c : string * series) :
  df !! i = Some c -> convert_datetime_columns df !! i = Some (convert_entry df c).
Proof.
  intros Hi. rewrite convert_datetime_columns_pointwise, list_lookup_fmap, Hi. reflexivity.
Qed.

End TransformProperties.

(** C3, counterexample: a New York dataset whose columns [station_id] and
    [start_station_id] both get the canonical name [start_station_id].  The
    transform returns; nothing is raised. *)
Lemma collision_not_detected :
  @transform_data text_pandas
    [("station_id", Series int64 [VInt 72]); ("start_station_id", Series int64 [VInt 79])]
    (empty_schema "2024-05-01T09:00:00")
    (Metadata (Some "2014") (Some "07") "nyc" "monthly")
  = Return
      [("start_station_id", Series int64 [VInt 72]);
       ("start_station_id", Series int64 [VInt 79]);
       ("region", Series object_ [VStr "new_york"]);
       ("data_source", Series object_ [VStr "nyc_2014_07"])].
Proof. vm_compute. reflexivity. Qed.

(** C3, as amended: the transform has no collision check.  Outside Jersey
    City, when the columns at two places get the same canonical name (other
    than [region] and [data_source], which the transform assigns itself), the
    call returns a frame that carries that name at both places, each with the
    values of its own column. *)
Theorem colliding_columns_both_kept `{Pandas}
    (df : frame) (sd : schema) (md : file_metadata)
    (i j : nat) (a b c : string) (sa sb : series) :
  md_region md <> "jc" ->
  df !! i = Some (a, sa) -> df !! j = Some (b, sb) -> i <> j ->
  canonical_for sd (md_region md) a = c ->
  canonical_for sd (md_region md) b = c ->
  c <> "region" -> c <> "data_source" ->
  exists out,
    transform_data df sd md = Return out /\
    out !! i = Some (c, sa) /\ out !! j = Some (c, sb).
Proof.
  intros Hr Hi Hj Hne Ha Hb Hc1 Hc2.
  rewrite transform_data_eq, (region_transform_outside_jc _ _ Hr). simpl.
  eexists. split; [reflexivity|].
  pose proof (renamed_lookup df sd (md_region md) i a sa Hi) as Ri.
  pose proof (renamed_lookup df sd (md_region md) j b sb Hj) as Rj.
  rewrite Ha in Ri. rewrite Hb in Rj.
  apply (setitem_scalar_lookup_other _ _ "region" c "new_york" _) in Ri; [|exact Hc1].
  apply (setitem_scalar_lookup_other _ _ "region" c "new_york" _) in Rj; [|exact Hc1].
  pose proof (label_count_two _ i j c sa sb Ri Rj Hne) as Hcount.
  assert (Hid : forall s, convert_entry
            (setitem_scalar (renamed df sd (md_region md)) "region" "new_york") (c, s) = (c, s)).
  { intros s. unfold convert_entry. simpl fst.
    replace (Nat.eqb _ 1) with false; [now rewrite andb_false_r|].
    symmetry. apply Nat.eqb_neq. lia. }
  apply convert_lookup in Ri, Rj. rewrite Hid in Ri, Rj.
  split; apply setitem_scalar_lookup_other; assumption.
Qed.

Lemma colliding_columns_both_kept_witness :
  exists out,
    @transform_data text_pandas
      [("starttime", Series object_ [VStr "2021-01-01 00:00:12"]);
       ("started_at", Series object_ [VStr "2021-01-01 00:00:15"])]
      (empty_schema "2024-05-01T09:00:00")
      (Metadata (Some "2021") None "nyc" "annual") = Return out /\
    out !! 0 = Some ("start_time", Series object_ [VStr "2021-01-01 00:00:12"]) /\
    out !! 1 = Some ("start_time", Series object_ [VStr "2021-01-01 00:00:15"]).
Proof.
  apply (@colliding_columns_both_kept text_pandas _ _ _ 0 1 "starttime" "started_at");
    try reflexivity; try discriminate; lia.
Defined.

(** C5, counterexample: a [starttime] column with one value that is no
    timestamp.  The conversion does not fail as a whole; the column is
    replaced, and the value that could not be converted is now NaT. *)
Lemma coercion_replaces_unparseable_value :
  @transform_data text_pandas
    [("starttime", Series object_ [VStr "2021-01-01 00:00:12"; VStr "not a time"])]
    (empty_schema "2024-05-01T09:00:00")
    (Metadata (Some "2021") (Some "01") "nyc" "monthly")
  = Return
      [("start_time", Series datetime64 [VTimestamp "2021-01-01 00:00:12"; VNaT]);
       ("region", Series object_ [VStr "new_york"; VStr "new_york"]);
       ("data_source", Series object_ [VStr "nyc_2021_01"; VStr "nyc_2021_01"])].
Proof. vm_compute. reflexivity. Qed.

(** C5, as amended: the loop calls [pd.to_datetime(..., errors='coerce')] on
    every column whose label has a time keyword.  When the label is carried
    by that column only and the call returns, the column is replaced by the
    converted one, in which each value that could not be converted is NaT;
    when the call fails for the whole column, or the label is carried by
    several columns, the column is left as it was; a column without a time
    keyword is left as it was.  No failure of the loop reaches the caller: an
    exception of [transform_data] is one raised by the region block. *)
Theorem temporal_coercion_swallowed `{Pandas} :
  (forall (d : frame) (i : nat) (col : string) (s : series),
     d !! i = Some (col, s) ->
     convert_datetime_columns d !! i
     = Some (col,
         if has_time_keyword col && Nat.eqb (label_count col d) 1
         then match to_datetime_failure s with
              | None => Series datetime64 (map coerce_datetime (s_values s))
              | Some _ => s
              end
         else s)) /\
  (forall (df : frame) (sd : schema) (md : file_metadata) (e : exn),
     transform_data df sd md = Raise e ->
     region_transform (md_region md) (renamed df sd (md_region md)) = Raise e).
Proof.
  split.
  - intros d i col s Hi. rewrite (convert_lookup d i _ Hi). f_equal.
    unfold convert_entry, pd_to_datetime_coerce. simpl fst. simpl snd.
    destruct (_ && _); [|reflexivity].
    destruct (to_datetime_failure s); reflexivity.
  - intros df sd md e. rewrite transform_data_eq.
    destruct (region_transform _ _); simpl; [discriminate | tauto].
Qed.

Lemma temporal_coercion_swallowed_witness :
  @convert_datetime_columns text_pandas
    [("trip_duration", Series int64 [VInt 634]);
     ("start_time", Series object_ [VStr "2021-01-01 00:00:12"; VStr "not a time"])] !! 1
  = Some ("start_time", Series datetime64 [VTimestamp "2021-01-01 00:00:12"; VNaT]).
Proof.
  exact (proj1 (@temporal_coercion_swallowed text_pandas)
           [("trip_duration", Series int64 [VInt 634]);
            ("start_time", Series object_ [VStr "2021-01-01 00:00:12"; VStr "not a time"])]
           1 "start_time"
           (Series object_ [VStr "2021-01-01 00:00:12"; VStr "not a time"]) eq_refl).
Defined.

(* ===================================================================== *)
(** * The Jersey City station-name prefix *)
(* ===================================================================== *)

Lemma prefix_value_prefixed (v : cell) :
  startswith "JC - " (str_of_cell (prefix_value v)) = true.
Proof.
  unfold prefix_value. destruct (startswith "JC - " (str_of_cell v)) eqn:E; [exact E|].
  simpl str_of_cell. apply startswith_app.
Qed.

Lemma prefix_value_twice (v : cell) : prefix_value (prefix_value v) = prefix_value v.
Proof. unfold prefix_value at 1. now rewrite prefix_value_prefixed. Qed.

Lemma prefix_mask_after (s : series) : existsb id (prefix_mask (prefix_series s)) = false.
Proof.
  unfold prefix_mask, prefix_series. cbn [s_values].
  induction (s_values s) as [|v vs IH]; [reflexivity|].
  cbn [map existsb]. rewrite prefix_value_prefixed. exact IH.
Qed.

Lemma prefix_series_twice (s : series) : prefix_series (prefix_series s) = prefix_series s.
Proof.
  unfold prefix_series at 1. rewrite prefix_mask_after.
  unfold prefix_series. simpl. f_equal.
  rewrite map_map. apply map_ext. intros v. apply prefix_value_twice.
Qed.

Lemma setitem_setitem (df : frame) (l : string) (a b : series) :
  setitem (setitem df l a) l b = setitem df l b.
Proof.
  unfold setitem at 1. rewrite has_column_setitem.
  unfold setitem. destruct (has_column df l) eqn:E.
  - rewrite map_map. apply map_ext. intros c. apply replace_replace.
  - rewrite map_app. simpl. unfold replace_column at 2.
    rewrite (proj2 (labelled_true l (l, a)) eq_refl).
    f_equal. apply replace_absent. now apply has_column_filter.
Qed.

Lemma getitem_setitem_one (df : frame) (l : string) (s new : series) :
  has_column df l = true ->
  getitem df l = Return (OneSeries s) ->
  getitem (setitem df l new) l = Return (OneSeries new).
Proof.
  intros Hhas. unfold setitem. rewrite Hhas. unfold getitem.
  rewrite filter_replace_same.
  destruct (List.filter (labelled l) df) as [|x [|y ys]]; simpl; try discriminate.
  reflexivity.
Qed.

(** What one station-name block returns *)
Lemma prefix_station_name_shape (l : string) (df out : frame) :
  prefix_station_name l df = Return out ->
  (has_column df l = false /\ out = df) \/
  (exists s, has_column df l = true /\ getitem df l = Return (OneSeries s) /\
             out = map (replace_column l (prefix_series s)) df).
Proof.
  unfold prefix_station_name. destruct (has_column df l) eqn:E.
  - destruct (getitem df l) as [[s|cols]|e] eqn:G; simpl; try discriminate.
    intros [= <-]. right. exists s. repeat split. unfold setitem. now rewrite E.
  - intros [= <-]. now left.
Qed.

Lemma prefix_station_name_twice (l : string) (df : frame) :
  (prefix_station_name l df ≫= prefix_station_name l) = prefix_station_name l df.
Proof.
  destruct (prefix_station_name l df) as [out|e] eqn:E; [|reflexivity].
  rewrite bind_Return.
  destruct (prefix_station_name_shape l df out E) as [[Hno ->]|(s & Hhas & Hget & ->)].
  - exact E.
  - unfold prefix_station_name. rewrite has_column_replace, Hhas.
    replace (map (replace_column l (prefix_series s)) df)
      with (setitem df l (prefix_series s)) by (unfold setitem; now rewrite Hhas).
    rewrite (getitem_setitem_one df l s _ Hhas Hget). simpl.
    now rewrite prefix_series_twice, setitem_setitem.
Qed.

Lemma prefix_station_name_stable (l : string) (df out : frame) :
  prefix_station_name l df = Return out -> prefix_station_name l out = Return out.
Proof.
  intros E. pose proof (prefix_station_name_twice l df) as Ht.
  rewrite E in Ht. exact Ht.
Qed.

Lemma replace_column_comm (l l' : string) (a b : series) (c : string * series) :
  l <> l' ->
  replace_column l a (replace_column l' b c) = replace_column l' b (replace_column l a c).
Proof.
  intros Hne.
  assert (Hl : labelled l (l', b) = false) by (apply labelled_false; simpl; congruence).
  assert (Hl' : labelled l' (l, a) = false) by (apply labelled_false; simpl; congruence).
  unfold replace_column.
  destruct (labelled l c) eqn:E; destruct (labelled l' c) eqn:E';
    rewrite ?E, ?E', ?Hl, ?Hl'; try reflexivity.
  apply labelled_true in E, E'. congruence.
Qed.

Lemma getitem_replace_other (l l' : string) (new : series) (df : frame) :
  l <> l' -> getitem (map (replace_column l new) df) l' = getitem df l'.
Proof. intros Hne. unfold getitem. now rewrite filter_replace_other. Qed.

(** A frame on which the block for [l] does nothing stays so when the columns
    of another label are replaced. *)
Lemma prefix_stable_replace_other (l l' : string) (new : series) (df : frame) :
  l <> l' ->
  prefix_station_name l df = Return df ->
  prefix_station_name l (map (replace_column l' new) df)
  = Return (map (replace_column l' new) df).
Proof.
  intros Hne E.
  destruct (prefix_station_name_shape l df df E) as [[Hno _]|(s & Hhas & Hget & Heq)].
  - unfold prefix_station_name. now rewrite has_column_replace, Hno.
  - unfold prefix_station_name.
    rewrite has_column_replace, Hhas, getitem_replace_other, Hget by congruence.
    simpl. f_equal. unfold setitem. rewrite has_column_replace, Hhas.
    rewrite map_map.
    rewrite (map_ext _ _ (fun c => replace_column_comm l l' (prefix_series s) new c Hne)).
    rewrite <- map_map. now rewrite <- Heq.
Qed.

Lemma prefix_station_names_twice (df : frame) :
  (prefix_station_names df ≫= prefix_station_names) = prefix_station_names df.
Proof.
  unfold prefix_station_names.
  destruct (prefix_station_name "start_station_name" df) as [d1|e] eqn:E1; [|reflexivity].
  rewrite !bind_Return.
  destruct (prefix_station_name "end_station_name" d1) as [d2|e] eqn:E2; [|reflexivity].
  rewrite bind_Return.
  pose proof (prefix_station_name_stable _ _ _ E1) as S1.
  pose proof (prefix_station_name_stable _ _ _ E2) as S2.
  assert (S12 : prefix_station_name "start_station_name" d2 = Return d2).
  { destruct (prefix_station_name_shape _ _ _ E2) as [[_ ->]|(s & _ & _ & ->)]; [exact S1|].
    apply prefix_stable_replace_other; [discriminate | exact S1]. }
  rewrite S12, bind_Return. exact S2.
Qed.

(** C8: the station-name prefixing step is idempotent.  Run twice, the block
    for both labels, and the block for one label, give what they give when run
    once, also when that is an exception; on one value the prefixing is
    idempotent, and a value that starts with the marker is left as it is. *)
Theorem station_name_prefix_idempotent :
  (forall df : frame,
     (prefix_station_names df ≫= prefix_station_names) = prefix_station_names df) /\
  (forall (label : string) (df : frame),
     (prefix_station_name label df ≫= prefix_station_name label)
     = prefix_station_name label df) /\
  (forall v : cell, prefix_value (prefix_value v) = prefix_value v) /\
  (forall text : string,
     prefix_value (VStr ("JC - " +:+ text)) = VStr ("JC - " +:+ text)).
Proof.
  split; [|split; [|split]].
  - apply prefix_station_names_twice.
  - apply prefix_station_name_twice.
  - apply prefix_value_twice.
  - intros text. unfold prefix_value. simpl str_of_cell. now rewrite startswith_app.
Qed.

Example prefix_station_names_run :
  prefix_station_names
    [("start_station_name", Series object_ [VStr "Grove St PATH"; VStr "JC - Hamilton Park"]);
     ("end_station_name", Series object_ [VNaN; VStr "Sip Ave"])]
  = Return
      [("start_station_name", Series object_ [VStr "JC - Grove St PATH"; VStr "JC - Hamilton Park"]);
       ("end_station_name", Series object_ [VStr "JC - nan"; VStr "JC - Sip Ave"])].
Proof. vm_compute. reflexivity. Qed.

(* ===================================================================== *)
(** * The Jersey City station identifiers *)
(* ===================================================================== *)

Lemma labels_replace (l : string) (new : series) (df : frame) :
  labels (map (replace_column l new) df) = labels df.
Proof.
  unfold labels. rewrite map_map. apply map_ext. intros c. apply replace_column_fst.
Qed.

Lemma labels_setitem (df : frame) (l : string) (new : series) :
  has_column df l = true -> labels (setitem df l new) = labels df.
Proof. intros Hhas. unfold setitem. rewrite Hhas. apply labels_replace. Qed.

Lemma label_count_same_labels (l : string) (df df' : frame) :
  labels df = labels df' -> label_count l df = label_count l df'.
Proof. intros Hl. now rewrite !label_count_labels, Hl. Qed.

Lemma prefix_station_name_lookup_other
    (l l' : string) (df out : frame) (i : nat) (s : series) :
  prefix_station_name l df = Return out ->
  df !! i = Some (l', s) -> l' <> l -> out !! i = Some (l', s).
Proof.
  intros E Hi Hne.
  destruct (prefix_station_name_shape l df out E) as [[_ ->]|(s0 & Hhas & _ & ->)];
    [exact Hi|].
  rewrite list_lookup_fmap, Hi. simpl. unfold replace_column.
  now rewrite (proj2 (labelled_false l (l', s)) Hne).
Qed.

Section StationIds.
Context `{Pandas}.

(** What one station-id block returns *)
Lemma fix_station_id_shape (l : string) (df out : frame) :
  fix_station_id l df = Return out ->
  out = df \/ (exists new, has_column df l = true /\ out = setitem df l new).
Proof.
  unfold fix_station_id. destruct (has_column df l) eqn:E; [|intros [= <-]; now left].
  destruct (getitem df l) as [[s|cols]|e]; simpl; try discriminate.
  destruct (dtype_eqb (s_dtype s) object_); [|intros [= <-]; now left].
  rewrite ?bind_Return.
  destruct (getitem (setitem df l (strip_jc_series s)) l) as [[s1|cols]|e]; simpl.
  - destruct (pd_to_numeric s1) as [s2|e]; simpl; intros [= <-]; right.
    + exists s2. split; [reflexivity|]. apply setitem_setitem.
    + eauto.
  - intros [= <-]. right. eauto.
  - intros [= <-]. right. eauto.
Qed.

Lemma fix_station_id_lookup_other
    (l l' : string) (df out : frame) (i : nat) (s : series) :
  fix_station_id l df = Return out ->
  df !! i = Some (l', s) -> l' <> l -> out !! i = Some (l', s).
Proof.
  intros E Hi Hne.
  destruct (fix_station_id_shape l df out E) as [->|(new & _ & ->)]; [exact Hi|].
  now apply setitem_lookup_other.
Qed.

Lemma fix_station_id_labels (l : string) (df out : frame) :
  fix_station_id l df = Return out -> labels out = labels df.
Proof.
  intros E.
  destruct (fix_station_id_shape l df out E) as [->|(new & Hhas & ->)]; [reflexivity|].
  now apply labels_setitem.
Qed.

(** The block on a text column that alone carries the label *)
Lemma fix_station_id_unique (l : string) (df : frame) (i : nat) (s : series) :
  df !! i = Some (l, s) -> label_count l df = 1 -> s_dtype s = object_ ->
  fix_station_id l df
  = Return (<[i := (l, match pd_to_numeric (strip_jc_series s) with
                       | Return converted => converted
                       | Raise _ => strip_jc_series s
                       end)]> df).
Proof.
  intros Hi Hc Hd. unfold fix_station_id.
  pose proof (has_column_lookup df i l s Hi) as Hhas.
  pose proof (getitem_unique df i l s Hi Hc) as Hget.
  rewrite Hhas, Hget. simpl. rewrite Hd. simpl.
  rewrite (getitem_setitem_one df l s _ Hhas Hget). simpl.
  destruct (pd_to_numeric (strip_jc_series s)) as [s2|e]; simpl.
  - now rewrite setitem_setitem, (setitem_unique df i l s s2 Hi Hc).
  - now rewrite (setitem_unique df i l s _ Hi Hc).
Qed.

End StationIds.

Example strip_jc_examples :
  strip_jc (VStr "JC-3184") = VStr "3184" /\
  strip_jc (VStr "JC013") = VStr "013" /\
  strip_jc (VStr "HBJC12") = VStr "HB12" /\
  strip_jc (VStr "HB-JC-3JC12") = VStr "HB-312" /\
  strip_jc VNaN = VStr "nan".
Proof. vm_compute. auto. Qed.

(** C9: in a Jersey City file, a station-id label ([start_station_id] or
    [end_station_id]) that one text column carries after the rename.  Each
    value of the column is printed as text and loses every [JC-] and then
    every [JC], wherever they stand; the column becomes what [pd.to_numeric]
    makes of the stripped column, or the stripped text when that fails.  This
    is what the block returns, and what the transform leaves at the place of
    the column whenever it returns.  A marker inside an identifier goes as
    well: [HBJC12] becomes [HB12]. *)
Theorem jc_station_id_marker_removed `{Pandas}
    (df : frame) (sd : schema) (md : file_metadata)
    (label : string) (i : nat) (s : series) :
  md_region md = "jc" ->
  label = "start_station_id" \/ label = "end_station_id" ->
  renamed df sd "jc" !! i = Some (label, s) ->
  label_count label (renamed df sd "jc") = 1 ->
  s_dtype s = object_ ->
  let stripped :=
    Series object_
      (map (fun v => VStr (replace "JC" "" (replace "JC-" "" (str_of_cell v)))) (s_values s)) in
  let fixed :=
    match pd_to_numeric stripped with
    | Return converted => converted
    | Raise _ => stripped
    end in
  fix_station_id label (renamed df sd "jc")
    = Return (<[i := (label, fixed)]> (renamed df sd "jc")) /\
  (forall out, transform_data df sd md = Return out -> out !! i = Some (label, fixed)) /\
  replace "JC" "" (replace "JC-" "" "HBJC12") = "HB12".
Proof.
  intros Hregion Hlabel Hi Hc Hd stripped fixed.
  assert (Hlt : i < length (renamed df sd "jc")) by (now apply lookup_lt_Some in Hi).
  split; [exact (fix_station_id_unique label _ i s Hi Hc Hd)|].
  split; [|reflexivity].
  intros out Hout. rewrite transform_data_eq, Hregion in Hout.
  unfold region_transform in Hout. simpl String.eqb in Hout. cbv iota in Hout.
  unfold fix_station_ids, prefix_station_names in Hout.
  destruct (fix_station_id "start_station_id" (renamed df sd "jc")) as [d1|e] eqn:F1;
    [rewrite bind_Return in Hout | discriminate].
  destruct (fix_station_id "end_station_id" d1) as [d2|e] eqn:F2;
    [rewrite bind_Return in Hout | discriminate].
  destruct (prefix_station_name "start_station_name" d2) as [d3|e] eqn:P1;
    [rewrite bind_Return in Hout | discriminate].
  destruct (prefix_station_name "end_station_name" d3) as [d4|e] eqn:P2;
    [rewrite !bind_Return in Hout | discriminate].
  injection Hout as <-.
  assert (H2 : d2 !! i = Some (label, fixed)).
  { destruct Hlabel as [-> | ->].
    - rewrite (fix_station_id_unique _ _ i s Hi Hc Hd) in F1. injection F1 as <-.
      eapply fix_station_id_lookup_other; [exact F2 | | discriminate].
      now apply list_lookup_insert_eq.
    - assert (H1 : d1 !! i = Some ("end_station_id", s))
        by (eapply fix_station_id_lookup_other; [exact F1 | exact Hi | discriminate]).
      assert (Hc1 : label_count "end_station_id" d1 = 1).
      { rewrite <- Hc. apply label_count_same_labels.
        eapply fix_station_id_labels. exact F1. }
      rewrite (fix_station_id_unique _ _ i s H1 Hc1 Hd) in F2. injection F2 as <-.
      apply list_lookup_insert_eq. now apply lookup_lt_Some in H1. }
  assert (H3 : d3 !! i = Some (label, fixed)).
  { eapply prefix_station_name_lookup_other; [exact P1 | exact H2 |].
    destruct Hlabel as [-> | ->]; discriminate. }
  assert (H4 : d4 !! i = Some (label, fixed)).
  { eapply prefix_station_name_lookup_other; [exact P2 | exact H3 |].
    destruct Hlabel as [-> | ->]; discriminate. }
  apply (setitem_scalar_lookup_other _ _ "region" label "jersey_city" _) in H4;
    [|destruct Hlabel as [-> | ->]; discriminate].
  apply convert_lookup in H4.
  assert (Hid : forall d, convert_entry d (label, fixed) = (label, fixed)).
  { intros d. unfold convert_entry. simpl fst.
    replace (has_time_keyword label) with false; [reflexivity|].
    destruct Hlabel as [-> | ->]; reflexivity. }
  rewrite Hid in H4.
  apply setitem_scalar_lookup_other; [exact H4|].
  destruct Hlabel as [-> | ->]; discriminate.
Qed.

Lemma jc_station_id_marker_removed_witness :
  let df :=
    [("Start Station ID", Series object_ [VStr "JC-3184"; VStr "HBJC12"]);
     ("tripduration", Series int64 [VInt 634; VInt 1200])] in
  let sd := empty_schema "2024-05-01T09:00:00" in
  let md := Metadata (Some "2016") (Some "03") "jc" "monthly" in
  let fixed := Series object_ [VStr "3184"; VStr "HB12"] in
  @fix_station_id text_pandas "start_station_id" (renamed df sd "jc")
    = Return (<[0 := ("start_station_id", fixed)]> (renamed df sd "jc")) /\
  (forall out, @transform_data text_pandas df sd md = Return out ->
     out !! 0 = Some ("start_station_id", fixed)) /\
  replace "JC" "" (replace "JC-" "" "HBJC12") = "HB12".
Proof.
  intros df sd md fixed.
  exact (@jc_station_id_marker_removed text_pandas df sd md "start_station_id" 0
           (Series object_ [VStr "JC-3184"; VStr "HBJC12"])
           eq_refl (or_introl eq_refl) eq_refl eq_refl eq_refl).
Defined.

(** The same file through the whole transform, and a file whose identifiers
    are all numeric once stripped. *)
Example transform_jersey_city_file :
  @transform_data text_pandas
    [("Start Station ID", Series object_ [VStr "JC-3184"; VStr "HBJC12"]);
     ("Start Station Name", Series object_ [VStr "Grove St PATH"; VStr "JC - Hamilton Park"]);
     ("End Station ID", Series object_ [VStr "JC3185"; VStr "JC-3186"])]
    (empty_schema "2024-05-01T09:00:00")
    (Metadata (Some "2016") (Some "03") "jc" "monthly")
  = Return
      [("start_station_id", Series object_ [VStr "3184"; VStr "HB12"]);
       ("start_station_name", Series object_ [VStr "JC - Grove St PATH"; VStr "JC - Hamilton Park"]);
       ("end_station_id", Series int64 [VInt 3185; VInt 3186]);
       ("region", Series object_ [VStr "jersey_city"; VStr "jersey_city"]);
       ("data_source", Series object_ [VStr "jc_2016_03"; VStr "jc_2016_03"])].
Proof. vm_compute. reflexivity. Qed.

(** In a Jersey City file, a station-id label carried by two columns stops
    the transform with an [AttributeError]. *)
Example jersey_city_collision_raises :
  @transform_data text_pandas
    [("station_id", Series int64 [VInt 72]); ("start_station_id", Series int64 [VInt 79])]
    (empty_schema "2024-05-01T09:00:00")
    (Metadata (Some "2016") (Some "03") "jc" "monthly")
  = Raise (AttributeError "dtype").
Proof. vm_compute. reflexivity. Qed.

(** The end-to-end example of the spec. *)
Example transform_new_york_file :
  @transform_data text_pandas
    [("Start Station ID", Series int64 [VInt 72]); ("tripduration", Series int64 [VInt 634])]
    (empty_schema "2024-05-01T09:00:00")
    (Metadata (Some "2015") None "nyc" "annual")
  = Return
      [("start_station_id", Series int64 [VInt 72]);
       ("trip_duration", Series int64 [VInt 634]);
       ("region", Series object_ [VStr "new_york"]);
       ("data_source", Series object_ [VStr "nyc_2015"])].
Proof. vm_compute. reflexivity. Qed.

(* ===================================================================== *)
(** * Suffixes and file keys *)
(* ===================================================================== *)

Lemma endswith_unfold (p s : string) :
  endswith p s
  = String.eqb p s || match s with
                      | EmptyString => false
                      | String _ s' => endswith p s'
                      end.
Proof. destruct s; reflexivity. Qed.

Lemma endswith_refl (s : string) : endswith s s = true.
Proof. rewrite endswith_unfold. now rewrite String.eqb_refl. Qed.

Lemma endswith_app (a p : string) : endswith p (a +:+ p) = true.
Proof.
  induction a as [|c a IH]; [rewrite app_empty; apply endswith_refl|].
  rewrite app_String. simpl. rewrite IH. apply orb_true_r.
Qed.

Lemma endswith_spec (p s : string) : endswith p s = true <-> exists a, s = a +:+ p.
Proof.
  split.
  - induction s as [|c s IH]; simpl.
    + rewrite orb_false_r. intros ->%String.eqb_eq. now exists EmptyString.
    + intros [->%String.eqb_eq | Hs]%orb_true_iff; [now exists EmptyString|].
      destruct (IH Hs) as [a ->]. now exists (String c a).
  - intros [a ->]. apply endswith_app.
Qed.

Lemma endswith_length (p s : string) :
  endswith p s = true -> String.length p <= String.length s.
Proof.
  induction s as [|c s IH]; simpl.
  - rewrite orb_false_r. now intros ->%String.eqb_eq.
  - intros [->%String.eqb_eq | Hs]%orb_true_iff; [simpl; lia|].
    specialize (IH Hs). lia.
Qed.

(** Of two suffixes of one string, the shorter is a suffix of the longer. *)
Lemma endswith_comparable (p q s : string) :
  endswith p s = true -> endswith q s = true ->
  String.length q <= String.length p -> endswith q p = true.
Proof.
  induction s as [|c s IH]; simpl.
  - rewrite !orb_false_r. intros ->%String.eqb_eq ->%String.eqb_eq _. reflexivity.
  - intros [->%String.eqb_eq | Hp]%orb_true_iff Hq Hlen; [exact Hq|].
    apply orb_true_iff in Hq as [->%String.eqb_eq | Hq].
    + apply endswith_length in Hp. simpl in Hlen. lia.
    + now apply IH.
Qed.

Lemma endswith_trans (p q s : string) :
  endswith p q = true -> endswith q s = true -> endswith p s = true.
Proof.
  intros [a ->]%endswith_spec [b ->]%endswith_spec.
  apply endswith_spec. exists (b +:+ a).
  induction b as [|c b IH]; [now rewrite !app_empty|].
  rewrite !app_String. now rewrite IH.
Qed.

Lemma endswith_app_l (a p s : string) :
  endswith p s = true -> endswith p (a +:+ s) = true.
Proof. intros Hs. eapply endswith_trans; [exact Hs | apply endswith_app]. Qed.

Lemma endswith_basename (p : string) : endswith (basename p) p = true.
Proof.
  induction p as [|c p IH]; [reflexivity|]. simpl basename.
  destruct (contains "/" p).
  - simpl. rewrite IH. apply orb_true_r.
  - destruct (Ascii.eqb c "/").
    + simpl. rewrite endswith_refl. apply orb_true_r.
    + apply endswith_refl.
Qed.

Lemma endswith_lstrip_dots (s : string) : endswith (lstrip_dots s) s = true.
Proof.
  induction s as [|c s IH]; [reflexivity|]. simpl lstrip_dots.
  destruct (Ascii.eqb c ".").
  - simpl. rewrite IH. apply orb_true_r.
  - apply endswith_refl.
Qed.

Lemma from_last_dot_suffix (s : string) :
  from_last_dot s = EmptyString \/ endswith (from_last_dot s) s = true.
Proof.
  induction s as [|c s IH]; [now left|]. simpl from_last_dot.
  destruct (contains "." s).
  - destruct IH as [-> | IH]; [now left|]. right. simpl. rewrite IH. apply orb_true_r.
  - destruct (Ascii.eqb c "."); [right; apply endswith_refl | now left].
Qed.

(** A non-empty extension is a suffix of the path. *)
Lemma splitext_ext_suffix (p : string) :
  splitext_ext p = EmptyString \/ endswith (splitext_ext p) p = true.
Proof.
  unfold splitext_ext.
  destruct (from_last_dot_suffix (lstrip_dots (basename p))) as [-> | H]; [now left|].
  right. eapply endswith_trans; [exact H|].
  eapply endswith_trans; [apply endswith_lstrip_dots | apply endswith_basename].
Qed.

Lemma is_csv_key_not_excel (key : string) :
  is_csv_key key = true ->
  String.eqb (splitext_ext (lower key)) ".xlsx" = false /\
  String.eqb (splitext_ext (lower key)) ".xls" = false.
Proof.
  unfold is_csv_key, endswith_any, csv_suffixes. simpl. rewrite orb_false_r.
  intros Hcsv.
  split; apply String.eqb_neq; intros Hext;
    (destruct (splitext_ext_suffix (lower key)) as [He | He];
     [rewrite Hext in He; discriminate|]);
    rewrite Hext in He;
    apply orb_true_iff in Hcsv as [Hc | Hc];
    pose proof (endswith_comparable _ _ _ He Hc) as Hcmp;
    pose proof (endswith_comparable _ _ _ Hc He) as Hcmp';
    simpl in Hcmp, Hcmp';
    try (specialize (Hcmp ltac:(lia)); discriminate);
    try (specialize (Hcmp' ltac:(lia)); discriminate).
Qed.

Lemma read_csv_key_none
    (g : list string) (get_object : result string)
    (read_excel : string -> result frame) (key : string) :
  is_csv_key key = true ->
  read_file_to_dataframe g get_object (read_file_rest key read_excel) = Return None.
Proof.
  intros Hcsv. destruct (is_csv_key_not_excel key Hcsv) as [Hx Hs].
  unfold read_file_to_dataframe, read_file_body, read_file_rest.
  destruct get_object as [response|e]; [|reflexivity]. rewrite bind_Return.
  destruct (load_global g "os") as [[]|e]; [|reflexivity]. rewrite bind_Return.
  rewrite Hx, Hs. simpl.
  destruct (_ || _); reflexivity.
Qed.

(** X1: no file that the handler picks from an S3 event or from the scan of
    the bucket is ever read into a frame.  Both selections keep keys ending in
    [.csv] or [.csv.gz] only; for such a key [read_file_to_dataframe] returns
    [None], whatever the module's globals and whatever S3 and pandas answer:
    [.csv.gz] is an unsupported type, and the CSV branch fails on its unbound
    local [pd]. *)
Theorem selected_files_are_never_read
    (records : list s3_record) (pages : list (option (list string))) (key : string)
    (g : list string) (get_object : result string) (read_excel : string -> result frame) :
  In key (extract_files_from_event records) \/ In key (list_unprocessed_files pages) ->
  read_file_to_dataframe g get_object (read_file_rest key read_excel) = Return None.
Proof.
  intros Hsel. apply read_csv_key_none. destruct Hsel as [Hev | Hscan].
  - unfold extract_files_from_event in Hev. apply filter_In in Hev as [_ Hc].
    now apply andb_true_iff in Hc as [_ Hc].
  - unfold list_unprocessed_files in Hscan.
    apply in_flat_map in Hscan as ([keys|] & _ & Hk); [|destruct Hk].
    now apply filter_In in Hk as [_ Hc].
Qed.

Lemma selected_files_are_never_read_witness :
  read_file_to_dataframe ("os" :: module_globals) (Return "ride_id,started_at")
    (read_file_rest "result_files/2021/202101-citibike-tripdata.csv"
       (fun _ => Return [("ride_id", Series object_ [VStr "A1"])]))
  = Return None.
Proof.
  apply (selected_files_are_never_read
           [S3Record "aws:s3" "citibike-trips-data-1"
              "result_files/2021/202101-citibike-tripdata.csv"] []).
  left. vm_compute. auto.
Defined.

(** X2: [read_file_to_dataframe] yields a frame for Excel keys only.  When it
    returns a frame, [os] is bound, the extension of the lowercased key is
    [.xlsx] or [.xls], the S3 request and [pd.read_excel] have returned, and
    the frame is the one read with its column names stripped. *)
Theorem read_file_frame_only_from_excel
    (g : list string) (get_object : result string)
    (read_excel : string -> result frame) (key : string) (df : frame) :
  read_file_to_dataframe g get_object (read_file_rest key read_excel) = Return (Some df) ->
  load_global g "os" = Return tt /\
  (splitext_ext (lower key) = ".xlsx" \/ splitext_ext (lower key) = ".xls") /\
  exists response raw,
    get_object = Return response /\ read_excel response = Return raw /\
    df = strip_labels raw.
Proof.
  unfold read_file_to_dataframe, read_file_body, read_file_rest.
  destruct get_object as [response|e]; [|discriminate]. rewrite bind_Return.
  destruct (load_global g "os") as [[]|e]; [|discriminate]. rewrite bind_Return.
  destruct (_ || _); [discriminate|].
  destruct (String.eqb (splitext_ext (lower key)) ".xlsx") eqn:Ex;
    [|destruct (String.eqb (splitext_ext (lower key)) ".xls") eqn:Es]; simpl;
    try discriminate;
    (destruct (read_excel response) as [raw|e] eqn:R; simpl; [|discriminate]);
    intros [= <-]; (split; [reflexivity|]); (split; [|eauto]).
  - left. now apply String.eqb_eq.
  - right. now apply String.eqb_eq.
Qed.

Lemma read_file_frame_only_from_excel_witness :
  load_global ("os" :: module_globals) "os" = Return tt /\
  (splitext_ext (lower "result_files/2013/Trips 2013-07.XLSX") = ".xlsx" \/
   splitext_ext (lower "result_files/2013/Trips 2013-07.XLSX") = ".xls") /\
  exists response raw,
    Return "PK" = Return response /\
    (fun _ : string => Return [(" Trip Duration ", Series int64 [VInt 634])]) response
      = Return raw /\
    [("Trip Duration", Series int64 [VInt 634])] = strip_labels raw.
Proof.
  apply (read_file_frame_only_from_excel ("os" :: module_globals) (Return "PK")
           (fun _ => Return [(" Trip Duration ", Series int64 [VInt 634])])
           "result_files/2013/Trips 2013-07.XLSX").
  vm_compute. reflexivity.
Defined.

Lemma endswith_parquet_key (key : string) : endswith ".parquet" (parquet_key key) = true.
Proof.
  unfold parquet_key. destruct (endswith ".parquet" key) eqn:E; [exact E|].
  apply endswith_app.
Qed.

Lemma parquet_key_fixed (key : string) :
  endswith ".parquet" key = true -> parquet_key key = key.
Proof. intros E. unfold parquet_key. now rewrite E. Qed.

(** X3: whatever [save_dataframe_to_s3] returns ends in [.parquet].  When it
    returns a key, that key is the given key if it ends in [.parquet], and
    otherwise what precedes the last dot of the given key followed by
    [.parquet]; it is a fixed point of the renaming; and it is the key of the
    one upload the call sent. *)
Theorem saved_key_is_parquet
    (to_parquet : result string) (upload_fileobj : string -> string -> result unit)
    (key saved : string) (requests : list s3_request) :
  save_dataframe_to_s3 to_parquet upload_fileobj key = (requests, Return saved) ->
  endswith ".parquet" saved = true /\
  saved = (if endswith ".parquet" key then key else rsplit_dot_head key +:+ ".parquet") /\
  parquet_key saved = saved /\
  exists parquet_buffer, requests = [UploadFileobj parquet_buffer saved].
Proof.
  unfold save_dataframe_to_s3. destruct to_parquet as [buf|e]; [|discriminate].
  destruct (upload_fileobj buf (parquet_key key)) as [[]|e]; simpl; [|discriminate].
  intros [= <- <-].
  split; [apply endswith_parquet_key|]. split; [reflexivity|].
  split; [apply parquet_key_fixed, endswith_parquet_key | eauto].
Qed.

(** A key with a dot in a directory name and none in the file name loses
    everything after that dot. *)
Lemma saved_key_is_parquet_witness :
  endswith ".parquet" "data.parquet" = true /\
  "data.parquet"
    = (if endswith ".parquet" "data.v2/2021-citibike-tripdata"
       then "data.v2/2021-citibike-tripdata"
       else rsplit_dot_head "data.v2/2021-citibike-tripdata" +:+ ".parquet") /\
  parquet_key "data.parquet" = "data.parquet" /\
  exists parquet_buffer,
    [UploadFileobj "PAR1" "data.parquet"] = [UploadFileobj parquet_buffer "data.parquet"].
Proof.
  apply (saved_key_is_parquet (Return "PAR1") (fun _ _ => Return tt)
           "data.v2/2021-citibike-tripdata").
  reflexivity.
Defined.

Lemma string_app_assoc (a b c : string) : (a +:+ b) +:+ c = a +:+ (b +:+ c).
Proof.
  induction a as [|x a IH]; [now rewrite !app_empty|].
  rewrite !app_String. now rewrite IH.
Qed.

(** X4: with [os] bound, [generate_destination_key] returns for every key and
    every metadata a key under [processed_data/] that ends in [.parquet], so
    [save_dataframe_to_s3] uploads under that very key: the destination the
    handler reports is the key it wrote. *)
Theorem destination_key_is_written_as_is
    (g : list string) (file_key : string) (md : file_metadata)
    (to_parquet : result string) (upload_fileobj : string -> string -> result unit) :
  load_global g "os" = Return tt ->
  exists destination_key,
    generate_destination_key g file_key md = Return destination_key /\
    startswith PROCESSED_DATA_PREFIX destination_key = true /\
    endswith ".parquet" destination_key = true /\
    forall requests saved,
      save_dataframe_to_s3 to_parquet upload_fileobj destination_key
        = (requests, Return saved) ->
      saved = destination_key.
Proof.
  intros Hos. unfold generate_destination_key. rewrite Hos, bind_Return.
  assert (Hsaved : forall k, endswith ".parquet" k = true ->
            forall requests saved,
              save_dataframe_to_s3 to_parquet upload_fileobj k = (requests, Return saved) ->
              saved = k).
  { intros k Hk requests saved Hs.
    destruct (saved_key_is_parquet _ _ _ _ _ Hs) as (_ & -> & _). now rewrite Hk. }
  destruct (truthy (md_month md)); eexists; (split; [reflexivity|]);
    (split; [apply startswith_app|]);
    (split; [|apply Hsaved]);
    repeat lazymatch goal with
           | |- endswith _ (_ +:+ ".parquet") = true => apply endswith_app
           | |- endswith _ (_ +:+ _) = true => apply endswith_app_l
           end.
Qed.

Lemma destination_key_is_written_as_is_witness :
  exists destination_key,
    generate_destination_key ("os" :: module_globals)
      "result_files/JC-202101-citibike-tripdata.csv/JC-202101-citibike-tripdata.csv"
      (Metadata (Some "2021") (Some "01") "jc" "monthly") = Return destination_key /\
    startswith PROCESSED_DATA_PREFIX destination_key = true /\
    endswith ".parquet" destination_key = true /\
    forall requests saved,
      save_dataframe_to_s3 (Return "PAR1") (fun _ _ => Return tt) destination_key
        = (requests, Return saved) ->
      saved = destination_key.
Proof.
  apply (destination_key_is_written_as_is ("os" :: module_globals)).
  reflexivity.
Defined.

Example destination_key_example :
  generate_destination_key ("os" :: module_globals)
    "result_files/JC-202101-citibike-tripdata.csv/JC-202101-citibike-tripdata.csv"
    (Metadata (Some "2021") (Some "01") "jc" "monthly")
  = Return "processed_data/jc/2021/01/JC-202101-citibike-tripdata.parquet".
Proof. vm_compute. reflexivity. Qed.

(* ===================================================================== *)
(** * More on the column normaliser *)
(* ===================================================================== *)

Lemma contains_space_cons (c : ascii) (s : string) :
  contains " " (String c s) = Ascii.eqb " " c || contains " " s.
Proof. cbn [contains startswith]. destruct (Ascii.eqb " " c); reflexivity. Qed.

Lemma replace_space_cons (c : ascii) (s : string) :
  replace " " "_" (String c s)
  = String (if Ascii.eqb " " c then "_"%char else c) (replace " " "_" s).
Proof.
  unfold replace. cbn [replace_from startswith String.length Nat.sub].
  destruct (Ascii.eqb " " c); reflexivity.
Qed.

Lemma replace_space_no_space (s : string) : contains " " (replace " " "_" s) = false.
Proof.
  induction s as [|c s IH]; [reflexivity|].
  rewrite replace_space_cons, contains_space_cons, IH.
  destruct (Ascii.eqb " " c) eqn:E; [reflexivity|]. now rewrite E.
Qed.

Lemma replace_space_fixed (s : string) :
  contains " " s = false -> replace " " "_" s = s.
Proof.
  induction s as [|c s IH]; [reflexivity|].
  rewrite contains_space_cons, replace_space_cons.
  intros [Hc Hs]%orb_false_iff. now rewrite Hc, IH.
Qed.

Lemma jc_mapping_is_nyc_mapping : jc_mapping = nyc_mapping.
Proof. reflexivity. Qed.

(** Every canonical name of the alias table is free of spaces and is mapped
    to itself. *)
Lemma alias_values_canonical :
  map_Forall
    (fun _ v => contains " " v = false /\ normalize_column_name v "nyc" = v)
    nyc_mapping.
Proof. apply (bool_decide_unpack _). vm_compute. reflexivity. Qed.

(** X5: the region makes no difference to [normalize_column_name]: the two
    alias tables are the same table. *)
Theorem normalize_same_in_every_region (column_name region region' : string) :
  normalize_column_name column_name region = normalize_column_name column_name region'.
Proof.
  unfold normalize_column_name. rewrite jc_mapping_is_nyc_mapping.
  destruct (String.eqb region "nyc"), (String.eqb region' "nyc"); reflexivity.
Qed.

(** X6: a canonical name is a fixed point of the normaliser, so normalising
    twice, in any regions, is normalising once; and a canonical name has no
    space. *)
Theorem normalize_idempotent (column_name region region' : string) :
  normalize_column_name (normalize_column_name column_name region) region'
    = normalize_column_name column_name region /\
  contains " " (normalize_column_name column_name region) = false.
Proof.
  rewrite (normalize_region_independent _ region), (normalize_region_independent _ region').
  assert (Hn : normalize_column_name column_name "nyc"
               = match nyc_mapping !! replace " " "_" column_name with
                 | Some v => v
                 | None => replace " " "_" column_name
                 end) by reflexivity.
  rewrite Hn.
  destruct (nyc_mapping !! replace " " "_" column_name) as [v|] eqn:E.
  - destruct (alias_values_canonical _ _ E) as [Hs Hv]. auto.
  - split; [|apply replace_space_no_space].
    unfold normalize_column_name. simpl String.eqb. cbv iota.
    rewrite (replace_space_fixed _ (replace_space_no_space column_name)).
    now rewrite E.
Qed.

(* ===================================================================== *)
(** * More on the schema registry updater *)
(* ===================================================================== *)

Lemma label_count_absent (l : string) (df : frame) :
  l ∉ labels df -> label_count l df = 0.
Proof.
  unfold label_count, labels. induction df as [|c df IH]; simpl; [reflexivity|].
  intros Hnin. apply not_elem_of_cons in Hnin as [Hne Hnin].
  rewrite (proj2 (labelled_false l c)) by congruence. auto.
Qed.

Lemma label_count_present (l : string) (df : frame) :
  l ∈ labels df -> 1 <= label_count l df.
Proof.
  intros Hin. apply list_elem_of_lookup in Hin as [i Hi].
  unfold labels in Hi. rewrite list_lookup_fmap in Hi.
  destruct (df !! i) as [[l' s]|] eqn:E; [|discriminate].
  injection Hi as <-. now apply (label_count_lookup df i l' s).
Qed.

Lemma label_count_step (l : string) (c : string * series) (df : frame) :
  label_count l (c :: df) = (if labelled l c then 1 else 0) + label_count l df.
Proof. unfold label_count. simpl. destruct (labelled l c); reflexivity. Qed.

Lemma NoDup_label_count (df : frame) :
  NoDup (labels df) <-> forall l, l ∈ labels df -> label_count l df = 1.
Proof.
  induction df as [|c df IH].
  - split; [intros _ l Hl; by apply elem_of_nil in Hl | intros _; constructor].
  - change (labels (c :: df)) with (fst c :: labels df).
    rewrite NoDup_cons, IH. split.
    + intros [Hnin Hall] l Hl. rewrite label_count_step.
      apply elem_of_cons in Hl as [-> | Hl].
      * rewrite (proj2 (labelled_true (fst c) c) eq_refl).
        now rewrite (label_count_absent _ _ Hnin).
      * rewrite (proj2 (labelled_false l c)); [now apply Hall|].
        intros Heq. apply Hnin. now rewrite Heq.
    + intros Hall. split.
      * intros Hin. pose proof (Hall (fst c) ltac:(by left)) as Hc.
        rewrite label_count_step, (proj2 (labelled_true (fst c) c) eq_refl) in Hc.
        pose proof (label_count_present _ _ Hin). lia.
      * intros l Hl. pose proof (Hall l ltac:(by right)) as Hc.
        rewrite label_count_step in Hc.
        pose proof (label_count_present _ _ Hl). destruct (labelled l c); lia.
Qed.

Lemma column_dtype_unique (df : frame) (l : string) :
  label_count l df = 1 ->
  exists dt, (sel ← getitem df l; selection_dtype sel) = Return dt.
Proof.
  unfold label_count, getitem.
  destruct (List.filter (labelled l) df) as [|x [|y ys]]; simpl; try discriminate.
  eauto.
Qed.

Lemma column_dtype_many (df : frame) (l : string) :
  2 <= label_count l df ->
  (sel ← getitem df l; selection_dtype sel) = Raise (AttributeError "dtype").
Proof. intros Hc. destruct (getitem_many df l Hc) as [cols ->]. reflexivity. Qed.

(** The registry after the two preparation steps *)
Lemma prepare_source_entry (md : file_metadata) (now : clock) (sd : schema) :
  sbind ensure_sources
    (fun _ => ensure_source_entry (update_source_key md now) (update_year md now)
                (md_month md) (md_region md)) sd
  = (with_source_entry md now sd, Return tt).
Proof.
  unfold with_source_entry, sbind, ensure_sources, ensure_source_entry, sbind,
    get_sources, modify, sreturn.
  destruct (sources sd) as [srcs|] eqn:E; simpl; rewrite ?E; simpl.
  - destruct (srcs !! update_source_key md now); reflexivity.
  - rewrite lookup_empty. reflexivity.
Qed.

Lemma with_source_entry_fields (md : file_metadata) (now : clock) (sd : schema) :
  columns (with_source_entry md now sd) = columns sd /\
  column_mappings (with_source_entry md now sd) = column_mappings sd /\
  last_updated (with_source_entry md now sd) = last_updated sd /\
  source_entry (with_source_entry md now sd) (update_source_key md now)
  = Some (default (SourceInfo (update_year md now) (md_month md) (md_region md) [])
                  (source_entry sd (update_source_key md now))) /\
  (forall k, k <> update_source_key md now ->
     source_entry (with_source_entry md now sd) k = source_entry sd k).
Proof.
  unfold with_source_entry, sbind, ensure_sources, ensure_source_entry, sbind,
    get_sources, modify, sreturn, source_entry.
  destruct (sources sd) as [srcs|] eqn:E; simpl; rewrite ?E; simpl.
  - destruct (srcs !! update_source_key md now) eqn:Ek; simpl; rewrite ?E, ?Ek; simpl.
    + auto.
    + rewrite lookup_insert_eq. repeat split; try reflexivity.
      intros k Hk. now rewrite lookup_insert_ne.
  - rewrite lookup_empty. simpl. rewrite lookup_insert_eq. repeat split; try reflexivity.
    intros k Hk. now rewrite lookup_insert_ne, lookup_empty.
Qed.

Lemma update_unfold (df : frame) (md : file_metadata) (now : clock) (sd : schema) :
  update_schema_with_new_columns df md now sd
  = match for_each (observe_column df (update_source_key md now) (update_year md now)
                      (md_month md) (md_region md))
            (labels df) (with_source_entry md now sd) with
    | (sd', Return _) => (set_last_updated (now_isoformat now) sd', Return tt)
    | (sd', Raise e) => (sd', Raise e)
    end.
Proof.
  pose proof (prepare_source_entry md now sd) as Hp.
  unfold update_schema_with_new_columns.
  fold (update_year md now). fold (update_source_key md now).
  unfold sbind in *.
  destruct (ensure_sources sd) as [s0 [[]|e]] eqn:E0; [|discriminate].
  destruct (ensure_source_entry _ _ _ _ s0) as [s1 [[]|e]] eqn:E1; [|discriminate].
  injection Hp as <-.
  destruct (for_each _ _ s1) as [s2 [[]|e]]; reflexivity.
Qed.

(** The first step of the loop body, on a registry that has the entry of the
    source: it returns, and appends the column when the entry lacks it. *)
Lemma record_source_column_spec (key col : string) (s : schema) (e : source_info) :
  source_entry s key = Some e ->
  exists s',
    record_source_column key col s = (s', Return tt) /\
    columns s' = columns s /\ column_mappings s' = column_mappings s /\
    last_updated s' = last_updated s /\
    source_entry s' key
    = Some (if bool_decide (col ∈ src_columns e) then e else append_column col e) /\
    (forall k, k <> key -> source_entry s' k = source_entry s k).
Proof.
  unfold source_entry, record_source_column, sbind, get_sources.
  destruct (sources s) as [srcs|] eqn:E; [|discriminate]. intros Hk. rewrite Hk.
  case_bool_decide; simpl.
  - exists s. rewrite E. repeat split; auto.
  - eexists. split; [reflexivity|]. simpl. rewrite lookup_insert_eq.
    repeat split; try reflexivity. intros k Hne. now rewrite lookup_insert_ne.
Qed.

(** The second step, on a registry that has its [columns] key: it returns,
    and records the column and its mapping when the column is new. *)
Lemma register_column_spec
    (c d y : string) (m : option string) (r : string) (s : schema)
    (cols : gmap string column_info) :
  columns s = Some cols ->
  exists s',
    register_column c d y m r s = (s', Return tt) /\
    sources s' = sources s /\ last_updated s' = last_updated s /\
    is_Some (columns s') /\
    (is_Some (cols !! c) -> s' = s) /\
    (cols !! c = None ->
       column_entry s' c = Some (ColumnInfo d y m r (normalize_column_name c r)) /\
       mapping_entry s' c = Some (normalize_column_name c r) /\
       forall k, k <> c ->
         column_entry s' k = column_entry s k /\ mapping_entry s' k = mapping_entry s k).
Proof.
  intros Hc. unfold register_column, sbind, get_columns. rewrite Hc.
  destruct (cols !! c) as [info|] eqn:Ek; simpl.
  - exists s. rewrite Hc. repeat split; eauto; discriminate.
  - eexists. split; [reflexivity|]. simpl.
    repeat split; eauto.
    + intros [x Hx]. discriminate.
    + unfold column_entry. simpl. apply lookup_insert_eq.
    + unfold mapping_entry. simpl. apply lookup_insert_eq.
    + unfold column_entry. simpl. rewrite Hc. now rewrite lookup_insert_ne.
    + unfold mapping_entry. simpl. rewrite lookup_insert_ne by congruence.
      destruct (column_mappings s); [reflexivity | apply lookup_empty].
Qed.

Lemma observe_column_returns
    (df : frame) (key y : string) (m : option string) (r col : string) (s : schema) :
  label_count col df = 1 -> ready key s ->
  snd (observe_column df key y m r col s) = Return tt /\
  ready key (fst (observe_column df key y m r col s)).
Proof.
  intros Hcount [[cols Hcols] [e He]].
  destruct (column_dtype_unique df col Hcount) as [dt Hdt].
  unfold observe_column, sbind at 1, slift. rewrite Hdt.
  destruct (record_source_column_spec key (lower (strip col)) s e He)
    as (s1 & Hr & Hc1 & _ & _ & Hs1 & _).
  unfold sbind. rewrite Hr. rewrite Hcols in Hc1.
  destruct (register_column_spec (lower (strip col)) (dtype_name dt) y m r s1 cols Hc1)
    as (s2 & Hg & Hsrc & _ & Hsome & _).
  rewrite Hg. simpl. split; [reflexivity|]. split; [exact Hsome|].
  unfold source_entry in *. rewrite Hsrc, Hs1. eauto.
Qed.

Lemma observe_column_duplicate
    (df : frame) (key y : string) (m : option string) (r col : string) (s : schema) :
  2 <= label_count col df ->
  observe_column df key y m r col s = (s, Raise (AttributeError "dtype")).
Proof.
  intros Hcount. unfold observe_column, sbind, slift.
  now rewrite (column_dtype_many df col Hcount).
Qed.

Lemma for_each_cons {A : Type} (body : A -> stateful unit) (x : A) (xs : list A) (s : schema) :
  for_each body (x :: xs) s
  = match body x s with
    | (s', Return _) => for_each body xs s'
    | (s', Raise e) => (s', Raise e)
    end.
Proof. reflexivity. Qed.

Lemma observe_loop_outcome
    (df : frame) (key y : string) (m : option string) (r : string)
    (ls : list string) (s : schema) :
  (forall l, l ∈ ls -> l ∈ labels df) -> ready key s ->
  (Forall (fun l => label_count l df = 1) ls ->
     snd (for_each (observe_column df key y m r) ls s) = Return tt /\
     ready key (fst (for_each (observe_column df key y m r) ls s))) /\
  (~ Forall (fun l => label_count l df = 1) ls ->
     snd (for_each (observe_column df key y m r) ls s) = Raise (AttributeError "dtype")).
Proof.
  revert s. induction ls as [|l ls IH]; intros s Hsub Hready.
  - split; [intros _; now split | intros Hn; exfalso; apply Hn; constructor].
  - assert (Hsub' : forall l', l' ∈ ls -> l' ∈ labels df)
      by (intros l' Hl'; apply Hsub; by right).
    destruct (decide (label_count l df = 1)) as [H1 | Hn1].
    + destruct (observe_column_returns df key y m r l s H1 Hready) as [Hret Hready'].
      rewrite !for_each_cons.
      destruct (observe_column df key y m r l s) as [s1 [[]|e]]; [|discriminate].
      simpl in Hready'. destruct (IH s1 Hsub' Hready') as [IHok IHbad].
      split.
      * intros Hall. apply IHok. now inversion Hall.
      * intros Hn. apply IHbad. intros Hall. apply Hn. now constructor.
    + assert (2 <= label_count l df) as H2.
      { pose proof (label_count_present l df (Hsub l ltac:(by left))). lia. }
      rewrite !for_each_cons.
      rewrite (observe_column_duplicate df key y m r l s H2).
      split; [intros Hall; inversion Hall; contradiction | reflexivity].
Qed.

(** X7: how a call of the updater ends, on a registry that has its [columns]
    key.  It returns when no column label of the dataset repeats, and raises
    [AttributeError] (for [.dtype] of a DataFrame) when one does. *)
Theorem update_outcome
    (df : frame) (md : file_metadata) (now : clock) (sd : schema) :
  is_Some (columns sd) ->
  (NoDup (labels df) ->
     snd (update_schema_with_new_columns df md now sd) = Return tt) /\
  (~ NoDup (labels df) ->
     snd (update_schema_with_new_columns df md now sd) = Raise (AttributeError "dtype")).
Proof.
  intros Hcols. rewrite update_unfold.
  destruct (with_source_entry_fields md now sd) as (Hc & _ & _ & Hs & _).
  assert (Hready : ready (update_source_key md now) (with_source_entry md now sd))
    by (split; [now rewrite Hc | rewrite Hs; eauto]).
  destruct (observe_loop_outcome df (update_source_key md now) (update_year md now)
              (md_month md) (md_region md) (labels df) _ (fun l H => H) Hready)
    as [Hok Hbad].
  assert (Hiff : NoDup (labels df) <-> Forall (fun l => label_count l df = 1) (labels df))
    by (rewrite NoDup_label_count, Forall_forall; reflexivity).
  split; intros Hd.
  - destruct (Hok (proj1 Hiff Hd)) as [Hret _].
    destruct (for_each _ _ _) as [s2 [[]|e]]; [reflexivity | discriminate].
  - assert (Hn : ~ Forall (fun l => label_count l df = 1) (labels df))
      by (intros Hall; apply Hd, Hiff, Hall).
    specialize (Hbad Hn).
    destruct (for_each _ _ _) as [s2 [[]|e]]; [discriminate | exact Hbad].
Qed.

Lemma update_outcome_witness :
  snd (update_schema_with_new_columns
         [("ride_id", Series object_ [VStr "A1"]); (" ride_id", Series object_ [VStr "B2"]);
          ("ride_id", Series object_ [VStr "C3"])]
         (Metadata (Some "2021") (Some "02") "nyc" "monthly")
         (Clock "2024" "2024-05-01T10:00:00")
         (empty_schema "2024-05-01T09:00:00"))
  = Raise (AttributeError "dtype").
Proof.
  apply (proj2 (update_outcome _ _ _ (empty_schema "2024-05-01T09:00:00")
                  (ex_intro _ _ eq_refl))).
  intros Hd. apply NoDup_cons in Hd as [Hnin _]. apply Hnin.
  right. by left.
Defined.

Lemma recorded_extends (key col : string) (s s' : schema) :
  recorded key col s -> extends s s' -> recorded key col s'.
Proof.
  intros [Hc (e & He & Hin)] (Hcols & _ & Hsrc). split; [now apply Hcols|].
  destruct (Hsrc key e He) as (e' & He' & _ & _ & _ & Hpre).
  exists e'. split; [exact He'|]. eapply elem_of_prefix; eassumption.
Qed.

Lemma observe_column_extends df key y m r col :
  preserves extends (observe_column df key y m r col).
Proof.
  apply (preserves_observe_column extends extends_refl extends_trans
           extends_record_source_column extends_register_column).
Qed.

(** What a round of the loop that returned has found and left *)
Lemma observe_column_returned
    (df : frame) (key y : string) (m : option string) (r col : string) (s s' : schema) :
  observe_column df key y m r col s = (s', Return tt) ->
  label_count col df = 1 /\ is_Some (columns s) /\ recorded key col s'.
Proof.
  intros Hret.
  assert (Hcount : label_count col df = 1).
  { destruct (decide (2 <= label_count col df)) as [H2|Hn2].
    - rewrite (observe_column_duplicate df key y m r col s H2) in Hret. discriminate.
    - destruct (label_count col df) as [|[|n]] eqn:E; [|reflexivity|lia].
      exfalso. unfold observe_column, sbind, slift, label_count, getitem in *.
      destruct (List.filter (labelled col) df); [discriminate | discriminate]. }
  split; [exact Hcount|].
  destruct (column_dtype_unique df col Hcount) as [dt Hdt].
  unfold observe_column, sbind at 1, slift in Hret. rewrite Hdt in Hret.
  unfold sbind in Hret.
  destruct (source_entry s key) as [e|] eqn:He.
  - destruct (record_source_column_spec key (lower (strip col)) s e He)
      as (s1 & Hr & Hc1 & _ & _ & Hs1 & _).
    rewrite Hr in Hret.
    destruct (columns s) as [cols|] eqn:Hcols.
    + split; [eauto|].
      destruct (register_column_spec (lower (strip col)) (dtype_name dt) y m r s1 cols Hc1)
        as (s2 & Hg & Hsrc & _ & _ & Hold & Hnew).
      rewrite Hg in Hret. injection Hret as <-. split.
      * destruct (cols !! lower (strip col)) as [info|] eqn:Ek.
        -- rewrite (Hold ltac:(eauto)). unfold column_entry. rewrite Hc1, Ek. eauto.
        -- destruct (Hnew eq_refl) as [-> _]. eauto.
      * unfold source_entry in *. rewrite Hsrc, Hs1. eexists. split; [reflexivity|].
        case_bool_decide as Hin; [exact Hin|]. simpl. apply elem_of_app. right. by left.
    + exfalso. unfold register_column, sbind, get_columns in Hret.
      rewrite Hc1 in Hret. discriminate.
  - exfalso. unfold record_source_column, sbind, get_sources, source_entry in *.
    destruct (sources s) as [srcs|]; [|discriminate].
    rewrite He in Hret. discriminate.
Qed.

Lemma observe_loop_returned
    (df : frame) (key y : string) (m : option string) (r : string)
    (ls : list string) (s s' : schema) :
  for_each (observe_column df key y m r) ls s = (s', Return tt) ->
  forall l, l ∈ ls -> label_count l df = 1 /\ recorded key l s'.
Proof.
  revert s. induction ls as [|l0 ls IH]; intros s Hret l Hl;
    [by apply elem_of_nil in Hl|].
  rewrite for_each_cons in Hret.
  destruct (observe_column df key y m r l0 s) as [s1 [[]|e]] eqn:E; [|discriminate].
  apply elem_of_cons in Hl as [-> | Hl]; [|exact (IH s1 Hret l Hl)].
  destruct (observe_column_returned _ _ _ _ _ _ _ _ E) as (Hc & _ & Hrec).
  split; [exact Hc|]. apply (recorded_extends key l0 s1 s' Hrec).
  pose proof (preserves_for_each extends extends_refl extends_trans
                (observe_column df key y m r) ls
                (fun x => observe_column_extends df key y m r x) s1) as Hext.
  now rewrite Hret in Hext.
Qed.

(** X8: after a call of the updater that returned, the registry is stamped
    with the time of the call, has an entry for the source of the dataset, and
    every column of the dataset, lowercased and stripped, is on record in
    [columns] and listed by that entry. *)
Theorem update_records_every_column
    (df : frame) (md : file_metadata) (now : clock) (sd sd' : schema) :
  update_schema_with_new_columns df md now sd = (sd', Return tt) ->
  last_updated sd' = Some (now_isoformat now) /\
  exists e,
    source_entry sd' (update_source_key md now) = Some e /\
    forall col, col ∈ labels df ->
      lower (strip col) ∈ src_columns e /\
      is_Some (column_entry sd' (lower (strip col))).
Proof.
  rewrite update_unfold.
  destruct (for_each _ _ _) as [s2 [[]|e]] eqn:E; [|discriminate].
  intros [= <-]. split; [reflexivity|].
  destruct (with_source_entry_fields md now sd) as (_ & _ & _ & Hs & _).
  pose proof (preserves_for_each extends extends_refl extends_trans
                (observe_column df (update_source_key md now) (update_year md now)
                   (md_month md) (md_region md)) (labels df)
                (fun x => observe_column_extends df _ _ _ _ x)
                (with_source_entry md now sd)) as (_ & _ & Hext).
  rewrite E in Hext. simpl in Hext.
  destruct (Hext _ _ Hs) as (e2 & He2 & _).
  exists e2. split; [exact He2|].
  intros col Hcol.
  destruct (observe_loop_returned _ _ _ _ _ _ _ _ E col Hcol) as [_ [Hc (e3 & He3 & Hin)]].
  change (source_entry s2 (update_source_key md now) = Some e2) in He2.
  rewrite He2 in He3. injection He3 as <-. auto.
Qed.

Lemma update_records_every_column_witness :
  last_updated
    (Schema
       (Some {[ "trip duration" := ColumnInfo "int64" "2016" None "nyc" "trip_duration" ]})
       (Some {[ "trip duration" := "trip_duration" ]})
       (Some {[ "nyc_2016" := SourceInfo "2016" None "nyc" ["trip duration"] ]})
       (Some "2024-05-01T10:00:00"))
  = Some "2024-05-01T10:00:00" /\
  exists e,
    source_entry
      (Schema
         (Some {[ "trip duration" := ColumnInfo "int64" "2016" None "nyc" "trip_duration" ]})
         (Some {[ "trip duration" := "trip_duration" ]})
         (Some {[ "nyc_2016" := SourceInfo "2016" None "nyc" ["trip duration"] ]})
         (Some "2024-05-01T10:00:00"))
      "nyc_2016" = Some e /\
    forall col, col ∈ labels [(" Trip Duration", Series int64 [VInt 634])] ->
      lower (strip col) ∈ src_columns e /\
      is_Some (column_entry
                 (Schema
                    (Some {[ "trip duration" :=
                               ColumnInfo "int64" "2016" None "nyc" "trip_duration" ]})
                    (Some {[ "trip duration" := "trip_duration" ]})
                    (Some {[ "nyc_2016" := SourceInfo "2016" None "nyc" ["trip duration"] ]})
                    (Some "2024-05-01T10:00:00"))
                 (lower (strip col))).
Proof.
  apply (update_records_every_column
           [(" Trip Duration", Series int64 [VInt 634])]
           (Metadata (Some "2016") None "nyc" "annual")
           (Clock "2024" "2024-05-01T10:00:00")
           (empty_schema "2024-05-01T09:00:00")).
  vm_compute. reflexivity.
Defined.

(** An invariant as a relation between the registry before and after *)
Lemma keeps_refl (I : schema -> Prop) (sd : schema) : I sd -> I sd.
Proof. auto. Qed.

Lemma keeps_trans (I : schema -> Prop) (a b c : schema) :
  (I a -> I b) -> (I b -> I c) -> I a -> I c.
Proof. auto. Qed.

Lemma well_formed_ensure_sources :
  preserves (fun s s' => well_formed s -> well_formed s') ensure_sources.
Proof.
  intros sd. unfold ensure_sources, modify. simpl.
  destruct (sources sd) eqn:E; [auto|].
  intros (Hm & Hn & Hs). repeat split; try apply Hm; try apply Hn.
  intros k e. unfold source_entry. simpl. rewrite lookup_empty. discriminate.
Qed.

Lemma well_formed_ensure_source_entry k y m r :
  preserves (fun s s' => well_formed s -> well_formed s') (ensure_source_entry k y m r).
Proof.
  intros sd. unfold ensure_source_entry, sbind, get_sources.
  destruct (sources sd) as [srcs|] eqn:Es; simpl; [|auto].
  destruct (srcs !! k) eqn:Ek; simpl; [auto|].
  intros (Hm & Hn & Hs). repeat split; try apply Hm; try apply Hn.
  intros k' e. unfold source_entry. simpl.
  destruct (decide (k = k')) as [<-|Hne].
  - rewrite lookup_insert_eq. intros [= <-]. constructor.
  - rewrite lookup_insert_ne by exact Hne. intros He. apply (Hs k').
    unfold source_entry. now rewrite Es.
Qed.

Lemma well_formed_record_source_column k c :
  preserves (fun s s' => well_formed s -> well_formed s') (record_source_column k c).
Proof.
  intros sd. unfold record_source_column, sbind, get_sources.
  destruct (sources sd) as [srcs|] eqn:Es; simpl; [|auto].
  destruct (srcs !! k) as [entry|] eqn:Ek; simpl; [|auto].
  case_bool_decide as Hin; simpl; [auto|].
  intros (Hm & Hn & Hs). repeat split; try apply Hm; try apply Hn.
  assert (Hentry : NoDup (src_columns entry))
    by (apply (Hs k); unfold source_entry; now rewrite Es).
  intros k' e. unfold source_entry. simpl.
  destruct (decide (k = k')) as [<-|Hne].
  - rewrite lookup_insert_eq. intros [= <-]. simpl.
    apply NoDup_app. repeat split; [exact Hentry | | apply NoDup_singleton].
    intros x Hx [->|Hx']%elem_of_cons; [contradiction | by apply elem_of_nil in Hx'].
  - rewrite lookup_insert_ne by exact Hne. intros He. apply (Hs k').
    unfold source_entry. now rewrite Es.
Qed.

Lemma well_formed_register_column c d y m r :
  preserves (fun s s' => well_formed s -> well_formed s') (register_column c d y m r).
Proof.
  intros sd. unfold register_column, sbind, get_columns.
  destruct (columns sd) as [cols|] eqn:Ec; simpl; [|auto].
  destruct (cols !! c) eqn:Ek; simpl; [auto|].
  intros (Hm & (Hn1 & Hn2) & Hs).
  assert (Hmap : forall k,
            (<[c := normalize_column_name c r]> (default ∅ (column_mappings sd))) !! k
            = if decide (c = k) then Some (normalize_column_name c r)
              else mapping_entry sd k).
  { intros k. destruct (decide (c = k)) as [<-|Hne].
    - apply lookup_insert_eq.
    - rewrite lookup_insert_ne by exact Hne. unfold mapping_entry.
      destruct (column_mappings sd); [reflexivity | apply lookup_empty]. }
  split; [|split; [split|]].
  - intros k. unfold column_entry, mapping_entry. simpl. rewrite Hmap.
    destruct (decide (c = k)) as [<-|Hne]; [eauto|].
    rewrite lookup_insert_ne by exact Hne. intros Hk. apply Hm.
    unfold column_entry. now rewrite Ec.
  - intros k v. unfold mapping_entry. simpl. rewrite Hmap.
    destruct (decide (c = k)) as [<-|Hne]; [|apply Hn1].
    intros [= <-]. apply normalize_region_independent.
  - intros k info. unfold column_entry. simpl.
    destruct (decide (c = k)) as [<-|Hne].
    + rewrite lookup_insert_eq. intros [= <-]. simpl. apply normalize_region_independent.
    + rewrite lookup_insert_ne by exact Hne. intros Hk. apply Hn2.
      unfold column_entry. now rewrite Ec.
  - exact Hs.
Qed.

Lemma well_formed_set_last_updated t :
  preserves (fun s s' => well_formed s -> well_formed s') (modify (set_last_updated t)).
Proof. intros sd. simpl. auto. Qed.

Lemma well_formed_run_updates (calls : list update_call) (sd : schema) :
  well_formed sd -> well_formed (run_updates calls sd).
Proof.
  apply (preserves_run_updates (fun s s' => well_formed s -> well_formed s')
           (keeps_refl well_formed) (keeps_trans well_formed)
           well_formed_ensure_sources well_formed_ensure_source_entry
           well_formed_record_source_column well_formed_register_column
           well_formed_set_last_updated).
Qed.

Lemma well_formed_empty (now : string) : well_formed (empty_schema now).
Proof.
  split; [|split; [split|]].
  - intros k [x Hx]. unfold column_entry in Hx. simpl in Hx.
    rewrite lookup_empty in Hx. discriminate.
  - intros k v Hv. unfold mapping_entry in Hv. simpl in Hv.
    rewrite lookup_empty in Hv. discriminate.
  - intros k info Hk. unfold column_entry in Hk. simpl in Hk.
    rewrite lookup_empty in Hk. discriminate.
  - intros k e He. unfold source_entry in He. simpl in He.
    rewrite lookup_empty in He. discriminate.
Qed.

(** X9: three invariants of the registry, kept by every sequence of calls of
    the updater, returning or raising: every column on record has a mapping;
    every mapping of a name, and the normalised name in its column record, is
    what the normaliser gives for the name; no source lists a column twice. *)
Theorem registry_invariants (calls : list update_call) (sd : schema) :
  (forall k, is_Some (column_entry sd k) -> is_Some (mapping_entry sd k)) /\
  ((forall k v, mapping_entry sd k = Some v -> v = normalize_column_name k "nyc") /\
   (forall k info, column_entry sd k = Some info ->
      normalized_name info = normalize_column_name k "nyc")) /\
  (forall k e, source_entry sd k = Some e -> NoDup (src_columns e)) ->
  (forall k, is_Some (column_entry (run_updates calls sd) k) ->
     is_Some (mapping_entry (run_updates calls sd) k)) /\
  ((forall k v, mapping_entry (run_updates calls sd) k = Some v ->
      v = normalize_column_name k "nyc") /\
   (forall k info, column_entry (run_updates calls sd) k = Some info ->
      normalized_name info = normalize_column_name k "nyc")) /\
  (forall k e, source_entry (run_updates calls sd) k = Some e -> NoDup (src_columns e)).
Proof. exact (well_formed_run_updates calls sd). Qed.

Lemma registry_invariants_witness :
  let sd :=
    run_updates
      [([("Start Station ID", Series int64 [VInt 72]); ("tripduration", Series int64 [VInt 9])],
        Metadata (Some "2015") None "nyc" "annual", Clock "2024" "2024-05-01T10:00:00");
       ([("tripduration", Series int64 [VInt 9]); ("tripduration", Series int64 [VInt 9])],
        Metadata (Some "2015") None "nyc" "annual", Clock "2024" "2024-05-01T10:05:00")]
      (empty_schema "2024-05-01T09:00:00") in
  (forall k, is_Some (column_entry sd k) -> is_Some (mapping_entry sd k)) /\
  ((forall k v, mapping_entry sd k = Some v -> v = normalize_column_name k "nyc") /\
   (forall k info, column_entry sd k = Some info ->
      normalized_name info = normalize_column_name k "nyc")) /\
  (forall k e, source_entry sd k = Some e -> NoDup (src_columns e)).
Proof.
  intros sd. apply (registry_invariants _ (empty_schema "2024-05-01T09:00:00")).
  apply well_formed_empty.
Defined.

(** X10: for a registry that the updater has built from the empty one, the
    rename of [transform_data] is the normaliser: the canonical name given to
    a raw column is [normalize_column_name] of the lowercased, stripped name,
    whether the column is registered or not. *)
Theorem rename_is_normaliser
    (calls : list update_call) (now region col : string) :
  canonical_for (run_updates calls (empty_schema now)) region col
  = normalize_column_name (lower (strip col)) region.
Proof.
  destruct (well_formed_run_updates calls _ (well_formed_empty now)) as (_ & [Hn _] & _).
  unfold canonical_for.
  destruct (default ∅ (column_mappings (run_updates calls (empty_schema now)))
              !! lower (strip col)) as [v|] eqn:E; [|reflexivity].
  rewrite (normalize_region_independent _ region). apply Hn.
  unfold mapping_entry. destruct (column_mappings _); [exact E|].
  simpl in E. rewrite lookup_empty in E. discriminate.
Qed.

Lemma with_source_entry_present (md : file_metadata) (now : clock) (s : schema) :
  is_Some (source_entry s (update_source_key md now)) -> with_source_entry md now s = s.
Proof.
  intros [e He]. unfold with_source_entry, sbind, ensure_sources, ensure_source_entry,
    sbind, get_sources, modify, sreturn, source_entry in *.
  destruct (sources s) as [srcs|] eqn:E; [|discriminate]. simpl. rewrite E, He. reflexivity.
Qed.

Lemma observe_column_noop
    (df : frame) (key y : string) (m : option string) (r col : string) (s : schema) :
  label_count col df = 1 -> recorded key col s ->
  observe_column df key y m r col s = (s, Return tt).
Proof.
  intros Hcount [[info Hinfo] (e & He & Hin)].
  destruct (column_dtype_unique df col Hcount) as [dt Hdt].
  unfold observe_column, sbind at 1, slift. rewrite Hdt.
  unfold sbind, record_source_column, sbind, get_sources, register_column, sbind,
    get_columns, source_entry, column_entry, sreturn in *.
  destruct (sources s) as [srcs|]; [|discriminate]. rewrite He.
  rewrite (bool_decide_eq_true_2 _ Hin).
  destruct (columns s) as [cols|]; [|discriminate]. now rewrite Hinfo.
Qed.

Lemma for_each_noop {A : Type} (body : A -> stateful unit) (xs : list A) (s : schema) :
  (forall x, x ∈ xs -> body x s = (s, Return tt)) -> for_each body xs s = (s, Return tt).
Proof.
  induction xs as [|x xs IH]; intros Hb; [reflexivity|].
  rewrite for_each_cons, (Hb x) by (by left). apply IH.
  intros y Hy. apply Hb. by right.
Qed.

(** X11: the updater run again on a dataset it has just taken in, filed under
    the same year, changes nothing of the registry but the time stamp, and
    returns. *)
Theorem update_twice
    (df : frame) (md : file_metadata) (now now' : clock) (sd sd1 : schema) :
  update_schema_with_new_columns df md now sd = (sd1, Return tt) ->
  update_year md now' = update_year md now ->
  update_schema_with_new_columns df md now' sd1
  = (set_last_updated (now_isoformat now') sd1, Return tt).
Proof.
  intros Hfirst Hyear.
  destruct (update_records_every_column df md now sd sd1 Hfirst) as (_ & e & He & Hcols).
  rewrite update_unfold in Hfirst.
  destruct (for_each _ _ _) as [s2 [[]|err]] eqn:E; [|discriminate].
  injection Hfirst as <-.
  assert (Hkey : update_source_key md now' = update_source_key md now)
    by (unfold update_source_key; now rewrite Hyear).
  rewrite update_unfold, Hkey, Hyear.
  assert (Hws : with_source_entry md now' (set_last_updated (now_isoformat now) s2)
                = set_last_updated (now_isoformat now) s2).
  { apply with_source_entry_present. rewrite Hkey. eauto. }
  rewrite Hws.
  rewrite for_each_noop; [reflexivity|].
  intros col Hcol. apply observe_column_noop.
  - exact (proj1 (observe_loop_returned _ _ _ _ _ _ _ _ E col Hcol)).
  - destruct (Hcols col Hcol) as [Hin Hc]. split; [exact Hc | eauto].
Qed.

Lemma update_twice_witness :
  update_schema_with_new_columns
    [("Start Station ID", Series int64 [VInt 72]); ("tripduration", Series int64 [VInt 9])]
    (Metadata None None "nyc" "unknown")
    (Clock "2024" "2024-05-02T08:00:00")
    (fst (update_schema_with_new_columns
            [("Start Station ID", Series int64 [VInt 72]);
             ("tripduration", Series int64 [VInt 9])]
            (Metadata None None "nyc" "unknown")
            (Clock "2024" "2024-05-01T10:00:00")
            (empty_schema "2024-05-01T09:00:00")))
  = (set_last_updated "2024-05-02T08:00:00"
       (fst (update_schema_with_new_columns
               [("Start Station ID", Series int64 [VInt 72]);
                ("tripduration", Series int64 [VInt 9])]
               (Metadata None None "nyc" "unknown")
               (Clock "2024" "2024-05-01T10:00:00")
               (empty_schema "2024-05-01T09:00:00"))),
     Return tt).
Proof.
  apply (update_twice _ _ (Clock "2024" "2024-05-01T10:00:00")
           (Clock "2024" "2024-05-02T08:00:00") (empty_schema "2024-05-01T09:00:00"));
    vm_compute; reflexivity.
Defined.

(** X12: on a registry without its [columns] key, a dataset whose first
    label does not repeat makes the updater raise [KeyError] for [columns].
    The registry it leaves has no [columns] key still and its old time stamp,
    but already has the source of the dataset with that first column
    listed. *)
Theorem update_without_columns_key
    (df : frame) (md : file_metadata) (now : clock) (sd : schema)
    (col : string) (s : series) :
  columns sd = None -> df !! 0 = Some (col, s) -> label_count col df = 1 ->
  snd (update_schema_with_new_columns df md now sd) = Raise (KeyError "columns") /\
  columns (fst (update_schema_with_new_columns df md now sd)) = None /\
  last_updated (fst (update_schema_with_new_columns df md now sd)) = last_updated sd /\
  exists e,
    source_entry (fst (update_schema_with_new_columns df md now sd))
      (update_source_key md now) = Some e /\
    lower (strip col) ∈ src_columns e.
Proof.
  intros Hnone H0 Hcount. rewrite update_unfold.
  destruct df as [|[l s0] df']; [discriminate|]. injection H0 as -> ->.
  change (labels ((col, s) :: df')) with (col :: labels df').
  rewrite for_each_cons.
  destruct (with_source_entry_fields md now sd) as (Hc & _ & Hl & Hs & _).
  destruct (column_dtype_unique _ col Hcount) as [dt Hdt].
  unfold observe_column, sbind at 1, slift. rewrite Hdt.
  destruct (record_source_column_spec _ (lower (strip col)) _ _ Hs)
    as (s1 & Hr & Hc1 & _ & Hl1 & Hs1 & _).
  unfold sbind. rewrite Hr.
  unfold register_column, sbind, get_columns.
  rewrite Hc1, Hc, Hnone. simpl.
  split; [reflexivity|]. split; [now rewrite Hc1, Hc|]. split; [now rewrite Hl1|].
  eexists. split; [exact Hs1|].
  case_bool_decide as Hin; [exact Hin|]. simpl. apply elem_of_app. right. by left.
Qed.

Lemma update_without_columns_key_witness :
  snd (update_schema_with_new_columns
         [("ride_id", Series object_ [VStr "A1"])]
         (Metadata (Some "2021") None "nyc" "annual")
         (Clock "2024" "2024-05-01T10:00:00")
         (Schema None None None None)) = Raise (KeyError "columns").
Proof.
  apply (update_without_columns_key
           [("ride_id", Series object_ [VStr "A1"])]
           (Metadata (Some "2021") None "nyc" "annual")
           (Clock "2024" "2024-05-01T10:00:00")
           (Schema None None None None) "ride_id" (Series object_ [VStr "A1"]));
    reflexivity.
Defined.

(* ===================================================================== *)
(** * More on the transform engine *)
(* ===================================================================== *)

Lemma has_column_count (df : frame) (l : string) :
  has_column df l = true <-> 1 <= label_count l df.
Proof.
  unfold label_count. destruct (has_column df l) eqn:E.
  - split; [intros _|reflexivity].
    destruct (List.filter (labelled l) df) eqn:F; [|simpl; lia].
    apply has_column_filter in F. congruence.
  - apply has_column_filter in E. rewrite E. simpl. split; [discriminate | lia].
Qed.

Lemma has_column_labels (df : frame) (l : string) :
  has_column df l = bool_decide (l ∈ labels df).
Proof.
  destruct (has_column df l) eqn:E; symmetry.
  - apply bool_decide_eq_true. apply has_column_count in E.
    destruct (decide (l ∈ labels df)) as [Hin|Hnin]; [exact Hin|].
    rewrite (label_count_absent _ _ Hnin) in E. lia.
  - apply bool_decide_eq_false. intros Hin. apply label_count_present in Hin.
    apply has_column_count in Hin. congruence.
Qed.

Lemma labels_setitem_any (df : frame) (l : string) (new : series) :
  labels (setitem df l new) = add_label l (labels df).
Proof.
  unfold setitem, add_label. rewrite <- has_column_labels.
  destruct (has_column df l); [apply labels_replace|].
  unfold labels. now rewrite map_app.
Qed.

Lemma getitem_few (df : frame) (l : string) :
  label_count l df = 1 -> exists s, getitem df l = Return (OneSeries s).
Proof.
  unfold label_count, getitem.
  destruct (List.filter (labelled l) df) as [|x [|y ys]]; simpl; try discriminate.
  eauto.
Qed.

Section TransformOutcome.
Context `{Pandas}.

Lemma fix_station_id_outcome (l : string) (df : frame) :
  (label_count l df <= 1 -> exists out, fix_station_id l df = Return out) /\
  (2 <= label_count l df -> fix_station_id l df = Raise (AttributeError "dtype")).
Proof.
  unfold fix_station_id. split; intros Hc.
  - destruct (has_column df l) eqn:E; [|eauto].
    apply has_column_count in E.
    destruct (getitem_few df l ltac:(lia)) as [s ->]. simpl.
    destruct (dtype_eqb (s_dtype s) object_); [|eauto]. simpl.
    destruct (getitem _ l) as [[s1|cols]|e]; simpl; eauto.
    destruct (pd_to_numeric s1); simpl; eauto.
  - rewrite (proj2 (has_column_count df l)) by lia.
    destruct (getitem_many df l Hc) as [cols ->]. reflexivity.
Qed.

Lemma prefix_station_name_outcome (l : string) (df : frame) :
  (label_count l df <= 1 -> exists out, prefix_station_name l df = Return out) /\
  (2 <= label_count l df -> prefix_station_name l df = Raise (AttributeError "str")).
Proof.
  unfold prefix_station_name. split; intros Hc.
  - destruct (has_column df l) eqn:E; [|eauto].
    apply has_column_count in E.
    destruct (getitem_few df l ltac:(lia)) as [s ->]. simpl. eauto.
  - rewrite (proj2 (has_column_count df l)) by lia.
    destruct (getitem_many df l Hc) as [cols ->]. reflexivity.
Qed.

Lemma prefix_station_name_labels (l : string) (df out : frame) :
  prefix_station_name l df = Return out -> labels out = labels df.
Proof.
  intros E.
  destruct (prefix_station_name_shape l df out E) as [[_ ->]|(s & _ & _ & ->)];
    [reflexivity | apply labels_replace].
Qed.

(** The Jersey City blocks, label by label *)
Lemma jersey_blocks_outcome (df : frame) :
  (Forall (fun l => label_count l df <= 1) station_labels ->
     exists out,
       (d ← fix_station_ids df; prefix_station_names d) = Return out /\
       labels out = labels df) /\
  (~ Forall (fun l => label_count l df <= 1) station_labels ->
     exists attr,
       (d ← fix_station_ids df; prefix_station_names d) = Raise (AttributeError attr)).
Proof.
  unfold fix_station_ids, prefix_station_names, station_labels.
  destruct (decide (label_count "start_station_id" df <= 1)) as [H1|H1].
  2:{ split; [intros Hall; inversion Hall; contradiction|].
      intros _. rewrite (proj2 (fix_station_id_outcome _ df)) by lia. eauto. }
  destruct (proj1 (fix_station_id_outcome "start_station_id" df) H1) as [d1 E1].
  rewrite E1, !bind_Return. pose proof (fix_station_id_labels _ _ _ E1) as L1.
  destruct (decide (label_count "end_station_id" df <= 1)) as [H2|H2].
  2:{ split; [intros Hall; inversion Hall as [|? ? _ Hall']; inversion Hall'; contradiction|].
      intros _.
      assert (2 <= label_count "end_station_id" d1) as H2'
        by (rewrite (label_count_same_labels _ d1 df L1); lia).
      rewrite (proj2 (fix_station_id_outcome _ d1) H2'). eauto. }
  assert (H2' : label_count "end_station_id" d1 <= 1)
    by (rewrite (label_count_same_labels _ d1 df L1); exact H2).
  destruct (proj1 (fix_station_id_outcome "end_station_id" d1) H2') as [d2 E2].
  rewrite E2, !bind_Return. pose proof (fix_station_id_labels _ _ _ E2) as L2.
  assert (L2' : labels d2 = labels df) by congruence.
  destruct (decide (label_count "start_station_name" df <= 1)) as [H3|H3].
  2:{ split; [intros Hall; inversion Hall as [|? ? _ Hall'];
              inversion Hall' as [|? ? _ Hall'']; inversion Hall''; contradiction|].
      intros _.
      assert (2 <= label_count "start_station_name" d2) as H3'
        by (rewrite (label_count_same_labels _ d2 df L2'); lia).
      rewrite (proj2 (prefix_station_name_outcome _ d2) H3'). eauto. }
  assert (H3' : label_count "start_station_name" d2 <= 1)
    by (rewrite (label_count_same_labels _ d2 df L2'); exact H3).
  destruct (proj1 (prefix_station_name_outcome _ d2) H3') as [d3 E3].
  rewrite E3, !bind_Return. pose proof (prefix_station_name_labels _ _ _ E3) as L3.
  assert (L3' : labels d3 = labels df) by congruence.
  destruct (decide (label_count "end_station_name" df <= 1)) as [H4|H4].
  2:{ split; [intros Hall; inversion Hall as [|? ? _ Hall'];
              inversion Hall' as [|? ? _ Hall'']; inversion Hall'' as [|? ? _ Hall3];
              inversion Hall3; contradiction|].
      intros _.
      assert (2 <= label_count "end_station_name" d3) as H4'
        by (rewrite (label_count_same_labels _ d3 df L3'); lia).
      rewrite (proj2 (prefix_station_name_outcome _ d3) H4'). eauto. }
  assert (H4' : label_count "end_station_name" d3 <= 1)
    by (rewrite (label_count_same_labels _ d3 df L3'); exact H4).
  destruct (proj1 (prefix_station_name_outcome _ d3) H4') as [d4 E4].
  rewrite E4. pose proof (prefix_station_name_labels _ _ _ E4) as L4.
  split.
  - intros _. exists d4. split; [reflexivity | congruence].
  - intros Hn. exfalso. apply Hn.
    repeat (apply Forall_cons; split; [assumption|]). apply Forall_nil_2.
Qed.

End TransformOutcome.

Lemma region_transform_jc (H : Pandas) (df : frame) :
  region_transform "jc" df
  = d ← (d ← fix_station_ids df; prefix_station_names d);
    Return (setitem_scalar d "region" "jersey_city").
Proof.
  unfold region_transform. simpl String.eqb. cbv iota.
  destruct (fix_station_ids df) as [d1|e]; [|reflexivity]. rewrite !bind_Return.
  reflexivity.
Qed.

(** X13: how [transform_data] ends.  Outside Jersey City it returns for every
    dataset and registry.  For a Jersey City file it returns when each of the
    four station labels is carried by at most one column after the rename,
    and otherwise raises [AttributeError]; it raises nothing else. *)
Theorem transform_outcome `{Pandas} (df : frame) (sd : schema) (md : file_metadata) :
  (md_region md <> "jc" -> exists out, transform_data df sd md = Return out) /\
  (md_region md = "jc" ->
     (Forall (fun l => label_count l (renamed df sd "jc") <= 1) station_labels ->
        exists out, transform_data df sd md = Return out) /\
     (~ Forall (fun l => label_count l (renamed df sd "jc") <= 1) station_labels ->
        exists attr, transform_data df sd md = Raise (AttributeError attr))).
Proof.
  split.
  - intros Hr. rewrite transform_data_eq, (region_transform_outside_jc _ _ Hr). eauto.
  - intros Hr. rewrite transform_data_eq, Hr, region_transform_jc.
    destruct (jersey_blocks_outcome (renamed df sd "jc")) as [Hok Hbad].
    split; intros Hall.
    + destruct (Hok Hall) as (d & -> & _). eauto.
    + destruct (Hbad Hall) as (attr & ->). eauto.
Qed.

Lemma transform_outcome_witness :
  exists attr,
    @transform_data text_pandas
      [("name", Series object_ [VStr "Grove St PATH"]);
       ("Start Station Name", Series object_ [VStr "Grove St"])]
      (empty_schema "2024-05-01T09:00:00")
      (Metadata (Some "2016") (Some "03") "jc" "monthly") = Raise (AttributeError attr).
Proof.
  apply (proj2 (proj2 (@transform_outcome text_pandas
                         [("name", Series object_ [VStr "Grove St PATH"]);
                          ("Start Station Name", Series object_ [VStr "Grove St"])]
                         (empty_schema "2024-05-01T09:00:00")
                         (Metadata (Some "2016") (Some "03") "jc" "monthly")) eq_refl)).
  intros Hall. apply Forall_cons in Hall as [_ Hall]. apply Forall_cons in Hall as [_ Hall].
  apply Forall_cons in Hall as [Hc _]. vm_compute in Hc. lia.
Defined.

Lemma setitem_lookup_inv (df : frame) (l l' : string) (new s : series) (i : nat) :
  setitem df l new !! i = Some (l', s) ->
  (l' = l /\ s = new) \/ (l' <> l /\ df !! i = Some (l', s)).
Proof.
  unfold setitem. destruct (has_column df l) eqn:E.
  - rewrite list_lookup_fmap. destruct (df !! i) as [c|] eqn:Hi; [|discriminate].
    simpl. unfold replace_column. destruct (labelled l c) eqn:Hl.
    + intros [= <- <-]. now left.
    + intros [= ->]. right. split; [|reflexivity].
      apply labelled_false in Hl. exact Hl.
  - intros Hi. destruct (decide (i < length df)) as [Hlt|Hge].
    + rewrite lookup_app_l in Hi by exact Hlt. right. split; [|exact Hi].
      intros ->. rewrite (has_column_lookup df i l s Hi) in E. discriminate.
    + rewrite lookup_app_r in Hi by lia.
      destruct (i - length df) as [|n]; [|destruct n; discriminate].
      injection Hi as <- <-. now left.
Qed.

Section TransformShape.
Context `{Pandas}.

Lemma labels_convert (df : frame) : labels (convert_datetime_columns df) = labels df.
Proof.
  rewrite convert_datetime_columns_pointwise. unfold labels. rewrite map_map.
  apply map_ext. intros c. apply convert_entry_fst.
Qed.

Lemma labels_renamed (df : frame) (sd : schema) (region : string) :
  labels (renamed df sd region) = map (canonical_for sd region) (labels df).
Proof. rewrite renamed_pointwise. unfold labels. now rewrite !map_map. Qed.

(** What the region block returns: its labels and its [region] columns *)
Lemma region_transform_shape (region : string) (df out : frame) :
  region_transform region df = Return out ->
  exists d, labels d = labels df /\
            out = setitem_scalar d "region" (region_value region) /\
            (region <> "jc" -> d = df) /\
            (region = "jc" -> (d0 ← fix_station_ids df; prefix_station_names d0) = Return d).
Proof.
  unfold region_value. destruct (String.eqb region "jc") eqn:Er.
  - apply String.eqb_eq in Er. subst region. rewrite region_transform_jc.
    destruct (jersey_blocks_outcome df) as [Hok Hbad].
    destruct (decide (Forall (fun l => label_count l df <= 1) station_labels)) as [Ha|Hn].
    + destruct (Hok Ha) as (d & Hd & Hl). rewrite Hd, bind_Return. intros [= <-].
      exists d. repeat split; auto. congruence.
    + destruct (Hbad Hn) as (attr & ->). discriminate.
  - apply String.eqb_neq in Er. rewrite (region_transform_outside_jc _ _ Er).
    intros [= <-]. exists df. repeat split; auto. congruence.
Qed.

End TransformShape.

(** X14: the columns of what [transform_data] returns.  Their labels are the
    canonical names of the columns of the dataset, in order, followed by
    [region] and then [data_source] unless a column already has that name;
    every column labelled [region] holds the name of the region in every row
    and every column labelled [data_source] the source tag. *)
Theorem transform_columns `{Pandas}
    (df : frame) (sd : schema) (md : file_metadata) (out : frame) :
  transform_data df sd md = Return out ->
  labels out
  = add_label "data_source"
      (add_label "region" (map (canonical_for sd (md_region md)) (labels df))) /\
  (forall i s, out !! i = Some ("region", s) ->
     exists n, s = Series object_ (repeat (VStr (region_value (md_region md))) n)) /\
  (forall i s, out !! i = Some ("data_source", s) ->
     exists n, s = Series object_ (repeat (VStr (data_source_of md)) n)).
Proof.
  rewrite transform_data_eq.
  destruct (region_transform _ _) as [d|e] eqn:E; [|discriminate].
  rewrite bind_Return. intros [= <-].
  destruct (region_transform_shape _ _ _ E) as (d0 & Hl & -> & _).
  split; [|split].
  - unfold setitem_scalar. rewrite labels_setitem_any, labels_convert.
    now rewrite labels_setitem_any, Hl, labels_renamed.
  - intros i s Hi. unfold setitem_scalar at 1 in Hi.
    apply setitem_lookup_inv in Hi as [[Hd _] | [_ Hi]]; [discriminate|].
    rewrite convert_datetime_columns_pointwise, list_lookup_fmap in Hi.
    destruct (_ !! i) as [c|] eqn:Hc; [|discriminate]. simpl in Hi.
    assert (Hfst : fst c = "region")
      by (rewrite <- (convert_entry_fst (setitem_scalar d0 "region"
                        (region_value (md_region md))) c); injection Hi as ->; reflexivity).
    destruct c as [l s0]. simpl in Hfst. subst l.
    unfold convert_entry in Hi. simpl in Hi. injection Hi as <-.
    unfold setitem_scalar in Hc.
    apply setitem_lookup_inv in Hc as [[_ ->] | [Hne _]]; [eauto | congruence].
  - intros i s Hi. unfold setitem_scalar at 1 in Hi.
    apply setitem_lookup_inv in Hi as [[_ ->] | [Hne _]]; [eauto | congruence].
Qed.

Lemma transform_columns_witness :
  labels
    [("start_station_id", Series int64 [VInt 72]);
     ("trip_duration", Series int64 [VInt 634]);
     ("region", Series object_ [VStr "new_york"]);
     ("data_source", Series object_ [VStr "nyc_2015"])]
  = add_label "data_source"
      (add_label "region"
         (map (canonical_for (empty_schema "2024-05-01T09:00:00") "nyc")
              (labels [("Start Station ID", Series int64 [VInt 72]);
                       ("tripduration", Series int64 [VInt 634])]))).
Proof.
  apply (@transform_columns text_pandas
           [("Start Station ID", Series int64 [VInt 72]);
            ("tripduration", Series int64 [VInt 634])]
           (empty_schema "2024-05-01T09:00:00")
           (Metadata (Some "2015") None "nyc" "annual")).
  vm_compute. reflexivity.
Defined.

(** X15: the columns [transform_data] does not touch.  When it returns, a
    column whose canonical name has no time keyword, is not [region] or
    [data_source] and, in a Jersey City file, is none of the four station
    labels, stands at its place under its canonical name with its values
    unchanged. *)
Theorem transform_keeps_other_columns `{Pandas}
    (df : frame) (sd : schema) (md : file_metadata) (out : frame)
    (i : nat) (raw : string) (s : series) :
  transform_data df sd md = Return out ->
  df !! i = Some (raw, s) ->
  has_time_keyword (canonical_for sd (md_region md) raw) = false ->
  canonical_for sd (md_region md) raw <> "region" ->
  canonical_for sd (md_region md) raw <> "data_source" ->
  (md_region md = "jc" -> canonical_for sd (md_region md) raw ∉ station_labels) ->
  out !! i = Some (canonical_for sd (md_region md) raw, s).
Proof.
  intros Hout Hi Hkw Hnr Hnd Hst.
  set (c := canonical_for sd (md_region md) raw) in *.
  rewrite transform_data_eq in Hout.
  destruct (region_transform _ _) as [d|e] eqn:E; [|discriminate].
  rewrite bind_Return in Hout. injection Hout as <-.
  pose proof (renamed_lookup df sd (md_region md) i raw s Hi) as Ri. fold c in Ri.
  destruct (region_transform_shape _ _ _ E) as (d0 & _ & -> & Hnj & Hjc).
  assert (H0 : d0 !! i = Some (c, s)).
  { destruct (decide (md_region md = "jc")) as [Hr|Hr]; [|now rewrite (Hnj Hr)].
    specialize (Hjc Hr). specialize (Hst Hr). rewrite Hr in *.
    unfold fix_station_ids, prefix_station_names in Hjc.
    destruct (fix_station_id "start_station_id" _) as [d1|e] eqn:F1; [|discriminate].
    rewrite bind_Return in Hjc.
    destruct (fix_station_id "end_station_id" d1) as [d2|e] eqn:F2; [|discriminate].
    rewrite bind_Return in Hjc.
    destruct (prefix_station_name "start_station_name" d2) as [d3|e] eqn:P1; [|discriminate].
    rewrite bind_Return in Hjc.
    unfold station_labels in Hst.
    eapply prefix_station_name_lookup_other; [exact Hjc | | intros ->; apply Hst; set_solver].
    eapply prefix_station_name_lookup_other; [exact P1 | | intros ->; apply Hst; set_solver].
    eapply fix_station_id_lookup_other; [exact F2 | | intros ->; apply Hst; set_solver].
    eapply fix_station_id_lookup_other; [exact F1 | exact Ri | intros ->; apply Hst; set_solver]. }
  apply setitem_scalar_lookup_other; [|exact Hnd].
  rewrite (convert_lookup _ i (c, s)).
  - unfold convert_entry. simpl fst. now rewrite Hkw.
  - apply setitem_scalar_lookup_other; [exact H0 | exact Hnr].
Qed.

Lemma transform_keeps_other_columns_witness :
  [("start_station_id", Series int64 [VInt 3184]);
   ("bike_id", Series int64 [VInt 26262]);
   ("region", Series object_ [VStr "jersey_city"]);
   ("data_source", Series object_ [VStr "jc_2016_03"])] !! 1
  = Some (canonical_for (empty_schema "2024-05-01T09:00:00") "jc" "Bike ID",
          Series int64 [VInt 26262]).
Proof.
  apply (@transform_keeps_other_columns text_pandas
           [("Start Station ID", Series object_ [VStr "JC-3184"]);
            ("Bike ID", Series int64 [VInt 26262])]
           (empty_schema "2024-05-01T09:00:00")
           (Metadata (Some "2016") (Some "03") "jc" "monthly"));
    [ vm_compute; reflexivity | reflexivity | vm_compute; reflexivity
    | vm_compute; discriminate | vm_compute; discriminate | ].
  intros _ Hin.
  assert (Hc : canonical_for (empty_schema "2024-05-01T09:00:00")
                 (md_region (Metadata (Some "2016") (Some "03") "jc" "monthly")) "Bike ID"
               = "bike_id") by (vm_compute; reflexivity).
  rewrite Hc in Hin. unfold station_labels in Hin.
  repeat (apply elem_of_cons in Hin as [Hin|Hin]; [discriminate|]).
  by apply elem_of_nil in Hin.
Defined.

(* ===================================================================== *)
(** * The handler of the processing module *)
(* ===================================================================== *)

Lemma update_extends (df : frame) (md : file_metadata) (now : clock) (sd : schema) :
  extends sd (fst (update_schema_with_new_columns df md now sd)).
Proof.
  apply (preserves_update extends extends_refl extends_trans
           extends_ensure_sources extends_ensure_source_entry
           extends_record_source_column extends_register_column
           extends_set_last_updated).
Qed.

Lemma selected_files_csv (env : environment) (ev : event) (files : list string) :
  ev_files_to_process ev = None ->
  select_files env ev = Finished files ->
  Forall (fun key => is_csv_key key = true) files.
Proof.
  intros Hnone. unfold select_files. rewrite Hnone.
  assert (Hscan : forall fs,
            match env_pages env with
            | Return pages => Finished (list_unprocessed_files pages)
            | Raise e => Aborted (Propagated e)
            end = Finished fs -> Forall (fun key => is_csv_key key = true) fs).
  { intros fs. destruct (env_pages env) as [pages|e]; [|discriminate].
    intros [= <-]. apply Forall_forall. intros key Hk.
    apply list_elem_of_In in Hk. unfold list_unprocessed_files in Hk.
    apply in_flat_map in Hk as ([keys|] & _ & Hk); [|destruct Hk].
    now apply filter_In in Hk as [_ Hc]. }
  destruct (ev_records ev) as [[|r records]|]; [discriminate | | apply Hscan].
  destruct (String.eqb (event_source r) "aws:s3"); [|apply Hscan].
  intros [= <-]. apply Forall_forall. intros key Hk.
  apply list_elem_of_In in Hk. unfold extract_files_from_event in Hk.
  apply filter_In in Hk as [_ Hc]. now apply andb_true_iff in Hc as [_ Hc].
Qed.

Section HandlerProperties.
Context `{Pandas}.

Lemma try_process_csv_key
    (g : list string) (env : environment) (i : nat) (key : string)
    (md : file_metadata) (st : handler_state) :
  is_csv_key key = true -> try_process_file g env i key md st = st.
Proof.
  intros Hcsv. unfold try_process_file.
  now rewrite (read_csv_key_none g _ _ key Hcsv).
Qed.

Lemma process_csv_keys
    (g : list string) (env : environment) (files : list string) (i : nat)
    (st : handler_state) :
  Forall (fun key => is_csv_key key = true) files ->
  process_files g env i files st = (st, Return tt) \/
  exists e, process_files g env i files st = (st, Raise e).
Proof.
  intros Hall. revert i. induction Hall as [|key files Hkey _ IH]; intros i; [now left|].
  simpl. destruct (extract_metadata_from_filename g key) as [md|e]; [|eauto].
  rewrite (try_process_csv_key g env i key md st Hkey). apply IH.
Qed.

(** X16: a run of the handler on an S3 event or on the scan of the bucket
    (no [files_to_process] in the event) processes nothing, whatever the
    module's globals.  It sends no upload; it either ends uncaught without
    any request to S3, or sends the registry exactly as loaded and, when that
    is accepted, answers 200 with [Processed 0 files] and an empty list. *)
Theorem event_and_scan_process_nothing (g : list string) (env : environment) (ev : event) :
  ev_files_to_process ev = None ->
  let loaded := load_existing_schema (env_stored_schema env) (env_load_time env) in
  (exists u, lambda_handler g env ev = ([], Aborted u)) \/
  lambda_handler g env ev
  = ([PutSchema loaded],
     match env_put_schema env loaded with
     | Raise e => Aborted (Propagated e)
     | Return _ => Finished (Response 200 "Processed 0 files" [])
     end).
Proof.
  intros Hnone loaded. unfold lambda_handler. fold loaded.
  destruct (select_files env ev) as [files|u] eqn:Es; [|eauto].
  pose proof (selected_files_csv env ev files Hnone Es) as Hcsv.
  destruct (process_csv_keys g env files 0 (HandlerState loaded [] []) Hcsv)
    as [-> | [e ->]]; [right; reflexivity | left; eauto].
Qed.

(** X17: as the module stands, the handler given at least one file ends
    uncaught with [NameError] for [os] at the first file, before any file is
    read: it has sent no request to S3, so the registry is not saved and no
    response is made. *)
Theorem handler_stops_at_first_file
    (env : environment) (ev : event) (file_key : string) (files : list string) :
  select_files env ev = Finished (file_key :: files) ->
  lambda_handler module_globals env ev = ([], Aborted (Propagated (NameError "os"))).
Proof. intros Es. unfold lambda_handler. now rewrite Es. Qed.

End HandlerProperties.

Lemma event_and_scan_process_nothing_witness :
  let env :=
    Environment (Raise (ClientError "NoSuchKey")) "2024-05-01T09:00:00"
      (Return [Some ["result_files/2021/202101-citibike-tripdata.csv"; "result_files/readme.txt"]])
      (fun _ _ => Return "ride_id,started_at")
      (fun _ _ => Return [("ride_id", Series object_ [VStr "A1"])])
      (fun _ => Clock "2024" "2024-05-01T10:00:00")
      (fun _ _ => Return "PAR1") (fun _ _ _ => Return tt) (fun _ => Return tt) in
  (exists u, @lambda_handler text_pandas ("os" :: module_globals) env (Event None None)
             = ([], Aborted u)) \/
  @lambda_handler text_pandas ("os" :: module_globals) env (Event None None)
  = ([PutSchema (empty_schema "2024-05-01T09:00:00")],
     Finished (Response 200 "Processed 0 files" [])).
Proof.
  intros env.
  exact (@event_and_scan_process_nothing text_pandas ("os" :: module_globals) env
           (Event None None) eq_refl).
Defined.

Lemma handler_stops_at_first_file_witness :
  @lambda_handler text_pandas module_globals
    (Environment (Raise (ClientError "NoSuchKey")) "2024-05-01T09:00:00"
       (Return []) (fun _ _ => Return "PK")
       (fun _ _ => Return [("ride_id", Series object_ [VStr "A1"])])
       (fun _ => Clock "2024" "2024-05-01T10:00:00")
       (fun _ _ => Return "PAR1") (fun _ _ _ => Return tt) (fun _ => Return tt))
    (Event None (Some ["result_files/2013/trips.xlsx"]))
  = ([], Aborted (Propagated (NameError "os"))).
Proof.
  apply (@handler_stops_at_first_file text_pandas _ _ "result_files/2013/trips.xlsx" []).
  reflexivity.
Defined.

Lemma destination_key_returned
    (g : list string) (file_key : string) (md : file_metadata) (k : string) :
  generate_destination_key g file_key md = Return k -> endswith ".parquet" k = true.
Proof.
  unfold generate_destination_key.
  destruct (load_global g "os") as [[]|e]; [|discriminate]. rewrite bind_Return.
  destruct (truthy (md_month md)); intros [= <-];
    repeat lazymatch goal with
           | |- endswith _ (_ +:+ ".parquet") = true => apply endswith_app
           | |- endswith _ (_ +:+ _) = true => apply endswith_app_l
           end.
Qed.

Lemma uploaded_more (requests more : list s3_request) (p : processed_file) :
  uploaded requests p -> uploaded (requests ++ more) p.
Proof.
  intros [He [body Hb]]. split; [exact He|]. exists body. apply elem_of_app. now left.
Qed.

Section HandlerBatch.
Context `{Pandas}.

(** What the [try] of one file does to the state of the handler *)
Lemma try_process_file_step
    (g : list string) (env : environment) (i : nat) (f : string)
    (md : file_metadata) (st : handler_state) :
  extends (hs_schema st) (hs_schema (try_process_file g env i f md st)) /\
  (exists more,
     hs_requests (try_process_file g env i f md st) = hs_requests st ++ more /\
     Forall is_upload more) /\
  (hs_processed (try_process_file g env i f md st) = hs_processed st \/
   exists p,
     hs_processed (try_process_file g env i f md st) = hs_processed st ++ [p] /\
     pf_file p = f /\
     uploaded (hs_requests (try_process_file g env i f md st)) p).
Proof.
  assert (Hsame : extends (hs_schema st) (hs_schema st) /\
                  (exists more, hs_requests st = hs_requests st ++ more /\
                                Forall is_upload more) /\
                  (hs_processed st = hs_processed st \/
                   exists p, hs_processed st = hs_processed st ++ [p] /\
                             pf_file p = f /\ uploaded (hs_requests st) p)).
  { split; [apply extends_refl|]. split; [|now left].
    exists []. split; [now rewrite app_nil_r | constructor]. }
  unfold try_process_file.
  destruct (read_file_to_dataframe _ _ _) as [[df|]|e]; try exact Hsame.
  destruct (frame_empty df); [exact Hsame|].
  pose proof (update_extends df md (env_now env i) (hs_schema st)) as Hext.
  destruct (update_schema_with_new_columns df md (env_now env i) (hs_schema st))
    as [sd1 [[]|e]]; simpl in *.
  2:{ split; [exact Hext|]. split; [|now left].
      exists []. split; [now rewrite app_nil_r | constructor]. }
  assert (Hkeep : extends (hs_schema st) sd1 /\
                  (exists more, hs_requests st = hs_requests st ++ more /\
                                Forall is_upload more) /\
                  (hs_processed st = hs_processed st \/
                   exists p, hs_processed st = hs_processed st ++ [p] /\
                             pf_file p = f /\ uploaded (hs_requests st) p)).
  { split; [exact Hext|]. split; [|now left].
    exists []. split; [now rewrite app_nil_r | constructor]. }
  destruct (transform_data df sd1 md) as [df'|e]; [|exact Hkeep].
  destruct (generate_destination_key g f md) as [dest|e] eqn:Ed; [|exact Hkeep].
  pose proof (destination_key_returned g f md dest Ed) as Hend.
  unfold save_dataframe_to_s3.
  destruct (env_to_parquet env i df') as [buf|e]; simpl.
  2:{ rewrite app_nil_r. exact Hkeep. }
  rewrite (parquet_key_fixed dest Hend).
  destruct (env_upload_fileobj env i buf dest) as [[]|e]; simpl.
  - split; [exact Hext|]. split.
    + eexists. split; [reflexivity|]. repeat constructor.
    + right. eexists. split; [reflexivity|]. split; [reflexivity|].
      split; [exact Hend|]. exists buf. simpl. apply elem_of_app. right. by left.
  - split; [exact Hext|]. split; [|now left].
    eexists. split; [reflexivity|]. repeat constructor.
Qed.

Lemma process_files_batch
    (g : list string) (env : environment) (files : list string) (i : nat)
    (st : handler_state) :
  load_global g "os" = Return tt ->
  exists st',
    process_files g env i files st = (st', Return tt) /\
    extends (hs_schema st) (hs_schema st') /\
    (exists more, hs_requests st' = hs_requests st ++ more /\ Forall is_upload more) /\
    exists new,
      hs_processed st' = hs_processed st ++ new /\
      map pf_file new `sublist_of` files /\
      Forall (uploaded (hs_requests st')) new.
Proof.
  intros Hos. revert i st. induction files as [|f files IH]; intros i st.
  - exists st. split; [reflexivity|]. split; [apply extends_refl|]. split.
    + exists []. split; [now rewrite app_nil_r | constructor].
    + exists []. split; [now rewrite app_nil_r|]. split; [constructor | constructor].
  - simpl. destruct (extract_metadata_total_with_os g f Hos) as [md ->].
    destruct (try_process_file_step g env i f md st) as (Hext & (more & Hreq & Hup) & Hproc).
    destruct (IH (S i) (try_process_file g env i f md st))
      as (st' & -> & Hext' & (more' & Hreq' & Hup') & new & Hnew & Hsub & Hall).
    exists st'. split; [reflexivity|]. split; [eapply extends_trans; eassumption|].
    split.
    { exists (more ++ more'). rewrite Hreq', Hreq, app_assoc. split; [reflexivity|].
      apply Forall_app. now split. }
    destruct Hproc as [Hp | (p & Hp & Hf & Hu)]; rewrite Hp in Hnew.
    + exists new. split; [exact Hnew|]. split; [|exact Hall].
      now apply sublist_cons.
    + exists (p :: new). split; [now rewrite Hnew, <- app_assoc|]. split.
      * simpl. rewrite Hf. now apply sublist_skip.
      * constructor; [|exact Hall]. rewrite Hreq'. now apply uploaded_more.
Qed.

(** X18: with [os] bound, no file makes the handler fail.  Whatever S3 and
    pandas answer for the files, the handler goes through all of them and then
    sends the registry once, as its last request; that registry has every key
    of the loaded one.  The files it reports are files of the list, in order;
    each has been uploaded under the destination reported for it, a key in
    [.parquet]; and the message counts them.  Only the saving of the registry
    can still make the handler end uncaught. *)
Theorem handler_partial_success
    (g : list string) (env : environment) (ev : event) (files : list string) :
  load_global g "os" = Return tt ->
  select_files env ev = Finished files ->
  exists st,
    lambda_handler g env ev
    = (hs_requests st ++ [PutSchema (hs_schema st)],
       match env_put_schema env (hs_schema st) with
       | Raise e => Aborted (Propagated e)
       | Return _ =>
           Finished
             (Response 200
                ("Processed " +:+ pretty (length (hs_processed st)) +:+ " files")
                (hs_processed st))
       end) /\
    extends (load_existing_schema (env_stored_schema env) (env_load_time env))
            (hs_schema st) /\
    Forall is_upload (hs_requests st) /\
    map pf_file (hs_processed st) `sublist_of` files /\
    Forall (uploaded (hs_requests st)) (hs_processed st).
Proof.
  intros Hos Es. unfold lambda_handler. rewrite Es.
  destruct (process_files_batch g env files 0
              (HandlerState (load_existing_schema (env_stored_schema env)
                               (env_load_time env)) [] []) Hos)
    as (st & -> & Hext & (more & Hreq & Hup) & new & Hnew & Hsub & Hall).
  simpl in Hext, Hreq, Hnew. exists st. split; [reflexivity|]. split; [exact Hext|].
  rewrite Hreq, Hnew. rewrite Hreq in Hall. auto.
Qed.

End HandlerBatch.

Lemma handler_partial_success_witness :
  let env :=
    Environment (Raise (ClientError "NoSuchKey")) "2024-05-01T09:00:00"
      (Return [])
      (fun i _ => match i with 0 => Raise (ClientError "AccessDenied") | _ => Return "PK" end)
      (fun _ _ => Return [(" Trip Duration ", Series int64 [VInt 634])])
      (fun _ => Clock "2024" "2024-05-01T10:00:00")
      (fun _ _ => Return "PAR1") (fun _ _ _ => Return tt) (fun _ => Return tt) in
  let files := ["result_files/a/2013-07 trips.xlsx";
                "result_files/b/201308-citibike-tripdata.xlsx"] in
  exists st,
    @lambda_handler text_pandas ("os" :: module_globals) env (Event None (Some files))
    = (hs_requests st ++ [PutSchema (hs_schema st)],
       match env_put_schema env (hs_schema st) with
       | Raise e => Aborted (Propagated e)
       | Return _ =>
           Finished
             (Response 200
                ("Processed " +:+ pretty (length (hs_processed st)) +:+ " files")
                (hs_processed st))
       end) /\
    extends (load_existing_schema (env_stored_schema env) (env_load_time env))
            (hs_schema st) /\
    Forall is_upload (hs_requests st) /\
    map pf_file (hs_processed st) `sublist_of` files /\
    Forall (uploaded (hs_requests st)) (hs_processed st).
Proof.
  intros env files.
  apply (@handler_partial_success text_pandas ("os" :: module_globals) env
           (Event None (Some files)) files); reflexivity.
Defined.

(** The same run, evaluated: the first file cannot be fetched, the second is
    processed and reported. *)
Example handler_run :
  @lambda_handler text_pandas ("os" :: module_globals)
    (Environment (Raise (ClientError "NoSuchKey")) "2024-05-01T09:00:00"
       (Return [])
       (fun i _ => match i with 0 => Raise (ClientError "AccessDenied") | _ => Return "PK" end)
       (fun _ _ => Return [(" Trip Duration ", Series int64 [VInt 634])])
       (fun _ => Clock "2024" "2024-05-01T10:00:00")
       (fun _ _ => Return "PAR1") (fun _ _ _ => Return tt) (fun _ => Return tt))
    (Event None (Some ["result_files/a/2013-07 trips.xlsx";
                       "result_files/b/201308-citibike-tripdata.xlsx"]))
  = ([UploadFileobj "PAR1" "processed_data/nyc/2013/08/201308-citibike-tripdata.parquet";
      PutSchema
        (Schema
           (Some {[ "trip duration" :=
                      ColumnInfo "int64" "2013" (Some "08") "nyc" "trip_duration" ]})
           (Some {[ "trip duration" := "trip_duration" ]})
           (Some {[ "nyc_2013_08" := SourceInfo "2013" (Some "08") "nyc" ["trip duration"] ]})
           (Some "2024-05-01T10:00:00"))],
     Finished
       (Response 200 "Processed 1 files"
          [ProcessedFile "result_files/b/201308-citibike-tripdata.xlsx"
             "processed_data/nyc/2013/08/201308-citibike-tripdata.parquet" 1 3])).
Proof. vm_compute. reflexivity. Qed.

(* ===================================================================== *)
(** * The orchestrator: [generate_urls] *)
(* ===================================================================== *)

Lemma length_flat_map_const {A B : Type} (f : A -> list B) (l : list A) (n : nat) :
  (forall x, length (f x) = n) -> length (flat_map f l) = length l * n.
Proof.
  intros Hf. induction l as [|x l IH]; simpl; [reflexivity|].
  rewrite length_app, Hf, IH. lia.
Qed.

Lemma Forall_flat_map {A B : Type} (P : B -> Prop) (f : A -> list B) (l : list A) :
  (forall x, Forall P (f x)) -> Forall P (flat_map f l).
Proof.
  intros Hf. induction l as [|x l IH]; simpl; [constructor|].
  apply Forall_app. split; [apply Hf | exact IH].
Qed.

(** X19: [generate_urls] called without years raises [NameError]: its default
    needs [datetime], which the orchestrator never imports.  With years it
    returns.  When months are given it returns two URLs for every year, month
    and region (the regions being New York and Jersey City when none is
    given); without months, one URL for every year and every region that is
    the empty prefix.  Every URL starts with the base URL. *)
Theorem generate_urls_outcome
    (current_year : Z) (years months : list Z) (regions : list string) :
  let regions' := match regions with [] => [""; "JC-"] | _ :: _ => regions end in
  (years = [] ->
     generate_urls orchestrator_globals current_year years months regions
     = Raise (NameError "datetime")) /\
  (years <> [] ->
     exists urls,
       generate_urls orchestrator_globals current_year years months regions = Return urls /\
       Forall (fun url => startswith BASE_URL url = true) urls /\
       length urls
       = match months with
         | _ :: _ => length years * (length months * (length regions' * 2))
         | [] => length years * length (List.filter (String.eqb "") regions')
         end).
Proof.
  intros regions'. split.
  - intros ->. reflexivity.
  - intros Hy. destruct years as [|y years]; [congruence|].
    unfold generate_urls. rewrite bind_Return. fold regions'.
    eexists. split; [reflexivity|]. split.
    + apply Forall_flat_map. intros year. destruct months as [|m months].
      * apply Forall_flat_map. intros region. unfold yearly_urls.
        destruct (String.eqb region ""); repeat constructor; apply startswith_app.
      * apply Forall_flat_map. intros month. apply Forall_flat_map. intros region.
        unfold monthly_urls. repeat constructor; apply startswith_app.
    + destruct months as [|m months].
      * apply length_flat_map_const. intros year.
        induction regions' as [|r rs IH]; [reflexivity|]. simpl.
        rewrite length_app, IH. unfold yearly_urls. destruct r; reflexivity.
      * apply length_flat_map_const. intros year.
        apply length_flat_map_const. intros month.
        apply length_flat_map_const. intros region. reflexivity.
Qed.

Lemma generate_urls_outcome_witness :
  exists urls,
    generate_urls orchestrator_globals 2024 [2023%Z] [1%Z; 2%Z] ["JC-"] = Return urls /\
    Forall (fun url => startswith BASE_URL url = true) urls /\
    length urls = 1 * (2 * (1 * 2)).
Proof.
  apply (proj2 (generate_urls_outcome 2024 [2023%Z] [1%Z; 2%Z] ["JC-"])).
  discriminate.
Defined.

Example generate_urls_run :
  generate_urls orchestrator_globals 2024 [2023%Z] [1%Z] [] =
  Return
    ["https://s3.amazonaws.com/tripdata/202301-citibike-tripdata.csv.zip";
     "https://s3.amazonaws.com/tripdata/202301-citibike-tripdata.zip";
     "https://s3.amazonaws.com/tripdata/JC-202301-citibike-tripdata.csv.zip";
     "https://s3.amazonaws.com/tripdata/JC-202301-citibike-tripdata.zip"] /\
  generate_urls orchestrator_globals 2024 [2023%Z; 2022%Z] [] [] =
  Return
    ["https://s3.amazonaws.com/tripdata/2023-citibike-tripdata.zip";
     "https://s3.amazonaws.com/tripdata/2022-citibike-tripdata.zip"].
Proof. vm_compute. auto. Qed.

Lemma urls_recognised_in_range :
  forallb (fun year => forallb (urls_recognised year) (seqZ 1 12)) (seqZ 2000 100) = true.
Proof. vm_compute. reflexivity. Qed.

Lemma extract_metadata_os_bound (g : list string) (filename : string) :
  load_global g "os" = Return tt ->
  extract_metadata_from_filename g filename
  = extract_metadata_from_filename ("os" :: module_globals) filename.
Proof. intros Hos. unfold extract_metadata_from_filename. now rewrite Hos. Qed.

(** X20: the file names of [generate_urls] are names the extractor reads
    back.  With [os] bound, for a year from 2000 to 2099 and a month from 1 to
    12, the extractor returns for both URLs of the month, in New York and in
    Jersey City, the year, the two-digit month, the region and the monthly
    grain they were generated from, and for the URL of the year the year and
    the annual grain. *)
Theorem generated_names_are_read_back (g : list string) (year month : Z) :
  load_global g "os" = Return tt ->
  (2000 <= year <= 2099)%Z -> (1 <= month <= 12)%Z ->
  (forall region url,
     region ∈ [""; "JC-"] -> url ∈ monthly_urls year month region ->
     extract_metadata_from_filename g url
     = Return (Metadata (Some (pretty year)) (Some (fmt_02d month))
                 (if String.eqb region "" then "nyc" else "jc") "monthly")) /\
  (forall url,
     url ∈ yearly_urls year "" ->
     extract_metadata_from_filename g url
     = Return (Metadata (Some (pretty year)) None "nyc" "annual")).
Proof.
  intros Hos Hy Hm.
  pose proof urls_recognised_in_range as Hall.
  rewrite forallb_forall in Hall.
  assert (Hyin : In year (seqZ 2000 100))
    by (apply list_elem_of_In, elem_of_seqZ; lia).
  specialize (Hall year Hyin). rewrite forallb_forall in Hall.
  assert (Hmin : In month (seqZ 1 12))
    by (apply list_elem_of_In, elem_of_seqZ; lia).
  specialize (Hall month Hmin). unfold urls_recognised in Hall.
  apply andb_true_iff in Hall as [Hmonthly Hyearly].
  rewrite forallb_forall in Hmonthly. rewrite forallb_forall in Hyearly.
  split.
  - intros region url Hr Hu. rewrite (extract_metadata_os_bound g url Hos).
    specialize (Hmonthly region (proj1 (list_elem_of_In _ _) Hr)).
    rewrite forallb_forall in Hmonthly.
    specialize (Hmonthly url (proj1 (list_elem_of_In _ _) Hu)).
    now apply bool_decide_eq_true in Hmonthly.
  - intros url Hu. rewrite (extract_metadata_os_bound g url Hos).
    specialize (Hyearly url (proj1 (list_elem_of_In _ _) Hu)).
    now apply bool_decide_eq_true in Hyearly.
Qed.

Lemma generated_names_are_read_back_witness :
  extract_metadata_from_filename ("os" :: module_globals)
    "https://s3.amazonaws.com/tripdata/JC-202307-citibike-tripdata.csv.zip"
  = Return (Metadata (Some "2023") (Some "07") "jc" "monthly").
Proof.
  apply (proj1 (generated_names_are_read_back ("os" :: module_globals) 2023 7
                  eq_refl ltac:(lia) ltac:(lia)) "JC-").
  - right. by left.
  - by left.
Defined.

(* ===================================================================== *)
(** * The orchestrator: the keys of extracted members *)
(* ===================================================================== *)

Lemma contains_slash_cons (c : ascii) (s : string) :
  contains "/" (String c s) = Ascii.eqb "/" c || contains "/" s.
Proof. cbn [contains startswith]. destruct (Ascii.eqb "/" c); reflexivity. Qed.

Lemma contains_slash_app (a b : string) : contains "/" (a +:+ "/" +:+ b) = true.
Proof.
  induction a as [|c a IH]; [reflexivity|].
  rewrite app_String, contains_slash_cons, IH. apply orb_true_r.
Qed.

Lemma basename_no_slash (s : string) : contains "/" s = false -> basename s = s.
Proof.
  destruct s as [|c s]; [reflexivity|]. rewrite contains_slash_cons.
  intros Hc. apply orb_false_iff in Hc as [Hc Hs]. simpl. rewrite Hs.
  rewrite Ascii.eqb_sym, Hc. reflexivity.
Qed.

Lemma basename_app_slash (a b : string) : basename (a +:+ "/" +:+ b) = basename b.
Proof.
  induction a as [|c a IH].
  - rewrite app_empty. change ("/" +:+ b) with (String "/" b).
    cbn [basename]. destruct (contains "/" b) eqn:Hb; [reflexivity|].
    now rewrite basename_no_slash.
  - rewrite app_String. cbn [basename]. now rewrite contains_slash_app.
Qed.

Lemma basename_destination_key (zip_key filename : string) :
  basename (Orchestrator.destination_key zip_key filename) = basename filename.
Proof.
  unfold Orchestrator.destination_key. cbv zeta.
  rewrite <- string_app_assoc. apply basename_app_slash.
Qed.



(** X21: a member extracted from an archive is processed as if the archive
    did not exist.  Its key is [result_files/], the name of the archive
    without [.zip], a slash and the name of the member; the processing module
    reads the metadata and builds the destination from the last component of
    that key only, which is the last component of the member's name.  So
    members of one name from two archives, such as the [.csv.zip] and the
    [.zip] of one month, get the same metadata and the same destination. *)
Theorem extracted_member_forgets_archive
    (g : list string) (zip_key filename : string) (md : file_metadata) :
  extract_metadata_from_filename g (Orchestrator.destination_key zip_key filename)
  = extract_metadata_from_filename g filename /\
  generate_destination_key g (Orchestrator.destination_key zip_key filename) md
  = generate_destination_key g filename md.
Proof.
  unfold extract_metadata_from_filename, generate_destination_key.
  now rewrite basename_destination_key.
Qed.



(* ===================================================================== *)
(** * The orchestrator: the requests of a run *)
(* ===================================================================== *)

Lemma download_requests
    (urlretrieve upload_file : string -> string -> result unit)
    (remove : string -> result unit) (url : string) :
  fst (Orchestrator.download_citibike_file urlretrieve upload_file remove url) = [] \/
  fst (Orchestrator.download_citibike_file urlretrieve upload_file remove url)
  = [Orchestrator.UploadFile ("/tmp/" +:+ basename url) (basename url)].
Proof.
  unfold Orchestrator.download_citibike_file.
  destruct (urlretrieve _ _); [right | left]; reflexivity.
Qed.

Lemma download_zip_key
    (urlretrieve upload_file : string -> string -> result unit)
    (remove : string -> result unit) (url zip_key msg : string) :
  snd (Orchestrator.download_citibike_file urlretrieve upload_file remove url)
  = Orchestrator.Downloaded zip_key msg ->
  zip_key = basename url.
Proof.
  unfold Orchestrator.download_citibike_file.
  destruct (urlretrieve _ _); simpl; [|discriminate].
  destruct (upload_file _ _); [|discriminate].
  destruct (remove _); [|discriminate]. now intros [= <- _].
Qed.

Lemma unzip_requests
    (namelist : string -> result (list string))
    (upload_member : nat -> string -> string -> result unit) (zip_key : string) :
  Forall (fun r => exists f k, r = Orchestrator.UploadMember f k)
         (fst (Orchestrator.unzip_citibike_file namelist upload_member zip_key)).
Proof.
  unfold Orchestrator.unzip_citibike_file.
  destruct (namelist zip_key) as [names|e]; [|constructor]. simpl.
  generalize 0 (@nil string). induction names as [|f names IH]; intros j keys; simpl.
  - constructor.
  - destruct (Orchestrator.is_data_member f); [|apply IH].
    destruct (upload_member j f _) as [[]|e]; simpl.
    + constructor; [eauto | apply IH].
    + repeat constructor; eauto.
Qed.

Lemma cleanup_requests
    (copy_object : string -> string -> result unit)
    (delete_object : string -> result unit) (zip_key : string) :
  let archive_key := "archive/" +:+ zip_key in
  (fst (Orchestrator.cleanup_files copy_object delete_object zip_key)
   = [Orchestrator.CopyObject zip_key archive_key] /\
   exists e, copy_object zip_key archive_key = Raise e) \/
  (fst (Orchestrator.cleanup_files copy_object delete_object zip_key)
   = [Orchestrator.CopyObject zip_key archive_key; Orchestrator.DeleteObject zip_key] /\
   copy_object zip_key archive_key = Return tt).
Proof.
  unfold Orchestrator.cleanup_files. cbv zeta.
  destruct (copy_object _ _) as [[]|e]; [right | left]; eauto.
Qed.

Section OrchestratorRun.
Context `{Pandas}.

(** The requests sent for one URL: the upload of the archive, the uploads of
    its members, the requests of the processing module and those of the
    cleanup; the last two are there exactly when the archive was unzipped. *)
Lemma process_url_requests
    (g : list string) (env : Orchestrator.environment) (i : nat) (url : string) :
  exists d u p c,
    fst (Orchestrator.process_url g env i url) = d ++ u ++ p ++ c /\
    (d = [] \/ exists l k, d = [Orchestrator.UploadFile l k]) /\
    Forall (fun r => exists f k, r = Orchestrator.UploadMember f k) u /\
    (p = [] /\ c = [] /\
       Orchestrator.result_files (snd (Orchestrator.process_url g env i url)) = [] \/
     exists keys z dl uz cl,
       let a := "archive/" +:+ z in
       let run := Orchestrator.process_citibike_files g (Orchestrator.env_process env i)
                    keys in
       p = fst run /\
       snd (Orchestrator.process_url g env i url)
       = Orchestrator.UrlDone url (Orchestrator.Downloaded z dl) uz (snd run) cl /\
       (c = [Orchestrator.CopyObject z a] \/
        c = [Orchestrator.CopyObject z a; Orchestrator.DeleteObject z] /\
        Orchestrator.env_copy_object env i z a = Return tt)).
Proof.
  unfold Orchestrator.process_url.
  set (dl := Orchestrator.download_citibike_file _ _ _ url).
  assert (Hd : fst dl = [] \/ exists l k, fst dl = [Orchestrator.UploadFile l k]).
  { destruct (download_requests (Orchestrator.env_urlretrieve env i)
                (Orchestrator.env_upload_file env i) (Orchestrator.env_remove env i) url)
      as [Hd | Hd]; [now left | right; eauto]. }
  destruct (snd dl) as [zip_key msg|e msg] eqn:Edl.
  2:{ exists (fst dl), [], [], []. simpl. rewrite app_nil_r.
      split; [reflexivity|]. split; [exact Hd|]. split; [constructor|]. left. auto. }
  set (uz := Orchestrator.unzip_citibike_file _ _ zip_key).
  pose proof (unzip_requests (Orchestrator.env_namelist env i)
                (Orchestrator.env_upload_member env i) zip_key) as Hu.
  fold uz in Hu.
  destruct (snd uz) as [csv_keys umsg|e umsg] eqn:Euz.
  2:{ exists (fst dl), (fst uz), [], []. simpl. rewrite app_nil_r.
      split; [reflexivity|]. split; [exact Hd|]. split; [exact Hu|]. left. auto. }
  exists (fst dl), (fst uz),
    (fst (Orchestrator.process_citibike_files g (Orchestrator.env_process env i) csv_keys)),
    (fst (Orchestrator.cleanup_files (Orchestrator.env_copy_object env i)
            (Orchestrator.env_delete_object env i) zip_key)).
  simpl. split; [reflexivity|]. split; [exact Hd|]. split; [exact Hu|].
  right. exists csv_keys, zip_key. eexists _, _, _. split; [reflexivity|].
  split; [reflexivity|].
  destruct (cleanup_requests (Orchestrator.env_copy_object env i)
              (Orchestrator.env_delete_object env i) zip_key) as [[-> _] | [-> Hc]];
    [now left | right; auto].
Qed.

Lemma result_url_process_url
    (g : list string) (env : Orchestrator.environment) (i : nat) (url : string) :
  Orchestrator.result_url (snd (Orchestrator.process_url g env i url)) = url.
Proof.
  unfold Orchestrator.process_url.
  destruct (snd (Orchestrator.download_citibike_file _ _ _ _)); [|reflexivity].
  destruct (snd (Orchestrator.unzip_citibike_file _ _ _)); reflexivity.
Qed.

Lemma result_urls_process_urls
    (g : list string) (env : Orchestrator.environment) (urls : list string) (i : nat) :
  map Orchestrator.result_url (snd (Orchestrator.process_urls g env i urls)) = urls.
Proof.
  revert i. induction urls as [|url urls IH]; intros i; [reflexivity|].
  simpl. now rewrite result_url_process_url, IH.
Qed.

(** X23: given URLs to work on, the handler always answers 200 with one
    result for each URL, in the order of the URLs, whatever failed on the
    way: a failure of one URL neither stops the handler nor removes the URL
    from the results.  The response has a crawler status exactly when
    [trigger_crawler] is set. *)
Theorem results_follow_urls
    (g : list string) (env : Orchestrator.environment) (ev : Orchestrator.event)
    (url : string) (urls : list string) :
  Orchestrator.resolve_urls env ev = Return (url :: urls) ->
  exists requests results crawler,
    Orchestrator.lambda_handler g env ev
    = (requests,
       Finished
         (Orchestrator.Response 200
            (Orchestrator.UrlsProcessed
               ("Processed " +:+ pretty (length (url :: urls)) +:+ " Citibike data URLs")
               results crawler))) /\
    map Orchestrator.result_url results = url :: urls /\
    (is_Some crawler <-> Orchestrator.ev_trigger_crawler ev = true).
Proof.
  intros Hr. unfold Orchestrator.lambda_handler. rewrite Hr.
  eexists _, _, _. split; [reflexivity|]. split.
  - apply (result_urls_process_urls g env (url :: urls) 0).
  - unfold Orchestrator.crawl. destruct (Orchestrator.ev_trigger_crawler ev); simpl.
    + split; eauto.
    + split; [intros [? [=]] | discriminate].
Qed.


Lemma crawl_requests (env : Orchestrator.environment) (ev : Orchestrator.event) :
  fst (Orchestrator.crawl env ev) = [] \/
  fst (Orchestrator.crawl env ev)
  = [Orchestrator.StartCrawler (Orchestrator.ev_crawler_name ev)].
Proof.
  unfold Orchestrator.crawl, Orchestrator.trigger_glue_crawler.
  destruct (Orchestrator.ev_trigger_crawler ev); [|now left].
  destruct (Orchestrator.env_get_crawler env _) as [state|e]; [|now left].
  destruct (String.eqb state "READY"); [now right | now left].
Qed.



End OrchestratorRun.

Lemma unprocessed_files_csv (pages : list (option (list string))) :
  Forall (fun key => is_csv_key key = true) (list_unprocessed_files pages).
Proof.
  apply Forall_forall. intros key Hk. apply list_elem_of_In in Hk.
  unfold list_unprocessed_files in Hk.
  apply in_flat_map in Hk as ([keys|] & _ & Hk); [|destruct Hk].
  now apply filter_In in Hk as [_ Hc].
Qed.

Lemma extract_metadata_as_it_stands (filename : string) :
  extract_metadata_from_filename module_globals filename = Raise (NameError "os").
Proof. reflexivity. Qed.

Lemma generate_urls_without_years (current_year : Z) (months : list Z) (regions : list string) :
  generate_urls orchestrator_globals current_year [] months regions
  = Raise (NameError "datetime").
Proof. reflexivity. Qed.

Lemma yearly_urls_none (year : Z) (regions : list string) :
  flat_map (yearly_urls year) regions = [] <-> "" ∉ regions.
Proof.
  induction regions as [|r rs IH]; simpl.
  - split; [intros _ Hin; by apply elem_of_nil in Hin | reflexivity].
  - unfold yearly_urls at 1. destruct (String.eqb r "") eqn:Er.
    + apply String.eqb_eq in Er as ->. split; [discriminate|].
      intros Hn. destruct Hn. by left.
    + apply String.eqb_neq in Er. simpl. rewrite IH. split.
      * intros Hn Hin. apply elem_of_cons in Hin as [Hin | Hin]; [congruence | auto].
      * intros Hn Hin. apply Hn. by right.
Qed.

Section OrchestratorOutcome.
Context `{Pandas}.

(** What the processing module does for the orchestrator whatever its
    imports, when every key it is given is a CSV key *)
Lemma processing_csv_keys
    (g : list string) (penv : processing_environment) (keys : list string) :
  Forall (fun key => is_csv_key key = true) keys ->
  let loaded := load_existing_schema (env_stored_schema penv) (env_load_time penv) in
  (exists u, processing_handler g penv (processing_event None (Some keys))
             = ([], Aborted u)) \/
  processing_handler g penv (processing_event None (Some keys))
  = ([PutSchema loaded],
     match env_put_schema penv loaded with
     | Raise e => Aborted (Propagated e)
     | Return _ => Finished (Response 200 "Processed 0 files" [])
     end).
Proof.
  intros Hcsv loaded. unfold lambda_handler. fold loaded.
  change (select_files penv (Event None (Some keys))) with (@Finished (list string) keys).
  destruct (process_csv_keys g penv keys 0 (HandlerState loaded [] []) Hcsv)
    as [-> | [e ->]]; [right; reflexivity | left; eauto].
Qed.

Lemma process_existing_run
    (g : list string) (env : Orchestrator.environment) (ev : Orchestrator.event) :
  let run := Orchestrator.process_existing_files g env ev in
  let penv := Orchestrator.env_process env 0 in
  Orchestrator.reported_files (snd run) = [] /\
  (forall r, Orchestrator.Process r ∈ fst run ->
     r = PutSchema (load_existing_schema (env_stored_schema penv) (env_load_time penv))) /\
  (forall msg files crawler,
     Orchestrator.body (snd run) = Orchestrator.ExistingProcessed msg files crawler ->
     Orchestrator.status_code (snd run) = 200 /\
     exists n, 0 < n /\ msg = "Processed " +:+ pretty n +:+ " existing files").
Proof.
  intros run penv. subst run. unfold Orchestrator.process_existing_files.
  destruct (Orchestrator.env_pages env) as [pages|e].
  2:{ split; [reflexivity|]. split; [|discriminate].
      intros r Hin. by apply elem_of_nil in Hin. }
  pose proof (unprocessed_files_csv pages) as Hcsv.
  destruct (list_unprocessed_files pages) as [|f files] eqn:Ef.
  { split; [reflexivity|]. split; [|discriminate].
    intros r Hin. by apply elem_of_nil in Hin. }
  fold penv.
  destruct (processing_csv_keys g penv (f :: files) Hcsv) as [[u ->] | ->]; simpl.
  - split; [reflexivity|]. split; [|discriminate].
    intros r Hin. by apply elem_of_nil in Hin.
  - destruct (env_put_schema penv _) as [[]|e]; simpl.
    + split; [reflexivity|]. split.
      * intros r Hin. apply elem_of_cons in Hin as [[= ->] | Hin]; [reflexivity|].
        destruct (crawl_requests env ev) as [Hc | Hc]; rewrite Hc in Hin.
        -- by apply elem_of_nil in Hin.
        -- apply list_elem_of_singleton in Hin. discriminate.
      * intros msg fs crawler [= <- _ _]. split; [reflexivity|].
        exists (S (length files)). split; [lia | reflexivity].
    + split; [reflexivity|]. split; [|discriminate].
      intros r Hin. apply list_elem_of_singleton in Hin. now injection Hin as ->.
Qed.

(** X25: [process_existing_files] cannot get a file processed, whatever the
    imports of the processing module.  It hands over CSV keys only, and
    those are the keys the reader of that module gives up on: no response
    reports a processed file, and the only request the processing module
    sends is the registry as it was loaded.  When the answer is the 200 of
    success, its message still counts the files that were found, at least
    one, as processed. *)
Theorem existing_files_are_never_processed
    (g : list string) (env : Orchestrator.environment) (ev : Orchestrator.event) :
  let run := Orchestrator.process_existing_files g env ev in
  let penv := Orchestrator.env_process env 0 in
  Orchestrator.reported_files (snd run) = [] /\
  (forall r, Orchestrator.Process r ∈ fst run ->
     r = PutSchema (load_existing_schema (env_stored_schema penv) (env_load_time penv))) /\
  (forall msg files crawler,
     Orchestrator.body (snd run) = Orchestrator.ExistingProcessed msg files crawler ->
     Orchestrator.status_code (snd run) = 200 /\
     exists n, 0 < n /\ msg = "Processed " +:+ pretty n +:+ " existing files").
Proof. apply process_existing_run. Qed.

Lemma process_citibike_files_as_it_stands
    (penv : processing_environment) (keys : list string) :
  (forall r, Orchestrator.Process r
               ∈ fst (Orchestrator.process_citibike_files module_globals penv keys) ->
     exists sd, r = PutSchema sd) /\
  (forall files msg,
     snd (Orchestrator.process_citibike_files module_globals penv keys)
     = Orchestrator.Processed files msg -> files = []).
Proof.
  unfold Orchestrator.process_citibike_files, lambda_handler.
  change (select_files penv (Event None (Some keys))) with (@Finished (list string) keys).
  destruct keys as [|f keys]; simpl.
  - split.
    + intros r Hin. apply list_elem_of_singleton in Hin. injection Hin as ->. eauto.
    + destruct (env_put_schema penv _); [|discriminate]. now intros files msg [= <- _].
  - split; [|discriminate]. intros r Hin. by apply elem_of_nil in Hin.
Qed.

Lemma process_urls_as_they_stand
    (env : Orchestrator.environment) (urls : list string) (i : nat) :
  (forall r, Orchestrator.Process r
               ∈ fst (Orchestrator.process_urls module_globals env i urls) ->
     exists sd, r = PutSchema sd) /\
  flat_map Orchestrator.result_files
    (snd (Orchestrator.process_urls module_globals env i urls)) = [].
Proof.
  revert i. induction urls as [|url urls IH]; intros i; simpl.
  - split; [|reflexivity]. intros r Hin. by apply elem_of_nil in Hin.
  - destruct (IH (S i)) as [IHr IHf]. rewrite IHf, app_nil_r.
    destruct (process_url_requests module_globals env i url)
      as (d & u & p & c & Heq & Hd & Hu & Hp).
    assert (Hdu : forall r, Orchestrator.Process r ∈ d ++ u -> False).
    { intros r Hin. apply elem_of_app in Hin as [Hin | Hin].
      - destruct Hd as [-> | (l & k & ->)]; [by apply elem_of_nil in Hin|].
        apply list_elem_of_singleton in Hin. discriminate.
      - rewrite Forall_forall in Hu. destruct (Hu _ Hin) as (f & k & [=]). }
    rewrite Heq, (app_assoc d u).
    destruct Hp as [(-> & -> & Hf) | (keys & z & dl & uz & cl & Hp & Hs & Hc)].
    + split; [|exact Hf]. intros r Hin.
      apply elem_of_app in Hin as [Hin | Hin]; [|now apply IHr].
      apply elem_of_app in Hin as [Hin | Hin]; [destruct (Hdu r Hin)|].
      by apply elem_of_nil in Hin.
    + cbv zeta in Hp, Hs, Hc.
      destruct (process_citibike_files_as_it_stands (Orchestrator.env_process env i) keys)
        as [Hr Hfiles].
      split.
      * intros r Hin. apply elem_of_app in Hin as [Hin | Hin]; [|now apply IHr].
        apply elem_of_app in Hin as [Hin | Hin]; [destruct (Hdu r Hin)|].
        apply elem_of_app in Hin as [Hin | Hin]; [rewrite Hp in Hin; now apply Hr|].
        destruct Hc as [-> | [-> _]].
        -- apply list_elem_of_singleton in Hin. discriminate.
        -- apply elem_of_cons in Hin as [[=] | Hin].
           apply list_elem_of_singleton in Hin. discriminate.
      * rewrite Hs. unfold Orchestrator.result_files.
        destruct (snd (Orchestrator.process_citibike_files _ _ _)) as [files msg|] eqn:E;
          [|reflexivity].
        now apply (Hfiles files msg).
Qed.

(** X26: as the two modules stand, a run of the orchestrator converts
    nothing.  The processing module, called for an archive with at least one
    extracted member, stops on its missing [os] before it reads anything, and
    the orchestrator records that as a failed step and goes on.  So the only
    request the processing module ever sends is a registry, never a Parquet
    file, and no response of the handler reports a processed file, whichever
    way it found its URLs or files. *)
Theorem orchestrator_converts_nothing
    (env : Orchestrator.environment) (ev : Orchestrator.event) :
  let run := Orchestrator.lambda_handler module_globals env ev in
  (forall r, Orchestrator.Process r ∈ fst run -> exists sd, r = PutSchema sd) /\
  (forall resp, snd run = Finished resp -> Orchestrator.reported_files resp = []).
Proof.
  intros run. subst run. unfold Orchestrator.lambda_handler.
  destruct (Orchestrator.resolve_urls env ev) as [[|url urls]|e].
  - destruct (Orchestrator.ev_process_existing ev); simpl.
    + destruct (process_existing_run module_globals env ev) as (Hf & Hr & _).
      split; [|now intros resp [= <-]]. intros r Hin. eauto.
    + split; [|now intros resp [= <-]]. intros r Hin. by apply elem_of_nil in Hin.
  - destruct (process_urls_as_they_stand env (url :: urls) 0) as [Hr Hf].
    split.
    + intros r Hin.
      change (Orchestrator.Process r
                ∈ fst (Orchestrator.process_urls module_globals env 0 (url :: urls))
                  ++ fst (Orchestrator.crawl env ev)) in Hin.
      apply elem_of_app in Hin as [Hin | Hin]; [now apply Hr|].
      destruct (crawl_requests env ev) as [Hc | Hc]; rewrite Hc in Hin.
      * by apply elem_of_nil in Hin.
      * apply list_elem_of_singleton in Hin. discriminate.
    + intros resp [= <-]. exact Hf.
  - split; [|discriminate]. intros r Hin. by apply elem_of_nil in Hin.
Qed.

End OrchestratorOutcome.

(* ===================================================================== *)
(** * The orchestrator: which way the handler takes *)
(* ===================================================================== *)

Lemma generated_urls_none
    (current_year y : Z) (ys months : list Z) (regions : list string) :
  exists urls,
    generate_urls orchestrator_globals current_year (y :: ys) months regions = Return urls /\
    (urls = [] <-> months = [] /\ regions <> [] /\ "" ∉ regions).
Proof.
  unfold generate_urls. rewrite bind_Return. eexists. split; [reflexivity|].
  destruct months as [|m ms].
  - cbn [flat_map]. split.
    + intros Hnil. apply app_eq_nil in Hnil as [Hnil _].
      apply yearly_urls_none in Hnil.
      destruct regions as [|r rs]; [destruct Hnil; by left|].
      split; [reflexivity|]. split; [discriminate | exact Hnil].
    + intros (_ & Hne & Hnot). destruct regions as [|r rs]; [congruence|].
      assert (Hall : forall year, flat_map (yearly_urls year) (r :: rs) = [])
        by (intros year; now apply yearly_urls_none).
      rewrite Hall. rewrite app_nil_l. clear - Hall.
      induction ys as [|y' ys IH]; [reflexivity|].
      change (flat_map (yearly_urls y') (r :: rs)
              ++ flat_map (fun year => flat_map (yearly_urls year) (r :: rs)) ys = []).
      now rewrite Hall, IH.
  - split; [|intros [[=] _]]. intros Hnil. exfalso.
    destruct regions as [|r rs]; cbn [flat_map] in Hnil;
      unfold monthly_urls at 1 in Hnil; discriminate.
Qed.

Lemma resolve_urls_outcome (env : Orchestrator.environment) (ev : Orchestrator.event) :
  let months_only :=
    Orchestrator.ev_urls ev = [] /\ Orchestrator.ev_years ev = [] /\
    Orchestrator.ev_months ev <> [] in
  match Orchestrator.resolve_urls env ev with
  | Raise e => e = NameError "datetime" /\ months_only
  | Return urls =>
      ~ months_only /\
      (urls = [] <->
       Orchestrator.ev_urls ev = [] /\ Orchestrator.ev_filenames ev = [] /\
       Orchestrator.ev_months ev = [] /\
       (Orchestrator.ev_years ev = [] \/
        Orchestrator.ev_regions ev <> [] /\ "" ∉ Orchestrator.ev_regions ev))
  end.
Proof.
  destruct ev as [urls filenames years months regions tc cn pe].
  unfold Orchestrator.resolve_urls. cbn [Orchestrator.ev_urls Orchestrator.ev_filenames
    Orchestrator.ev_years Orchestrator.ev_months Orchestrator.ev_regions].
  destruct urls as [|u us].
  2:{ cbn [Orchestrator.nonempty negb andb]. rewrite bind_Return.
      split; [intros [[=] _] | split; [discriminate | intros [[=] _]]]. }
  destruct years as [|y ys].
  - destruct months as [|m ms].
    + cbn [Orchestrator.nonempty negb andb orb]. rewrite bind_Return.
      cbn [Orchestrator.nonempty negb andb].
      split; [intros (_ & _ & Hm); congruence|].
      destruct filenames as [|f fs]; cbn [Orchestrator.nonempty map].
      * split; auto.
      * split; [discriminate | intros (_ & [=] & _)].
    + cbn [Orchestrator.nonempty negb andb orb].
      rewrite generate_urls_without_years, bind_Raise.
      split; [reflexivity|]. split; [reflexivity|]. split; [reflexivity | discriminate].
  - assert (Hgo : negb (Orchestrator.nonempty (@nil string))
                  && (Orchestrator.nonempty (y :: ys) || Orchestrator.nonempty months)
                  = true) by reflexivity.
    rewrite Hgo.
    destruct (generated_urls_none (Orchestrator.env_current_year env) y ys months regions)
      as (gen & -> & Hgen).
    rewrite bind_Return. split; [intros (_ & [=] & _)|].
    destruct gen as [|g gen]; cbn [Orchestrator.nonempty negb andb].
    + destruct (proj1 Hgen eq_refl) as (Hm & Hr & Hn).
      destruct filenames as [|f fs]; cbn [Orchestrator.nonempty map].
      * split; auto 6.
      * split; [discriminate | intros (_ & [=] & _)].
    + split; [discriminate|]. intros (_ & _ & Hm & [[=] | [Hr Hn]]).
      assert (Hnil : g :: gen = []) by (apply Hgen; auto). discriminate.
Qed.

(** X27: which way the handler takes.  It ends uncaught exactly when the
    event names months but neither URLs nor years, with [NameError] for
    [datetime] and before any request.  It answers 400 exactly when
    [process_existing] is unset and there is nothing to work on: no URLs, no
    file names, no months, and either no years or years with regions none of
    which is the empty prefix of New York, for which no yearly URL exists.
    URLs given in the event are worked on whatever else the event names. *)
Theorem handler_routes `{Pandas}
    (g : list string) (env : Orchestrator.environment) (ev : Orchestrator.event) :
  let run := Orchestrator.lambda_handler g env ev in
  ((exists u, snd run = Aborted u) <->
   Orchestrator.ev_urls ev = [] /\ Orchestrator.ev_years ev = [] /\
   Orchestrator.ev_months ev <> []) /\
  (forall u, snd run = Aborted u -> u = Propagated (NameError "datetime") /\ fst run = []) /\
  ((exists b, snd run = Finished (Orchestrator.Response 400 b)) <->
   Orchestrator.ev_process_existing ev = false /\
   Orchestrator.ev_urls ev = [] /\ Orchestrator.ev_filenames ev = [] /\
   Orchestrator.ev_months ev = [] /\
   (Orchestrator.ev_years ev = [] \/
    Orchestrator.ev_regions ev <> [] /\ "" ∉ Orchestrator.ev_regions ev)) /\
  (Orchestrator.ev_urls ev <> [] ->
   exists results crawler,
     snd run
     = Finished
         (Orchestrator.Response 200
            (Orchestrator.UrlsProcessed
               ("Processed " +:+ pretty (length (Orchestrator.ev_urls ev))
                +:+ " Citibike data URLs") results crawler)) /\
     map Orchestrator.result_url results = Orchestrator.ev_urls ev).
Proof.
  intros run. subst run. pose proof (resolve_urls_outcome env ev) as Hres.
  cbv zeta in Hres. unfold Orchestrator.lambda_handler.
  assert (Hexisting :
            forall b, snd (Orchestrator.process_existing_files g env ev)
                      <> Orchestrator.Response 400 b).
  { intros b. unfold Orchestrator.process_existing_files.
    destruct (Orchestrator.env_pages env) as [pages|e]; [|discriminate].
    destruct (list_unprocessed_files pages); [discriminate|].
    destruct (snd (processing_handler _ _ _)); discriminate. }
  destruct (Orchestrator.resolve_urls env ev) as [[|url urls]|e] eqn:Er.
  - destruct Hres as [Hnot Hnil]. pose proof (proj1 Hnil eq_refl) as Hcond.
    destruct (Orchestrator.ev_process_existing ev) eqn:Epe; simpl.
    + split; [split; [intros [u [=]] | intros Hm; now destruct Hnot]|].
      split; [discriminate|]. split.
      * split; [|intros [[=] _]]. intros [b [= Hb]]. now destruct (Hexisting b).
      * intros Hu. destruct Hcond as [Hcond _]. congruence.
    + split; [split; [intros [u [=]] | intros Hm; now destruct Hnot]|].
      split; [discriminate|]. split.
      * split; [intros _; auto | eauto].
      * intros Hu. destruct Hcond as [Hcond _]. congruence.
  - destruct Hres as [Hnot Hnil]. simpl.
    split; [split; [intros [u [=]] | intros Hm; now destruct Hnot]|].
    split; [discriminate|]. split.
    + split; [intros [b [=]]|]. intros (_ & Hcond).
      assert (Hn : url :: urls = []) by (now apply Hnil). discriminate.
    + intros Hu.
      assert (Hgiven : url :: urls = Orchestrator.ev_urls ev).
      { revert Er. unfold Orchestrator.resolve_urls.
        destruct (Orchestrator.ev_urls ev) as [|u us]; [congruence|].
        cbn [Orchestrator.nonempty negb andb]. rewrite bind_Return.
        cbn [Orchestrator.nonempty negb andb]. now intros [= -> ->]. }
      rewrite <- Hgiven. eexists _, _. split; [reflexivity|].
      apply (result_urls_process_urls g env (url :: urls) 0).
  - destruct Hres as [-> Hm]. simpl.
    split; [split; [intros _; exact Hm | eauto]|].
    split; [now intros u [= <-]|]. split.
    + split; [intros [b [=]]|]. intros (_ & _ & _ & Hmo & _).
      destruct Hm as (_ & _ & Hm). congruence.
    + intros Hu. destruct Hm as (Hm & _). congruence.
Qed.

(** A run on one month of Jersey City: the first archive is downloaded,
    its two CSV members are extracted, the processing module fails on them and
    the archive is moved all the same; the second archive does not exist. *)
Example orchestrator_run :
  @Orchestrator.lambda_handler text_pandas module_globals
    (Orchestrator.Environment 2024
       (fun i _ _ => match i with 0 => Return tt | _ => Raise (ClientError "HTTP Error 404") end)
       (fun _ _ _ => Return tt) (fun _ _ => Return tt)
       (fun _ _ => Return ["JC-202301-citibike-tripdata.csv"; "readme.txt"; "notes/Extra.CSV"])
       (fun _ _ _ _ => Return tt)
       (fun _ =>
          Environment (Raise (ClientError "NoSuchKey")) "2024-05-01T09:00:00" (Return [])
            (fun _ _ => Return "ride_id") (fun _ _ => Return [])
            (fun _ => Clock "2024" "2024-05-01T10:00:00")
            (fun _ _ => Return "PAR1") (fun _ _ _ => Return tt) (fun _ => Return tt))
       (fun _ _ _ => Return tt) (fun _ _ => Return tt) (Return [])
       (fun _ => Return "RUNNING") (fun _ => Return tt))
    (Orchestrator.Event [] [] [2023%Z] [1%Z] ["JC-"] true "citibike-data-crawler" false)
  = ([Orchestrator.UploadFile "/tmp/JC-202301-citibike-tripdata.csv.zip"
        "JC-202301-citibike-tripdata.csv.zip";
      Orchestrator.UploadMember "JC-202301-citibike-tripdata.csv"
        "result_files/JC-202301-citibike-tripdata.csv/JC-202301-citibike-tripdata.csv";
      Orchestrator.UploadMember "notes/Extra.CSV"
        "result_files/JC-202301-citibike-tripdata.csv/notes/Extra.CSV";
      Orchestrator.CopyObject "JC-202301-citibike-tripdata.csv.zip"
        "archive/JC-202301-citibike-tripdata.csv.zip";
      Orchestrator.DeleteObject "JC-202301-citibike-tripdata.csv.zip"],
     Finished
       (Orchestrator.Response 200
          (Orchestrator.UrlsProcessed "Processed 2 Citibike data URLs"
             [Orchestrator.UrlDone
                "https://s3.amazonaws.com/tripdata/JC-202301-citibike-tripdata.csv.zip"
                (Orchestrator.Downloaded "JC-202301-citibike-tripdata.csv.zip"
                   "Successfully downloaded and uploaded JC-202301-citibike-tripdata.csv.zip")
                (Orchestrator.Unzipped
                   ["result_files/JC-202301-citibike-tripdata.csv/JC-202301-citibike-tripdata.csv";
                    "result_files/JC-202301-citibike-tripdata.csv/notes/Extra.CSV"]
                   "Successfully extracted 2 files from JC-202301-citibike-tripdata.csv.zip")
                (Orchestrator.ProcessFailed (Propagated (NameError "os"))
                   "Failed to process CSV files")
                (Orchestrator.CleanedUp
                   "Successfully moved JC-202301-citibike-tripdata.csv.zip to archive location"
                   "archive/JC-202301-citibike-tripdata.csv.zip");
              Orchestrator.UrlNotDownloaded
                "https://s3.amazonaws.com/tripdata/JC-202301-citibike-tripdata.zip"
                (Orchestrator.DownloadFailed (ClientError "HTTP Error 404")
                   "Failed to download or upload JC-202301-citibike-tripdata.zip")]
             (Some (Orchestrator.NotReady
                      "Crawler citibike-data-crawler is not in READY state. Current state: RUNNING"))))).
Proof. vm_compute. reflexivity. Qed.

Lemma results_follow_urls_witness :
  let env :=
    Orchestrator.Environment 2024
      (fun i _ _ => match i with 0 => Raise (ClientError "HTTP Error 404") | _ => Return tt end)
      (fun _ _ _ => Return tt) (fun _ _ => Return tt)
      (fun _ _ => Return ["201307-citibike-tripdata.csv"])
      (fun _ _ _ _ => Raise (ClientError "AccessDenied"))
      (fun _ =>
         Environment (Raise (ClientError "NoSuchKey")) "2024-05-01T09:00:00" (Return [])
           (fun _ _ => Return "ride_id") (fun _ _ => Return [])
           (fun _ => Clock "2024" "2024-05-01T10:00:00")
           (fun _ _ => Return "PAR1") (fun _ _ _ => Return tt) (fun _ => Return tt))
      (fun _ _ _ => Return tt) (fun _ _ => Return tt) (Return [])
      (fun _ => Return "READY") (fun _ => Return tt) in
  let ev :=
    Orchestrator.Event [] ["201306-citibike-tripdata.zip"; "201307-citibike-tripdata.zip"]
      [] [] [] false "citibike-data-crawler" false in
  exists requests results crawler,
    @Orchestrator.lambda_handler text_pandas module_globals env ev
    = (requests,
       Finished
         (Orchestrator.Response 200
            (Orchestrator.UrlsProcessed
               ("Processed "
                +:+ pretty (length ["https://s3.amazonaws.com/tripdata/201306-citibike-tripdata.zip";
                                    "https://s3.amazonaws.com/tripdata/201307-citibike-tripdata.zip"])
                +:+ " Citibike data URLs")
               results crawler))) /\
    map Orchestrator.result_url results
    = ["https://s3.amazonaws.com/tripdata/201306-citibike-tripdata.zip";
       "https://s3.amazonaws.com/tripdata/201307-citibike-tripdata.zip"] /\
    (is_Some crawler <-> Orchestrator.ev_trigger_crawler ev = true).
Proof.
  intros env ev.
  exact (@results_follow_urls text_pandas module_globals env ev
           "https://s3.amazonaws.com/tripdata/201306-citibike-tripdata.zip"
           ["https://s3.amazonaws.com/tripdata/201307-citibike-tripdata.zip"] eq_refl).
Defined.


(* ===================================================================== *)
(** * The download handler *)
(* ===================================================================== *)

(** X28: the download handler never returns [False].  Its [except] logs
    through [logging], which the module does not import, so a [ClientError]
    of the upload leaves the handler as a [NameError]: the handler returns
    [True] or ends uncaught, and it returns [True] exactly when the download
    and the upload both went through. *)
Theorem download_never_returns_false
    (urlretrieve : string -> string -> result unit)
    (upload_file : string -> string -> string -> result unit) :
  let run := Download.lambda_handler Download.module_globals urlretrieve upload_file in
  let uploaded :=
    upload_file Download.LOCAL_FILE_PATH Download.BUCKET_NAME Download.LOCAL_FILE_NAME in
  run <> Return false /\
  (run = Return true <->
   urlretrieve Download.REMOTE_URL Download.LOCAL_FILE_PATH = Return tt /\
   uploaded = Return tt) /\
  (forall e,
     urlretrieve Download.REMOTE_URL Download.LOCAL_FILE_PATH = Return tt ->
     uploaded = Raise (ClientError e) ->
     run = Raise (NameError "logging")).
Proof.
  intros run uploaded. subst run uploaded. unfold Download.lambda_handler.
  destruct (urlretrieve _ _) as [[]|e0].
  2:{ rewrite bind_Raise. split; [discriminate|].
      split; [split; [discriminate | intros [[=] _]] | discriminate]. }
  rewrite bind_Return. cbv zeta.
  destruct (upload_file _ _ _) as [[]|e1].
  - split; [discriminate|]. split; [split; auto | discriminate].
  - assert (Hlog : load_global Download.module_globals "logging"
                   = Raise (NameError "logging")) by reflexivity.
    destruct e1; rewrite ?Hlog, ?bind_Raise;
      (split; [discriminate|]);
      (split; [split; [discriminate | intros [_ [=]]]|]);
      intros e _ [=]; reflexivity.
Qed.
